(** * OilPro Tanks: the Excel import fix, embedded and verified

    A shallow embedding of [excel_import_code_fix.py]:
    [validate_and_clean_excel_data], [create_inspection_from_excel_data]
    and [process_excel_import], together with the Python builtins they
    call ([dict.get], [str], [str.strip], [str.lower], [str.endswith],
    [float], [bool], [datetime.strptime], [datetime.now]).

    Python values are a tagged union, dicts are [gmap string value],
    exceptions are an error result, and the state threaded through the
    code holds the caller's dict object, the clock, the log and the
    external world (spreadsheet reader and object store).

    Embedded as well: [cleanup_orphaned_dashboard_entries] of the same
    file; of [openrouter_excel_extractor.py] the methods
    [_excel_to_text], [_create_extraction_prompt],
    [_call_openrouter_api], [_parse_ai_response] and
    [extract_excel_data]; of [updated_openrouter_extractor.py] the
    method [_parse_ai_response]. *)

From Stdlib Require Import ZArith String Ascii List DecimalString SpecFloat.
From Stdlib Require DecimalPos DecimalZ.
From stdpp Require Import base option gmap strings list.

Local Open Scope string_scope.
Local Open Scope Z_scope.

(** ** Python strings

    A [str] is modelled by [string]: a sequence of code points below 256
    (the Latin-1 range), one [ascii] per code point. *)

Module PyStr.

Definition code (c : ascii) : Z := Z.of_N (N_of_ascii c).

Definition in_range (lo hi : Z) (c : ascii) : bool :=
  (lo <=? code c) && (code c <=? hi).

(** [str.isspace] on one code point below 256. *)
Definition is_space (c : ascii) : bool :=
  in_range 9 13 c || in_range 28 32 c || (code c =? 133) || (code c =? 160).

Fixpoint lstrip (s : string) : string :=
  match s with
  | String c s' => if is_space c then lstrip s' else s
  | EmptyString => EmptyString
  end.

Fixpoint rstrip (s : string) : string :=
  match s with
  | String c s' =>
      match rstrip s' with
      | EmptyString => if is_space c then EmptyString else String c EmptyString
      | r => String c r
      end
  | EmptyString => EmptyString
  end.

(** [s.strip()] *)
Definition strip (s : string) : string := lstrip (rstrip s).

(** [str.lower] on one code point below 256: A-Z, and the accented
    capitals 192-222 except the multiplication sign 215. *)
Definition lower_char (c : ascii) : ascii :=
  if in_range 65 90 c || (in_range 192 222 c && negb (code c =? 215))
  then ascii_of_N (N_of_ascii c + 32) else c.

Definition upper_letter (c : ascii) : ascii :=
  if in_range 97 122 c then ascii_of_N (N_of_ascii c - 32) else c.

Definition is_letter (c : ascii) : bool :=
  in_range 65 90 c || in_range 97 122 c.

Fixpoint map_chars (f : ascii -> ascii) (s : string) : string :=
  match s with
  | String c s' => String (f c) (map_chars f s')
  | EmptyString => EmptyString
  end.

(** [s.lower()] *)
Definition lower (s : string) : string := map_chars lower_char s.

(** [s.replace(a, b)] for one-character [a] and [b]. *)
Definition replace_char (a b : ascii) (s : string) : string :=
  map_chars (fun c => if Ascii.eqb c a then b else c) s.

(** [s.title()] on the ASCII field names it is applied to: a letter
    that follows a non-letter is upper-cased, every other letter is
    lower-cased. *)
Fixpoint title_from (prev_letter : bool) (s : string) : string :=
  match s with
  | String c s' =>
      String (if prev_letter then lower_char c else upper_letter c)
             (title_from (is_letter c) s')
  | EmptyString => EmptyString
  end.

Definition title (s : string) : string := title_from false s.

(** [s.endswith(suffix)]: some tail of [s] is [suffix]. *)
Fixpoint endswith (s suffix : string) : bool :=
  String.eqb s suffix ||
  match s with
  | String _ s' => endswith s' suffix
  | EmptyString => false
  end.

(** [s.endswith((suf1, suf2, ...))] *)
Definition endswith_any (s : string) (suffixes : list string) : bool :=
  existsb (endswith s) suffixes.

(** [str(n)] for an [int]. *)
Definition of_Z (n : Z) : string := NilZero.string_of_int (Z.to_int n).

(** Left-padding with zeros up to [width] characters, as the
    [%04d] and [%02d] of [date.isoformat] do. *)
Fixpoint pad0 (fuel width : nat) (s : string) : string :=
  match fuel with
  | O => s
  | S f => if (String.length s <? width)%nat then pad0 f width (String "0" s) else s
  end.

Definition zfill (width : nat) (s : string) : string := pad0 width width s.

End PyStr.

(** ** Python values *)

(** [datetime.date] *)
Record date := Date { year : Z; month : Z; day : Z }.

(** The interface of CPython's [float] that the code relies on. The
    syntax of float literals is modelled below ([PyFloatSyntax]); the
    IEEE-754 side (rounding a literal or an [int] to binary64, the
    truth value, [repr]) is this interface. *)
Inductive float_literal :=
| LitInf (neg : bool)
| LitNan (neg : bool)
| LitDec (neg : bool) (mantissa : Z) (exp10 : Z).

Class PyFloat := {
  float : Type;
  (** [float(n)] for an [int]; [None] is [OverflowError]. *)
  float_of_int : Z -> option float;
  (** The binary64 value nearest to a literal. *)
  float_of_literal : float_literal -> float;
  (** [bool(x)], that is [x != 0.0]. *)
  float_bool : float -> bool;
  (** [str(x)] *)
  float_str : float -> string;
}.

Section Values.
Context `{PyFloat}.

Inductive value :=
| VNone
| VBool (b : bool)
| VInt (n : Z)
| VFloat (x : float)
| VStr (s : string)
| VDate (d : date).

(** [type(v).__name__], as it appears in error messages. *)
Definition type_name (v : value) : string :=
  match v with
  | VNone => "NoneType"
  | VBool _ => "bool"
  | VInt _ => "int"
  | VFloat _ => "float"
  | VStr _ => "str"
  | VDate _ => "datetime.date"
  end.

(** [date.isoformat], which is [str(d)]. *)
Definition date_isoformat (d : date) : string :=
  PyStr.zfill 4 (PyStr.of_Z (year d)) ++ "-" ++
  PyStr.zfill 2 (PyStr.of_Z (month d)) ++ "-" ++
  PyStr.zfill 2 (PyStr.of_Z (day d)).

(** [str(v)] *)
Definition py_str (v : value) : string :=
  match v with
  | VNone => "None"
  | VBool true => "True"
  | VBool false => "False"
  | VInt n => PyStr.of_Z n
  | VFloat x => float_str x
  | VStr s => s
  | VDate d => date_isoformat d
  end.

(** [bool(v)]: the truth value tested by [if v] and [if not v]. *)
Definition py_bool (v : value) : bool :=
  match v with
  | VNone => false
  | VBool b => b
  | VInt n => negb (n =? 0)
  | VFloat x => float_bool x
  | VStr s => negb (String.eqb s "")
  | VDate _ => true
  end.

(** [isinstance(v, str)] *)
Definition is_str (v : value) : bool :=
  match v with VStr _ => true | _ => false end.

End Values.

(** A Python [dict] with [str] keys. *)
Abbreviation dict := (gmap string value).

(** ** Exceptions and results *)

(** An exception: its class and [str(e)]. Only classes derived from
    [Exception] occur. *)
Record exn := Exn { exn_class : string; exn_str : string }.

Inductive result (A : Type) :=
| Ok (a : A)
| Raise (e : exn).
Arguments Ok {A} a.
Arguments Raise {A} e.

Definition AttributeError `{PyFloat} (v : value) (attr : string) : exn :=
  Exn "AttributeError"
      ("'" ++ type_name v ++ "' object has no attribute '" ++ attr ++ "'").

Definition ValueError (msg : string) : exn := Exn "ValueError" msg.
Definition TypeError (msg : string) : exn := Exn "TypeError" msg.
Definition OverflowError (msg : string) : exn := Exn "OverflowError" msg.
Definition IndexError (msg : string) : exn := Exn "IndexError" msg.
Definition Exception (msg : string) : exn := Exn "Exception" msg.

(** ** The syntax of [float(s)]

    CPython removes underscores that sit between digits, strips
    white space, and reads a sign followed by [inf], [infinity], [nan]
    (in any casing) or a decimal number with an optional exponent. The
    whole string has to be consumed. *)

Module PyFloatSyntax.
Import PyStr.

Definition is_digit (c : ascii) : bool := in_range 48 57 c.

Definition digit_val (c : ascii) : Z := code c - 48.

(** The white space [float] strips: it is not that of [str.strip]. *)
Definition is_float_space (c : ascii) : bool :=
  in_range 9 13 c || (code c =? 32) || (code c =? 133) || (code c =? 160).

Fixpoint lstrip_sp (s : string) : string :=
  match s with
  | String c s' => if is_float_space c then lstrip_sp s' else s
  | EmptyString => EmptyString
  end.

Fixpoint rstrip_sp (s : string) : string :=
  match s with
  | String c s' =>
      match rstrip_sp s' with
      | EmptyString => if is_float_space c then EmptyString else String c EmptyString
      | r => String c r
      end
  | EmptyString => EmptyString
  end.

(** An underscore is allowed only between two digits. *)
Fixpoint drop_underscores (prev : ascii) (s : string) : option string :=
  match s with
  | String c s' =>
      if Ascii.eqb c "_" then
        if is_digit prev then drop_underscores c s' else None
      else if Ascii.eqb prev "_" && negb (is_digit c) then None
      else option_map (String c) (drop_underscores c s')
  | EmptyString => if Ascii.eqb prev "_" then None else Some EmptyString
  end.

(** The longest prefix of digits, and the rest. *)
Fixpoint span_digits (s : string) : string * string :=
  match s with
  | String c s' =>
      if is_digit c then
        let '(ds, rest) := span_digits s' in (String c ds, rest)
      else (EmptyString, s)
  | EmptyString => (EmptyString, EmptyString)
  end.

Fixpoint digits_value (acc : Z) (ds : string) : Z :=
  match ds with
  | String c ds' => digits_value (10 * acc + digit_val c) ds'
  | EmptyString => acc
  end.

Definition split_sign (s : string) : bool * string :=
  match s with
  | String "+" r => (false, r)
  | String "-" r => (true, r)
  | _ => (false, s)
  end.

Definition parse_exponent (s : string) : option Z :=
  match s with
  | EmptyString => Some 0
  | String e r =>
      if Ascii.eqb e "e" || Ascii.eqb e "E" then
        let '(eneg, r1) := split_sign r in
        let '(ds, r2) := span_digits r1 in
        match ds, r2 with
        | String _ _, EmptyString =>
            Some (if eneg then - digits_value 0 ds else digits_value 0 ds)
        | _, _ => None
        end
      else None
  end.

Definition parse_unsigned (neg : bool) (s : string) : option float_literal :=
  let l := lower s in
  if String.eqb l "inf" || String.eqb l "infinity" then Some (LitInf neg)
  else if String.eqb l "nan" then Some (LitNan neg)
  else
    let '(ip, r1) := span_digits s in
    let '(fp, r2) :=
      match r1 with
      | String "." r => span_digits r
      | _ => (EmptyString, r1)
      end in
    if (String.length ip + String.length fp =? 0)%nat then None
    else
      match parse_exponent r2 with
      | Some e =>
          Some (LitDec neg (digits_value 0 (ip ++ fp))
                       (e - Z.of_nat (String.length fp)))
      | None => None
      end.

(** The literal [float(s)] reads; [None] is [ValueError]. *)
Definition parse (s : string) : option float_literal :=
  match drop_underscores "000" s with
  | Some s1 =>
      let '(neg, s2) := split_sign (lstrip_sp (rstrip_sp s1)) in
      parse_unsigned neg s2
  | None => None
  end.

End PyFloatSyntax.

(** ** [datetime.strptime(s, '%Y-%m-%d').date()]

    [_strptime] turns the format into the regular expression
    [(\d\d\d\d)-(1[0-2]|0[1-9]|[1-9])-(3[0-1]|[1-2]\d|0[1-9]|[1-9]| [1-9])],
    matches it at the start of [s], refuses unconverted data, and builds
    the date, which refuses year 0 and a day past the end of the month. *)

Module Strptime.
Import PyStr PyFloatSyntax.

Definition is_leap (y : Z) : bool :=
  (y mod 4 =? 0) && (negb (y mod 100 =? 0) || (y mod 400 =? 0)).

Definition days_in_month (y m : Z) : Z :=
  if m =? 2 then (if is_leap y then 29 else 28)
  else if (m =? 4) || (m =? 6) || (m =? 9) || (m =? 11) then 30
  else 31.

(** The alternatives of a group that match a prefix of [s], in the
    order the regular expression tries them, each with the rest. *)
Definition month_alternatives (s : string) : list (Z * string) :=
  match s with
  | String a r =>
      match r with
      | String b r' =>
          (if Ascii.eqb a "1" && in_range 48 50 b
           then [(10 + digit_val b, r')] else []) ++
          (if Ascii.eqb a "0" && in_range 49 57 b
           then [(digit_val b, r')] else [])
      | EmptyString => []
      end ++
      (if in_range 49 57 a then [(digit_val a, r)] else [])
  | EmptyString => []
  end.

Definition day_alternatives (s : string) : list (Z * string) :=
  match s with
  | String a r =>
      match r with
      | String b r' =>
          (if Ascii.eqb a "3" && in_range 48 49 b
           then [(30 + digit_val b, r')] else []) ++
          (if in_range 49 50 a && is_digit b
           then [(10 * digit_val a + digit_val b, r')] else []) ++
          (if Ascii.eqb a "0" && in_range 49 57 b
           then [(digit_val b, r')] else [])
      | EmptyString => []
      end ++
      (if in_range 49 57 a then [(digit_val a, r)] else []) ++
      match r with
      | String b r' =>
          if Ascii.eqb a " " && in_range 49 57 b
          then [(digit_val b, r')] else []
      | EmptyString => []
      end
  | EmptyString => []
  end.

(** The first month alternative after which [-] and a day match. *)
Fixpoint match_month_day (alts : list (Z * string)) : option (Z * Z * string) :=
  match alts with
  | (m, String "-" r) :: alts' =>
      match day_alternatives r with
      | (d, rest) :: _ => Some (m, d, rest)
      | [] => match_month_day alts'
      end
  | _ :: alts' => match_month_day alts'
  | [] => None
  end.

(** [None] is [ValueError]. *)
Definition strptime_ymd (s : string) : option date :=
  match s with
  | String y1 (String y2 (String y3 (String y4 (String "-" r)))) =>
      if is_digit y1 && is_digit y2 && is_digit y3 && is_digit y4 then
        match match_month_day (month_alternatives r) with
        | Some (m, d, EmptyString) =>
            let y := digits_value 0 (String y1 (String y2 (String y3 (String y4 EmptyString)))) in
            if (1 <=? y) && (d <=? days_in_month y m)
            then Some (Date y m d) else None
        | _ => None
        end
      else None
  | _ => None
  end.

End Strptime.

(** ** The state the code runs in *)

(** A reading of [datetime.now()]: [int(now.timestamp() * 1000)] and
    [now.date()]. *)
Record instant := Instant { epoch_ms : Z; today : date }.

(** The collaborators outside this file: the spreadsheet reader and the
    object store behind the [Inspection] class. Each may raise. *)
Class External `{PyFloat} := {
  world : Type;
  (** [pd.read_excel(path)]: the rows of the sheet, as dicts. *)
  pd_read_excel : string -> world -> result (list dict) * world;
  (** What calling [Inspection] with these keyword arguments raises, if
      anything. *)
  Inspection_init_error : dict -> option exn;
  (** [inspection.save()]: the id the store gives the record. *)
  Inspection_save : dict -> world -> result value * world;
  (** [Inspection.objects.get(report_number=r)]; [None] is a false
      object. *)
  Inspection_objects_get : value -> world -> result (option dict) * world;
}.

Section Program.
Context `{PyFloat} `{!External}.

(** A record of the [logging] module. The text that the f-string
    [Excel data: {excel_data}] renders is not modelled: the record
    carries the dict. *)
Inductive log_record :=
| LogInfo (msg : string)
| LogWarning (msg : string)
| LogError (msg : string)
| LogErrorData (data : dict).

Record state := State {
  (** the dict object the caller handed over ([raw_data], [excel_data]) *)
  st_raw : dict;
  (** the readings [datetime.now()] returns, in order *)
  st_clock : nat -> instant;
  (** how many readings were taken *)
  st_ticks : nat;
  st_log : list log_record;
  st_world : world;
}.

(** Computations that read and write the state and may raise. *)
Definition M (A : Type) : Type := state -> result A * state.

#[export] Instance M_ret : MRet M := fun A a st => (Ok a, st).

#[export] Instance M_bind : MBind M := fun A B k m st =>
  match m st with
  | (Ok a, st') => k a st'
  | (Raise e, st') => (Raise e, st')
  end.

Definition raise {A} (e : exn) : M A := fun st => (Raise e, st).

(** [try: body except: handler] with the exception bound. What [body]
    did to the state before it raised stays done. *)
Definition try_except {A} (body : M A) (handler : exn -> M A) : M A :=
  fun st =>
    match body st with
    | (Ok a, st') => (Ok a, st')
    | (Raise e, st') => handler e st'
    end.

(** [for x in l: acc = body(x, acc)] *)
Fixpoint for_each {A B} (l : list A) (body : A -> B -> M B) (acc : B) : M B :=
  match l with
  | [] => mret acc
  | x :: l' => acc' ← body x acc; for_each l' body acc'
  end.

(** [d.get(key, dflt)] *)
Definition dict_get (d : dict) (key : string) (dflt : value) : value :=
  default dflt (d !! key).

(** [raw_data.get(key, dflt)] on the caller's dict. *)
Definition raw_get (key : string) (dflt : value) : M value :=
  fun st => (Ok (dict_get (st_raw st) key dflt), st).

(** [key in excel_data] *)
Definition raw_contains (key : string) : M bool :=
  fun st => (Ok (bool_decide (is_Some (st_raw st !! key))), st).

(** [excel_data[key]] *)
Definition raw_getitem (key : string) : M value :=
  fun st =>
    match st_raw st !! key with
    | Some v => (Ok v, st)
    | None => (Raise (Exn "KeyError" ("'" ++ key ++ "'")), st)
    end.

(** [datetime.now()] *)
Definition datetime_now : M instant :=
  fun st =>
    (Ok (st_clock st (st_ticks st)),
     State (st_raw st) (st_clock st) (S (st_ticks st)) (st_log st) (st_world st)).

Definition emit (r : log_record) : M unit :=
  fun st =>
    (Ok tt,
     State (st_raw st) (st_clock st) (st_ticks st) (st_log st ++ [r]) (st_world st)).

(** A builtin that only returns or raises. *)
Definition lift {A} (r : result A) : M A := fun st => (r, st).

(** [v.endswith(suffixes)]: only [str] has the method. *)
Definition str_endswith (v : value) (suffixes : list string) : result bool :=
  match v with
  | VStr s => Ok (PyStr.endswith_any s suffixes)
  | _ => Raise (AttributeError v "endswith")
  end.

(** [v.lower()] *)
Definition str_lower (v : value) : result string :=
  match v with
  | VStr s => Ok (PyStr.lower s)
  | _ => Raise (AttributeError v "lower")
  end.

(** [datetime.strptime(s, '%Y-%m-%d').date()] *)
Definition strptime_date (s : string) : result date :=
  match Strptime.strptime_ymd s with
  | Some d => Ok d
  | None => Raise (ValueError "time data does not match format '%Y-%m-%d'")
  end.

(** [float(v)] *)
Definition py_float (v : value) : result float :=
  match v with
  | VStr s =>
      match PyFloatSyntax.parse s with
      | Some l => Ok (float_of_literal l)
      | None => Raise (ValueError "could not convert string to float")
      end
  | VInt n =>
      match float_of_int n with
      | Some x => Ok x
      | None => Raise (OverflowError "int too large to convert to float")
      end
  | VBool b =>
      match float_of_int (if b then 1 else 0) with
      | Some x => Ok x
      | None => Raise (OverflowError "int too large to convert to float")
      end
  | VFloat x => Ok x
  | VNone | VDate _ =>
      Raise (TypeError ("float() argument must be a string or a real number, not '"
                        ++ type_name v ++ "'"))
  end.

(** ** [validate_and_clean_excel_data] *)

Definition service_mapping : gmap string string :=
  list_to_map
    [ ("crude_oil", "Crude Oil");
      ("crude oil", "Crude Oil");
      ("diesel", "Diesel");
      ("gasoline", "Gasoline");
      ("alcohol", "Alcohol");
      ("fish oil and sludge oil", "Fish Oil and Sludge Oil");
      ("other", "Other") ].

Definition numeric_fields : list string :=
  ["diameter"; "height"; "capacity"; "year_built"].

Definition text_fields : list string :=
  ["shell_material"; "roof_type"; "foundation_type"].

(** [field.replace('_', ' ').title()] *)
Definition label (field : string) : string :=
  PyStr.title (PyStr.replace_char "_" " " field).

Definition file_extensions : list string := [".xlsx"; ".xls"; ".csv"].

(** The function, one definition for each commented block of its body;
    each takes [cleaned_data] as built so far and returns it extended. *)

(** [# Handle Tank ID - prevent filenames from being used as Tank IDs] *)
Definition handle_tank_id (cleaned_data : dict) : M dict :=
  alt ← raw_get "Tank ID" (VStr "");
  tank_id ← raw_get "tank_id" alt;
  is_file ← lift (str_endswith tank_id file_extensions);
  tank_id ←
    (if is_file : bool then
       (* If Tank ID looks like a filename, try to extract from other fields *)
       alt ← raw_get "unit_id" (VStr "UNKNOWN");
       raw_get "tank_number" alt
     else mret tank_id);
  mret (<["tank_id" := VStr (PyStr.strip (py_str tank_id))]> cleaned_data).

(** [# Handle Report Number] *)
Definition handle_report_number (cleaned_data : dict) : M dict :=
  alt ← raw_get "Report Number" (VStr "");
  report_num ← raw_get "report_number" alt;
  report_num ←
    (if negb (py_bool report_num) then
       (* Generate report number if missing *)
       now ← datetime_now;
       mret (VStr ("IMP-" ++ PyStr.of_Z (epoch_ms now)))
     else mret report_num);
  mret (<["report_number" := VStr (PyStr.strip (py_str report_num))]> cleaned_data).

(** [# Standardize Service Type] *)
Definition standardize_service_type (cleaned_data : dict) : M dict :=
  alt ← raw_get "product" (VStr "");
  alt ← raw_get "Service" alt;
  service ← raw_get "service" alt;
  key ← lift (str_lower service);
  mret (<["service" := default service (VStr <$> service_mapping !! key)]> cleaned_data).

(** [# Handle Inspector] *)
Definition handle_inspector (cleaned_data : dict) : M dict :=
  alt ← raw_get "Inspector" (VStr "Unknown Inspector");
  inspector ← raw_get "inspector" alt;
  mret (<["inspector" := VStr (PyStr.strip (py_str inspector))]> cleaned_data).

(** [# Handle Inspection Date] *)
Definition handle_inspection_date (cleaned_data : dict) : M dict :=
  alt ← raw_get "Inspection Date" (VStr "");
  inspection_date ← raw_get "inspection_date" alt;
  if py_bool inspection_date then
    try_except
      ((* Try to parse date *)
       match inspection_date with
       | VStr s =>
           d ← lift (strptime_date s);
           mret (<["inspection_date" := VDate d]> cleaned_data)
       | _ => mret (<["inspection_date" := inspection_date]> cleaned_data)
       end)
      (fun _ =>
         now ← datetime_now;
         mret (<["inspection_date" := VDate (today now)]> cleaned_data))
  else
    now ← datetime_now;
    mret (<["inspection_date" := VDate (today now)]> cleaned_data).

(** One turn of the loop under [# Handle numeric fields safely]. *)
Definition handle_numeric_field (field : string) (cleaned_data : dict) : M dict :=
  alt ← raw_get (label field) (VInt 0);
  value ← raw_get field alt;
  try_except
    (if py_bool value then
       x ← lift (py_float value);
       mret (<[field := VFloat x]> cleaned_data)
     else mret (<[field := VInt 0]> cleaned_data))
    (fun _ => mret (<[field := VInt 0]> cleaned_data)).

(** One turn of the loop under [# Handle text fields]. *)
Definition handle_text_field (field : string) (cleaned_data : dict) : M dict :=
  alt ← raw_get (label field) (VStr "");
  value ← raw_get field alt;
  mret (<[field := VStr (PyStr.strip (py_str value))]> cleaned_data).

Definition validate_and_clean_excel_data : M dict :=
  let cleaned_data : dict := ∅ in
  cleaned_data ← handle_tank_id cleaned_data;
  cleaned_data ← handle_report_number cleaned_data;
  cleaned_data ← standardize_service_type cleaned_data;
  cleaned_data ← handle_inspector cleaned_data;
  cleaned_data ← handle_inspection_date cleaned_data;
  cleaned_data ← for_each numeric_fields handle_numeric_field cleaned_data;
  cleaned_data ← for_each text_fields handle_text_field cleaned_data;
  mret cleaned_data.

(** ** [create_inspection_from_excel_data] *)

#[export] Instance value_is_none_dec (v : value) : Decision (v = VNone).
Proof. destruct v; (by left) || (by right). Defined.

Definition special_fields : list string :=
  ["findings"; "recommendations"; "notes"].

(** Modelled from the spec: the [Inspection] class is not among the
    sources. The spec's record carries the attributes it is built with
    (the twelve cleaned fields and [status]) and takes [findings],
    [recommendations] and [notes] as optional attributes set after
    construction. An [Inspection] object is modelled by the dict of its
    attributes; whether the constructor raises is left to the
    collaborator. *)
Definition Inspection (kwargs : dict) : M dict :=
  match Inspection_init_error kwargs with
  | Some e => raise e
  | None => mret kwargs
  end.

(** [obj.name] *)
Definition getattr (obj : dict) (name : string) : M value :=
  match obj !! name with
  | Some v => mret v
  | None =>
      raise (Exn "AttributeError"
                 ("'Inspection' object has no attribute '" ++ name ++ "'"))
  end.

(** [inspection.save()]. Modelled from the spec: the persistence
    collaborator's [save(record)] either fails or stores the record. The
    [id] that [process_excel_import] reads afterwards is the one the
    store gives the record; no other attribute changes. *)
Definition save (inspection : dict) : M dict :=
  fun st =>
    match Inspection_save inspection (st_world st) with
    | (Ok id, w) =>
        (Ok (<["id" := id]> inspection),
         State (st_raw st) (st_clock st) (st_ticks st) (st_log st) w)
    | (Raise e, w) =>
        (Raise e, State (st_raw st) (st_clock st) (st_ticks st) (st_log st) w)
    end.

(** [Inspection.objects.get(report_number=r)] *)
Definition objects_get (r : value) : M (option dict) :=
  fun st =>
    let '(res, w) := Inspection_objects_get r (st_world st) in
    (res, State (st_raw st) (st_clock st) (st_ticks st) (st_log st) w).

(** The keyword arguments of the constructor: the cleaned fields and
    the default status, [None] values removed. *)
Definition valid_constructor_fields (cleaned_data : dict) : dict :=
  let valid_constructor_fields : dict :=
    list_to_map
      [ ("tank_id", dict_get cleaned_data "tank_id" (VStr ""));
        ("report_number", dict_get cleaned_data "report_number" (VStr ""));
        ("service", dict_get cleaned_data "service" (VStr ""));
        ("inspector", dict_get cleaned_data "inspector" (VStr ""));
        ("inspection_date", dict_get cleaned_data "inspection_date" VNone);
        ("diameter", dict_get cleaned_data "diameter" (VInt 0));
        ("height", dict_get cleaned_data "height" (VInt 0));
        ("capacity", dict_get cleaned_data "capacity" (VInt 0));
        ("year_built", dict_get cleaned_data "year_built" (VInt 0));
        ("shell_material", dict_get cleaned_data "shell_material" (VStr ""));
        ("roof_type", dict_get cleaned_data "roof_type" (VStr ""));
        ("foundation_type", dict_get cleaned_data "foundation_type" (VStr ""));
        ("status", VStr "Draft") ] in
  (* Remove any None values *)
  filter (fun kv => kv.2 ≠ VNone) valid_constructor_fields.

(** One turn of the loop over [special_fields]:
    [if field in excel_data: setattr(inspection, field, excel_data[field])] *)
Definition attach_special_field (field : string) (inspection : dict) : M dict :=
  present ← raw_contains field;
  if present : bool then
    v ← raw_getitem field;
    mret (<[field := v]> inspection)
  else mret inspection.

(** The body of the [try] block. *)
Definition create_inspection_body : M dict :=
  (* Clean and validate data first *)
  cleaned_data ← validate_and_clean_excel_data;
  (* Create inspection object with valid fields only *)
  inspection ← Inspection (valid_constructor_fields cleaned_data);
  (* Handle 'findings' and other special fields AFTER object creation *)
  inspection ← for_each special_fields attach_special_field inspection;
  (* Save to database *)
  inspection ← save inspection;
  (* Verify the save worked by trying to retrieve *)
  report_number ← getattr inspection "report_number";
  saved_inspection ← objects_get report_number;
  match saved_inspection with
  | None => raise (Exception "Inspection was not properly saved to database")
  | Some _ =>
      report_number ← getattr inspection "report_number";
      _ ← emit (LogInfo ("Successfully created and saved inspection: "
                         ++ py_str report_number));
      mret inspection
  end.

Definition create_inspection_from_excel_data : M dict :=
  try_except create_inspection_body
    (fun e =>
       _ ← emit (LogError ("Failed to create inspection from Excel data: "
                          ++ exn_str e));
       excel_data ← (fun st => (Ok (st_raw st), st));
       _ ← emit (LogErrorData excel_data);
       raise e).

(** ** [process_excel_import] *)

(** [pd.read_excel(file_path)] *)
Definition read_excel (file_path : string) : M (list dict) :=
  fun st =>
    let '(res, w) := pd_read_excel file_path (st_world st) in
    (res, State (st_raw st) (st_clock st) (st_ticks st) (st_log st) w).

(** [df.iloc[0].to_dict()] *)
Definition iloc0_to_dict (df : list dict) : M dict :=
  match df with
  | row :: _ => mret row
  | [] => raise (IndexError "single positional indexer is out-of-bounds")
  end.

(** The dict just built becomes the object handed to the callee. *)
Definition bind_excel_data (excel_data : dict) : M unit :=
  fun st =>
    (Ok tt, State excel_data (st_clock st) (st_ticks st) (st_log st) (st_world st)).

(** The two responses. *)
Definition success_response (inspection_id report_number : value) : dict :=
  list_to_map
    [ ("success", VBool true);
      ("inspection_id", inspection_id);
      ("report_number", report_number);
      ("message", VStr ("Successfully imported inspection " ++ py_str report_number)) ].

Definition failure_response (e : exn) : dict :=
  list_to_map
    [ ("success", VBool false);
      ("error", VStr (exn_str e));
      ("message", VStr "Excel import failed. Please check the file format and try again.") ].

(** The body of the [try] block. *)
Definition process_excel_import_body (file_path : string) : M dict :=
  (* Read Excel file *)
  df ← read_excel file_path;
  (* Convert to dictionary (assuming single row for now) *)
  excel_data ← iloc0_to_dict df;
  _ ← bind_excel_data excel_data;
  (* Create inspection with proper error handling *)
  inspection ← create_inspection_from_excel_data;
  (* Return success response *)
  inspection_id ← getattr inspection "id";
  report_number ← getattr inspection "report_number";
  mret (success_response inspection_id report_number).

Definition process_excel_import (file_path : string) : M dict :=
  try_except (process_excel_import_body file_path)
    (fun e =>
       _ ← emit (LogError ("Excel import failed: " ++ exn_str e));
       mret (failure_response e)).

(** ** What the code resolves each field from *)

Definition tank_id_source (raw : dict) : value :=
  dict_get raw "tank_id" (dict_get raw "Tank ID" (VStr "")).

Definition tank_id_fallback (raw : dict) : value :=
  dict_get raw "tank_number" (dict_get raw "unit_id" (VStr "UNKNOWN")).

Definition report_number_source (raw : dict) : value :=
  dict_get raw "report_number" (dict_get raw "Report Number" (VStr "")).

Definition service_source (raw : dict) : value :=
  dict_get raw "service" (dict_get raw "Service" (dict_get raw "product" (VStr ""))).

Definition inspector_source (raw : dict) : value :=
  dict_get raw "inspector" (dict_get raw "Inspector" (VStr "Unknown Inspector")).

Definition inspection_date_source (raw : dict) : value :=
  dict_get raw "inspection_date" (dict_get raw "Inspection Date" (VStr "")).

Definition field_source (raw : dict) (field : string) (dflt : value) : value :=
  dict_get raw field (dict_get raw (label field) dflt).

(** ** What each block computes

    The value each block stores, as a function of the caller's dict and
    of the clock reading the block takes. *)

Definition cleaned_tank_id (raw : dict) (s : string) : value :=
  VStr (PyStr.strip (py_str (if PyStr.endswith_any s file_extensions
                             then tank_id_fallback raw else VStr s))).

Definition report_number_missing (raw : dict) : bool :=
  negb (py_bool (report_number_source raw)).

Definition cleaned_report_number (raw : dict) (now : instant) : value :=
  VStr (PyStr.strip (py_str (if report_number_missing raw
                             then VStr ("IMP-" ++ PyStr.of_Z (epoch_ms now))
                             else report_number_source raw))).

Definition cleaned_service (s : string) : value :=
  default (VStr s) (VStr <$> service_mapping !! PyStr.lower s).

Definition cleaned_inspector (raw : dict) : value :=
  VStr (PyStr.strip (py_str (inspector_source raw))).

(** Whether the date block reads the clock: the value is false, or a
    string [strptime] refuses. *)
Definition inspection_date_missing (raw : dict) : bool :=
  match inspection_date_source raw with
  | VStr s => match Strptime.strptime_ymd s with Some _ => false | None => true end
  | v => negb (py_bool v)
  end.

Definition cleaned_inspection_date (raw : dict) (now : instant) : value :=
  match inspection_date_source raw with
  | VStr s =>
      match Strptime.strptime_ymd s with
      | Some d => VDate d
      | None => VDate (today now)
      end
  | v => if py_bool v then v else VDate (today now)
  end.

Definition cleaned_numeric (raw : dict) (field : string) : value :=
  let value := field_source raw field (VInt 0) in
  if py_bool value then
    match py_float value with
    | Ok x => VFloat x
    | Raise _ => VInt 0
    end
  else VInt 0.

Definition cleaned_text (raw : dict) (field : string) : value :=
  VStr (PyStr.strip (py_str (field_source raw field (VStr "")))).

(** The dict the function returns when the tank id resolves to the
    string [t] and the service to the string [s], and the two clock
    readings are [now1] (report number) and [now2] (inspection date). *)
Definition cleaned_record (raw : dict) (t s : string) (now1 now2 : instant) : dict :=
  foldl (fun c field => <[field := cleaned_text raw field]> c)
    (foldl (fun c field => <[field := cleaned_numeric raw field]> c)
       (<["inspection_date" := cleaned_inspection_date raw now2]>
          (<["inspector" := cleaned_inspector raw]>
             (<["service" := cleaned_service s]>
                (<["report_number" := cleaned_report_number raw now1]>
                   (<["tank_id" := cleaned_tank_id raw t]> ∅)))))
       numeric_fields)
    text_fields.

(** The state in which [create_inspection_from_excel_data] is called:
    the first row is the dict handed over, the world is what the reader
    left. *)
Definition handed_over (st : state) (row : dict) (w : world) : state :=
  State row (st_clock st) (st_ticks st) (st_log st) w.

(** The object after the loop over [special_fields]. *)
Definition with_special_fields (raw inspection : dict) : dict :=
  foldl (fun inspection field =>
           match raw !! field with
           | Some v => <[field := v]> inspection
           | None => inspection
           end)
        inspection special_fields.

(** Whether a run returned rather than raised. *)
Definition returned {A} (run : result A * state) : bool :=
  match run.1 with
  | Ok _ => true
  | Raise _ => false
  end.

(** The state with [n] more clock readings taken. *)
Definition tick (n : nat) (st : state) : state :=
  State (st_raw st) (st_clock st) (n + st_ticks st) (st_log st) (st_world st).

Definition readings (b : bool) : nat := if b then 1%nat else 0%nat.

(** The keys of the dict [validate_and_clean_excel_data] returns. *)
Definition cleaned_keys : gset string :=
  list_to_set
    (["tank_id"; "report_number"; "service"; "inspector"; "inspection_date"]
       ++ numeric_fields ++ text_fields).

(** The state a call starts in. *)
Definition start (raw : dict) (clock : nat -> instant) (w : world) : state :=
  State raw clock 0 [] w.

End Program.

(** ** CPython's [float]: IEEE-754 binary64

    The instance of [PyFloat] the examples run on. Values are
    [spec_float]s of precision 53; conversions round to nearest, ties
    to even, and [str] prints the shortest digits that read back as the
    same value. *)

Module Binary64.

Definition prec : Z := 53.
Definition emax : Z := 1024.

Definition of_int (n : Z) : option spec_float :=
  match binary_normalize prec emax n 0 false with
  | S754_infinity _ => None
  | x => Some x
  end.

Definition of_literal (l : float_literal) : spec_float :=
  match l with
  | LitInf neg => S754_infinity neg
  | LitNan _ => S754_nan
  | LitDec neg m e10 =>
      if m =? 0 then S754_zero neg
      else if 0 <=? e10 then
        binary_normalize prec emax (cond_Zopp neg (m * 10 ^ e10)) 0 neg
      else
        (* m / 10^(-e10): a quotient of 64 bits or more and a sticky bit *)
        let d := 10 ^ (- e10) in
        let k := Z.max 0 (64 + Z.log2 d - Z.log2 m) in
        let q := (m * 2 ^ k) / d in
        let sticky := if (m * 2 ^ k) mod d =? 0 then 0 else 1 in
        binary_normalize prec emax (cond_Zopp neg (2 * q + sticky)) (- k - 1) neg
  end.

Definition to_bool (x : spec_float) : bool :=
  match x with
  | S754_zero _ => false
  | _ => true
  end.

(** [a * 10^k <= b * 10^0], for any sign of [k]. *)
Definition scale10 (a k : Z) : Z := if 0 <=? k then a * 10 ^ k else a.
Definition unscale10 (b k : Z) : Z := if 0 <=? k then b else b * 10 ^ (- k).

(** The largest [p] with [10^p <= num/den], searched upwards from an
    underestimate. *)
Fixpoint floor_log10_from (fuel : nat) (p num den : Z) : Z :=
  match fuel with
  | O => p
  | S f =>
      if scale10 den (p + 1) <=? unscale10 num (p + 1)
      then floor_log10_from f (p + 1) num den else p
  end.

Definition floor_log10 (num den : Z) : Z :=
  let est := ((Z.log2 num - Z.log2 den - 1) * 30102) / 100000 - 1 in
  floor_log10_from 8 est num den.

Fixpoint drop_trailing_zeros (fuel : nat) (c k : Z) : Z * Z :=
  match fuel with
  | O => (c, k)
  | S f => if (c mod 10 =? 0) && negb (c =? 0)
           then drop_trailing_zeros f (c / 10) (k + 1) else (c, k)
  end.

(** The shortest decimal [c * 10^k] in the rounding interval of
    [m * 2^e], the closest to it among those of that length. All
    quantities are in units of [2^(e-2)], as fractions over [den]. *)
Fixpoint shortest_from (fuel : nat) (n : Z) (p lo v hi den : Z) (closed : bool)
  : Z * Z :=
  let k := p - (n - 1) in
  let c := unscale10 v k / scale10 den k in
  let inside (c : Z) : bool :=
    let x := scale10 c k * den in
    if closed
    then (unscale10 lo k <=? x) && (x <=? unscale10 hi k)
    else (unscale10 lo k <? x) && (x <? unscale10 hi k) in
  let lower_closer : bool :=
    (* v - c <= (c + 1) - v *)
    2 * unscale10 v k <=? scale10 (2 * c + 1) k * den in
  match fuel with
  | O => (c, k)
  | S f =>
      match inside c, inside (c + 1) with
      | true, true => if lower_closer then (c, k) else (c + 1, k)
      | true, false => (c, k)
      | false, true => (c + 1, k)
      | false, false => shortest_from f (n + 1) p lo v hi den closed
      end
  end.

Definition shortest_digits (m : positive) (e : Z) : Z * Z :=
  let scale := if 0 <=? e - 2 then 2 ^ (e - 2) else 1 in
  let den := if 0 <=? e - 2 then 1 else 2 ^ (2 - e) in
  let v := 4 * Zpos m * scale in
  let hi := (4 * Zpos m + 2) * scale in
  let lo :=
    (if (Zpos m =? 2 ^ (prec - 1)) && (3 - emax - prec <? e)
     then 4 * Zpos m - 1 else 4 * Zpos m - 2) * scale in
  let '(c, k) :=
    shortest_from 17 1 (floor_log10 v den) lo v hi den (Z.even (Zpos m)) in
  drop_trailing_zeros 20 c k.

Fixpoint zeros (n : nat) : string :=
  match n with
  | O => EmptyString
  | S n' => String "0" (zeros n')
  end.

(** [repr] lays the digits out plainly when the decimal point falls
    within them or close by, and with an exponent otherwise. *)
Definition format_digits (c k : Z) : string :=
  let ds := PyStr.of_Z c in
  let n := Z.of_nat (String.length ds) in
  let decpt := k + n in
  if (decpt <=? -4) || (16 <? decpt) then
    let x := decpt - 1 in
    let mant :=
      match ds with
      | String d EmptyString => ds
      | String d rest => String d (String "." rest)
      | EmptyString => ds
      end in
    mant ++ "e" ++ (if x <? 0 then "-" else "+") ++ PyStr.zfill 2 (PyStr.of_Z (Z.abs x))
  else if decpt <=? 0 then "0." ++ zeros (Z.to_nat (- decpt)) ++ ds
  else if n <=? decpt then ds ++ zeros (Z.to_nat (decpt - n)) ++ ".0"
  else substring 0 (Z.to_nat decpt) ds ++ "." ++
       substring (Z.to_nat decpt) (Z.to_nat (n - decpt)) ds.

Definition to_str (x : spec_float) : string :=
  match x with
  | S754_zero s => if s then "-0.0" else "0.0"
  | S754_infinity s => if s then "-inf" else "inf"
  | S754_nan => "nan"
  | S754_finite s m e =>
      let '(c, k) := shortest_digits m e in
      (if s then "-" else "") ++ format_digits c k
  end.

End Binary64.

#[export] Instance binary64 : PyFloat := {
  float := spec_float;
  float_of_int := Binary64.of_int;
  float_of_literal := Binary64.of_literal;
  float_bool := Binary64.to_bool;
  float_str := Binary64.to_str;
}.

(** ** An in-memory world

    A stand-in for the collaborators, on which the code runs on concrete
    inputs: sheets by path, and a table of saved records that hands out
    consecutive ids and finds a record by the text of its report
    number. *)

Module MemoryWorld.

Record t := Make {
  files : gmap string (list dict);
  table : list dict;
}.

Definition constructor_fields : list string :=
  ["tank_id"; "report_number"; "service"; "inspector"; "inspection_date";
   "diameter"; "height"; "capacity"; "year_built"; "shell_material";
   "roof_type"; "foundation_type"; "status"].

Definition read_excel (path : string) (w : t) : result (list dict) * t :=
  match files w !! path with
  | Some rows => (Ok rows, w)
  | None => (Raise (Exn "FileNotFoundError" ("No such file or directory: '" ++ path ++ "'")), w)
  end.

Definition init_error (kwargs : dict) : option exn :=
  match filter (fun k => negb (existsb (String.eqb k) constructor_fields))
               (fst <$> map_to_list kwargs) with
  | [] => None
  | k :: _ =>
      Some (TypeError ("Inspection() got an unexpected keyword argument '" ++ k ++ "'"))
  end.

Definition save (obj : dict) (w : t) : result value * t :=
  let id := VInt (Z.of_nat (length (table w)) + 1) in
  (Ok id, Make (files w) (table w ++ [<["id" := id]> obj])).

Definition has_report_number (r : value) (obj : dict) : bool :=
  match obj !! "report_number" with
  | Some v => String.eqb (py_str v) (py_str r)
  | None => false
  end.

Definition objects_get (r : value) (w : t) : result (option dict) * t :=
  match filter (fun obj => has_report_number r obj = true) (table w) with
  | [obj] => (Ok (Some obj), w)
  | [] => (Raise (Exn "DoesNotExist" "Inspection matching query does not exist."), w)
  | _ => (Raise (Exn "MultipleObjectsReturned" "get() returned more than one Inspection"), w)
  end.

Definition empty : t := Make ∅ [].

End MemoryWorld.

#[export] Instance memory_world : External := {
  world := MemoryWorld.t;
  pd_read_excel := MemoryWorld.read_excel;
  Inspection_init_error := MemoryWorld.init_error;
  Inspection_save := MemoryWorld.save;
  Inspection_objects_get := MemoryWorld.objects_get;
}.

(** A clock for the examples: readings one millisecond apart on
    2025-07-05. *)
Definition example_clock : nat -> instant :=
  fun n => Instant (1751694680592 + Z.of_nat n) (Date 2025 7 5).

(** The state a call on [raw] starts in, in the in-memory world. *)
Definition example_state (raw : dict) : state :=
  start raw example_clock MemoryWorld.empty.

(** ** [cleanup_orphaned_dashboard_entries] *)

(** The [DashboardEntry] class is not among the sources. The function
    uses two operations of it, [DashboardEntry.objects.all()] and
    [entry.delete()]; both are left to the collaborator: each returns or
    raises, and may change the external world. An entry is modelled, as
    an inspection is, by the dict of its attributes. *)
Class Dashboard `{External} := {
  DashboardEntry_objects_all : world -> result (list dict) * world;
  DashboardEntry_delete : dict -> world -> result unit * world;
}.

Section Cleanup.
Context `{PyFloat} `{!External} `{!Dashboard}.

(** [try: body except SomeClass: handler]: an exception the test does
    not accept goes on to the caller. *)
Definition try_except_when {A} (catches : exn -> bool)
    (body : M A) (handler : exn -> M A) : M A :=
  fun st =>
    match body st with
    | (Ok a, st') => (Ok a, st')
    | (Raise e, st') => if catches e then handler e st' else (Raise e, st')
    end.

(** [isinstance(e, Inspection.DoesNotExist)] *)
Definition is_DoesNotExist (e : exn) : bool :=
  String.eqb (exn_class e) "DoesNotExist".

(** [DashboardEntry.objects.all()] *)
Definition objects_all : M (list dict) :=
  fun st =>
    let '(res, w) := DashboardEntry_objects_all (st_world st) in
    (res, State (st_raw st) (st_clock st) (st_ticks st) (st_log st) w).

(** [entry.delete()] *)
Definition entry_delete (entry : dict) : M unit :=
  fun st =>
    let '(res, w) := DashboardEntry_delete entry (st_world st) in
    (res, State (st_raw st) (st_clock st) (st_ticks st) (st_log st) w).

(** [entry.report_number] *)
Definition entry_report_number (entry : dict) : M value :=
  match entry !! "report_number" with
  | Some v => mret v
  | None =>
      raise (Exn "AttributeError"
                 "'DashboardEntry' object has no attribute 'report_number'")
  end.

(** One turn of the loop over [dashboard_entries]. *)
Definition cleanup_entry (entry : dict) (orphaned_count : Z) : M Z :=
  try_except_when is_DoesNotExist
    ((* Try to find corresponding inspection *)
     report_number ← entry_report_number entry;
     inspection ← objects_get report_number;
     mret orphaned_count)
    (fun _ =>
       (* This is an orphaned entry *)
       report_number ← entry_report_number entry;
       _ ← emit (LogWarning ("Found orphaned dashboard entry: "
                             ++ py_str report_number));
       _ ← entry_delete entry;
       mret (orphaned_count + 1)).

Definition cleanup_orphaned_dashboard_entries : M Z :=
  try_except
    ((* Find all dashboard entries *)
     dashboard_entries ← objects_all;
     let orphaned_count := 0 in
     orphaned_count ← for_each dashboard_entries cleanup_entry orphaned_count;
     _ ← emit (LogInfo ("Cleaned up " ++ PyStr.of_Z orphaned_count
                        ++ " orphaned dashboard entries"));
     mret orphaned_count)
    (fun e =>
       _ ← emit (LogError ("Failed to cleanup orphaned entries: " ++ exn_str e));
       mret 0).

(** The warnings among some log records. *)
Definition is_warning (r : log_record) : bool :=
  match r with
  | LogWarning _ => true
  | _ => false
  end.

(** Whether the loop takes an entry for orphaned in the world [w]: the
    lookup of its report number raises [DoesNotExist]. *)
Definition orphaned (w : world) (entry : dict) : bool :=
  match entry !! "report_number" with
  | Some report_number =>
      match (Inspection_objects_get report_number w).1 with
      | Raise e => is_DoesNotExist e
      | Ok _ => false
      end
  | None => false
  end.

(** The warning the loop logs for an orphaned entry. *)
Definition orphan_warning (entry : dict) : log_record :=
  LogWarning ("Found orphaned dashboard entry: "
              ++ py_str (default VNone (entry !! "report_number"))).

(** The world after deleting some entries, one after the other. *)
Definition deleted (entries : list dict) (w : world) : world :=
  foldl (fun w entry => (DashboardEntry_delete entry w).2) w entries.

End Cleanup.

(** Every character of a string passes a test. *)
Fixpoint string_forall (p : ascii -> bool) (s : string) : bool :=
  match s with
  | String c s' => p c && string_forall p s'
  | EmptyString => true
  end.

(** ** An in-memory world with a dashboard

    The in-memory world and, beside it, a list of dashboard entries.
    Deleting removes the entries with the same report number; an entry
    marked [protected] refuses to be deleted. *)

Module DashboardWorld.

Record t := Make {
  base : MemoryWorld.t;
  entries : list dict;
}.

Definition lift_base {A} (run : result A * MemoryWorld.t) (w : t) : result A * t :=
  (run.1, Make run.2 (entries w)).

Definition same_report_number (a b : dict) : bool :=
  match a !! "report_number", b !! "report_number" with
  | Some x, Some y => String.eqb (py_str x) (py_str y)
  | _, _ => false
  end.

Definition all (w : t) : result (list dict) * t := (Ok (entries w), w).

Definition delete (entry : dict) (w : t) : result unit * t :=
  match entry !! "protected" with
  | Some _ => (Raise (Exn "ProtectedError" "Cannot delete a protected entry"), w)
  | None =>
      (Ok tt,
       Make (base w)
            (filter (fun e => same_report_number entry e = false) (entries w)))
  end.

Definition external : External := {|
  world := t;
  pd_read_excel path w := lift_base (MemoryWorld.read_excel path (base w)) w;
  Inspection_init_error := MemoryWorld.init_error;
  Inspection_save obj w := lift_base (MemoryWorld.save obj (base w)) w;
  Inspection_objects_get r w := lift_base (MemoryWorld.objects_get r (base w)) w;
|}.

Definition dashboard : @Dashboard binary64 external :=
  @Build_Dashboard binary64 external all delete.

End DashboardWorld.

(** A dashboard with two entries, of which [R-1] has its inspection
    and [R-2] has not. *)
Definition example_dashboard : DashboardWorld.t :=
  DashboardWorld.Make
    (MemoryWorld.Make ∅ [ {[ "report_number" := VStr "R-1" ]} ])
    [ {[ "report_number" := VStr "R-1" ]}; {[ "report_number" := VStr "R-2" ]} ].

(** A dashboard with two orphaned entries, the second of them
    protected. *)
Definition example_dashboard_protected : DashboardWorld.t :=
  DashboardWorld.Make
    (MemoryWorld.Make ∅ [])
    [ {[ "report_number" := VStr "R-2" ]};
      {[ "report_number" := VStr "R-3"; "protected" := VBool true ]} ].


(** * The extractors

    [openrouter_excel_extractor]: from the workbook to the text sent to
    the completion service, and from its answer to the response.
    [updated_openrouter_extractor]: the parsing of the answer. *)

(** ** More of Python's [str] *)

(** [s.find(c)] for a one-character [c]: the index of the first [c],
    or -1. *)
Fixpoint str_find_from (c : ascii) (s : string) (i : Z) : Z :=
  match s with
  | EmptyString => -1
  | String a s' => if Ascii.eqb a c then i else str_find_from c s' (i + 1)
  end.

Definition str_find (s : string) (c : ascii) : Z := str_find_from c s 0.

(** [s.rfind(c)] for a one-character [c]: the index of the last [c],
    or -1. *)
Fixpoint str_rfind_from (c : ascii) (s : string) (i : Z) : Z :=
  match s with
  | EmptyString => -1
  | String a s' =>
      let later := str_rfind_from c s' (i + 1) in
      if later =? -1 then (if Ascii.eqb a c then i else -1) else later
  end.

Definition str_rfind (s : string) (c : ascii) : Z := str_rfind_from c s 0.

(** [s[start:stop]]: a negative index counts from the end, and both
    are cut to the length. *)
Definition str_slice (s : string) (start stop : Z) : string :=
  let len := Z.of_nat (String.length s) in
  let clamp i := if i <? 0 then Z.max 0 (i + len) else Z.min i len in
  substring (Z.to_nat (clamp start)) (Z.to_nat (clamp stop - clamp start)) s.

(** [sub in s] *)
Fixpoint str_contains (sub s : string) : bool :=
  String.prefix sub s
  || match s with
     | String _ s' => str_contains sub s'
     | EmptyString => false
     end.

(** ** JSON values

    What [response.json()] and [json.loads] return: [None], booleans,
    integers, floats, strings, lists, and dicts with string keys. *)

Section Json.
Context `{PyFloat}.

#[warnings="-register-all"] Inductive json :=
| JNull
| JBool (b : bool)
| JInt (n : Z)
| JFloat (x : float)
| JStr (s : string)
| JList (l : list json)
| JDict (d : gmap string json).

(** [type(x).__name__] *)
Definition json_type_name (x : json) : string :=
  match x with
  | JNull => "NoneType"
  | JBool _ => "bool"
  | JInt _ => "int"
  | JFloat _ => "float"
  | JStr _ => "str"
  | JList _ => "list"
  | JDict _ => "dict"
  end.

(** [y == key] for a string [key] *)
Definition json_eq_str (key : string) (y : json) : bool :=
  match y with
  | JStr s => String.eqb s key
  | _ => false
  end.

(** [str(KeyError(key))] is [repr(key)]: for a key without quotes,
    backslashes or control characters, the key between single quotes. *)
Definition KeyError (key : string) : exn := Exn "KeyError" ("'" ++ key ++ "'").

(** [key in x] for a string [key]: a key of a dict, an element of a
    list, a part of a string. *)
Definition json_contains (key : string) (x : json) : result bool :=
  match x with
  | JDict d => Ok (bool_decide (is_Some (d !! key)))
  | JList l => Ok (existsb (json_eq_str key) l)
  | JStr s => Ok (str_contains key s)
  | _ => Raise (TypeError ("argument of type '" ++ json_type_name x
                           ++ "' is not iterable"))
  end.

(** [x[key]] for a string [key] *)
Definition json_getitem (x : json) (key : string) : result json :=
  match x with
  | JDict d =>
      match d !! key with
      | Some y => Ok y
      | None => Raise (KeyError key)
      end
  | JList _ => Raise (TypeError "list indices must be integers or slices, not str")
  | JStr _ => Raise (TypeError "string indices must be integers, not 'str'")
  | _ => Raise (TypeError ("'" ++ json_type_name x ++ "' object is not subscriptable"))
  end.

(** [x[0]]. The keys of a dict are strings, none is [0]. *)
Definition json_getitem0 (x : json) : result json :=
  match x with
  | JList (y :: _) => Ok y
  | JList [] => Raise (IndexError "list index out of range")
  | JStr (String c _) => Ok (JStr (String c EmptyString))
  | JStr EmptyString => Raise (IndexError "string index out of range")
  | JDict _ => Raise (Exn "KeyError" "0")
  | _ => Raise (TypeError ("'" ++ json_type_name x ++ "' object is not subscriptable"))
  end.

(** The receiver of [x.name(...)] for a method [name] that only [str]
    has. *)
Definition json_str_method (x : json) (name : string) : result string :=
  match x with
  | JStr s => Ok s
  | _ => Raise (Exn "AttributeError"
                    ("'" ++ json_type_name x ++ "' object has no attribute '"
                     ++ name ++ "'"))
  end.

End Json.

(** The dicts the extractors return. *)
Abbreviation jdict := (gmap string json).

(** [json.loads]: it returns the value a text denotes or raises,
    [JSONDecodeError] for a text that is not JSON. *)
Class JsonDecoder `{PyFloat} := {
  json_loads : string -> result json;
}.

(** ** Spreadsheets *)

(** A cell of a sheet as pandas returns it, with the two things the
    code does to one: [pd.notna(cell_value)] and [str(cell_value)]. *)
Class Cell := {
  cell : Type;
  notna : cell -> bool;
  cell_str : cell -> string;
}.

(** A sheet read without headers: [len(df)], [len(df.columns)] and
    [df.iloc[i, j]] for an [i] and a [j] below them. *)
Record frame `{Cell} := Frame {
  len : nat;
  n_columns : nat;
  iloc : nat -> nat -> cell;
}.

(** The readers: [openpyxl.load_workbook(file_path).sheetnames] and
    [pd.read_excel(file_path, sheet_name=sheet_name, header=None)].
    Each returns or raises; the files do not change during a call. *)
Class Workbooks `{Cell} := {
  load_workbook_sheetnames : string -> result (list string);
  read_excel_sheet : string -> string -> result frame;
}.

(** ** The HTTP client

    [requests.post(url, headers=..., json=..., timeout=...)], and on
    the response it returns [raise_for_status()] and [json()]. Each
    returns or raises; [is_RequestException] tells whether an exception
    is a [requests.exceptions.RequestException]. *)
Class Requests `{PyFloat} := {
  response : Type;
  requests_post : string -> gmap string string -> json -> Z -> result response;
  response_raise_for_status : response -> result unit;
  response_json : response -> result json;
  is_RequestException : exn -> bool;
}.

(** Code that returns or raises, and touches nothing else. *)
Definition result_ret : MRet result := fun A a => Ok a.

Definition result_bind : MBind result := fun A B k m =>
  match m with
  | Ok a => k a
  | Raise e => Raise e
  end.

Section Content.
Context `{PyFloat}.
#[local] Existing Instance result_bind.

(** [api_response["choices"][0]["message"]["content"]] *)
Definition first_choice_content (api_response : json) : result json :=
  choices ← json_getitem api_response "choices";
  choice ← json_getitem0 choices;
  message ← json_getitem choice "message";
  json_getitem message "content".

End Content.

(** [isinstance(e, json.JSONDecodeError)] *)
Definition is_JSONDecodeError (e : exn) : bool :=
  String.eqb (exn_class e) "JSONDecodeError".

(** The newline character. *)
Definition nl : string := String "010"%char EmptyString.

(** The double quote and the degree sign. *)
Definition dq : string := String "034"%char EmptyString.

Definition degree : string := String "176"%char EmptyString.

(** [for x in l: acc = body(x, acc)], for a body that returns or
    raises. *)
Fixpoint result_for_each {A B} (l : list A) (body : A -> B -> result B) (acc : B)
    : result B :=
  match l with
  | [] => Ok acc
  | x :: l' =>
      match body x acc with
      | Ok acc' => result_for_each l' body acc'
      | Raise e => Raise e
      end
  end.

Module OpenRouterExcelExtractor.

(** The attributes of an extractor. *)
Record self := Self {
  api_key : string;
  base_url : string;
  headers : gmap string string;
}.

Definition __init__ (api_key : string) : self :=
  Self api_key "https://openrouter.ai/api/v1/chat/completions"
       (<["Authorization" := "Bearer " ++ api_key]>
          (<["Content-Type" := "application/json"]> ∅)).

Section ExcelToText.
Context `{Cell} `{!Workbooks}.
#[local] Existing Instance result_ret.
#[local] Existing Instance result_bind.

(** The loop over the columns of row [i]: the texts of the cells that
    hold something. *)
Definition row_text (df : frame) (i : nat) : list string :=
  foldl (fun row_text j =>
           let cell_value := iloc df i j in
           if notna cell_value then
             (row_text ++ [("[" ++ PyStr.of_Z (Z.of_nat i) ++ ","
                            ++ PyStr.of_Z (Z.of_nat j) ++ "]: "
                            ++ cell_str cell_value)%string])%list
           else row_text)
        [] (seq 0 (Nat.min 10 (n_columns df))).

(** The loop over the rows: a line for each row that has a text. *)
Definition sheet_rows (df : frame) (text_representation : string) : string :=
  foldl (fun text_representation i =>
           match row_text df i with
           | [] => text_representation
           | row_text =>
               text_representation
               ++ ("Row " ++ PyStr.of_Z (Z.of_nat i) ++ ": ")
               ++ String.concat " | " row_text ++ nl
           end)
        text_representation (seq 0 (Nat.min 20 (len df))).

(** One turn of the loop over the sheets. *)
Definition sheet_text (file_path sheet_name : string) (text_representation : string)
    : result string :=
  let text_representation :=
    text_representation ++ "=== SHEET: " ++ sheet_name ++ " ===" ++ nl in
  (* Read with pandas for easier text conversion *)
  df ← read_excel_sheet file_path sheet_name;
  (* Convert to text, showing first 20 rows and 10 columns *)
  let text_representation := sheet_rows df text_representation in
  mret (text_representation ++ nl).

(** The body of the [try] block. *)
Definition excel_to_text_body (file_path : string) : result string :=
  (* Load workbook *)
  sheetnames ← load_workbook_sheetnames file_path;
  let text_representation := "Excel File Analysis: " ++ file_path ++ nl ++ nl in
  result_for_each sheetnames (sheet_text file_path) text_representation.

Definition _excel_to_text (file_path : string) : result string :=
  match excel_to_text_body file_path with
  | Ok text_representation => Ok text_representation
  | Raise e => Ok ("Error reading Excel file: " ++ exn_str e)
  end.

End ExcelToText.

(** The prompt: fixed text around the text of the workbook, given
    line by line. *)
Definition _create_extraction_prompt (excel_text : string) : string :=
  String.concat nl
    [ "";
      "You are an expert API 653 tank inspection data extraction specialist. Analyze the following Excel file content and extract structured data for a tank inspection database.";
      "";
      "EXCEL FILE CONTENT:";
      "" ]
  ++ excel_text
  ++ String.concat nl
    [ "";
      "";
      "EXTRACTION REQUIREMENTS:";
      "Extract and structure the following information into a JSON format:";
      "";
      "1. TANK INFORMATION:";
      "   - tank_number (string)";
      "   - client_name (string) ";
      "   - location (string)";
      "   - equipment_id (string)";
      "   - diameter_ft (number)";
      "   - height_ft (number)";
      "   - capacity_gal (number)";
      "   - product (string)";
      "   - specific_gravity (number)";
      ("   - construction_code (string, e.g., " ++ dq ++ "API-650" ++ dq ++ ")");
      "   - year_built (number)";
      "   - shell_material (string)";
      "   - roof_type (string)";
      "   - foundation_type (string)";
      "   - number_of_courses (number)";
      "";
      "2. INSPECTION INFORMATION:";
      "   - inspection_date (YYYY-MM-DD format)";
      ("   - inspection_type (string, e.g., " ++ dq ++ "In-Service" ++ dq ++ ", " ++ dq ++ "Out-of-Service" ++ dq ++ ")");
      "   - inspector_name (string)";
      "   - inspector_certification (string)";
      "   - inspection_company (string)";
      "   - test_methods (string)";
      "   - corrosion_allowance (number in inches)";
      "   - joint_efficiency (number between 0 and 1)";
      "";
      "3. THICKNESS MEASUREMENTS:";
      "   Array of shell course data:";
      "   - course_number (number)";
      "   - readings: array of {position: string, thickness: number}";
      "";
      "4. NOZZLE DATA:";
      "   Array of nozzle information:";
      "   - nozzle_id (string)";
      "   - readings: array of {position: string, thickness: number}";
      "";
      "IMPORTANT INSTRUCTIONS:";
      "- Look for tank identification numbers, client names, and location information";
      "- Find inspection dates and inspector details";
      "- Extract thickness measurement data from tables or grids";
      "- Look for nozzle information and associated thickness readings";
      "- If data is missing, use reasonable defaults or null values";
      "- Ensure all numbers are properly formatted";
      "- Return ONLY valid JSON, no additional text or explanations";
      "";
      "EXPECTED JSON STRUCTURE:";
      "{";
      ("  " ++ dq ++ "tank_info" ++ dq ++ ": {");
      ("    " ++ dq ++ "tank_number" ++ dq ++ ": " ++ dq ++ "string" ++ dq ++ ",");
      ("    " ++ dq ++ "client_name" ++ dq ++ ": " ++ dq ++ "string" ++ dq ++ ",");
      ("    " ++ dq ++ "location" ++ dq ++ ": " ++ dq ++ "string" ++ dq ++ ",");
      "    // ... other tank fields";
      "  },";
      ("  " ++ dq ++ "inspection_info" ++ dq ++ ": {");
      ("    " ++ dq ++ "inspection_date" ++ dq ++ ": " ++ dq ++ "YYYY-MM-DD" ++ dq ++ ",");
      ("    " ++ dq ++ "inspection_type" ++ dq ++ ": " ++ dq ++ "string" ++ dq ++ ",");
      "    // ... other inspection fields";
      "  },";
      ("  " ++ dq ++ "thickness_data" ++ dq ++ ": [");
      "    {";
      ("      " ++ dq ++ "course_number" ++ dq ++ ": 1,");
      ("      " ++ dq ++ "readings" ++ dq ++ ": [");
      ("        {" ++ dq ++ "position" ++ dq ++ ": " ++ dq ++ "0" ++ degree ++ dq ++ ", " ++ dq ++ "thickness" ++ dq ++ ": 0.250},");
      ("        {" ++ dq ++ "position" ++ dq ++ ": " ++ dq ++ "90" ++ degree ++ dq ++ ", " ++ dq ++ "thickness" ++ dq ++ ": 0.245}");
      "      ]";
      "    }";
      "  ],";
      ("  " ++ dq ++ "nozzle_data" ++ dq ++ ": [");
      "    {";
      ("      " ++ dq ++ "nozzle_id" ++ dq ++ ": " ++ dq ++ "N1" ++ dq ++ ",");
      ("      " ++ dq ++ "readings" ++ dq ++ ": [");
      ("        {" ++ dq ++ "position" ++ dq ++ ": " ++ dq ++ "North" ++ dq ++ ", " ++ dq ++ "thickness" ++ dq ++ ": 0.300}");
      "      ]";
      "    }";
      "  ]";
      "}";
      "";
      "Extract the data now:";
      "" ].

Section CallOpenrouterApi.
Context `{PyFloat} `{!Requests}.
#[local] Existing Instance result_ret.
#[local] Existing Instance result_bind.

(** The [payload] of [_call_openrouter_api]. *)
Definition payload (prompt : string) : json :=
  JDict (<["model" := JStr "anthropic/claude-3.5-sonnet"]>
           (<["messages" :=
                JList [JDict (<["role" := JStr "user"]>
                                (<["content" := JStr prompt]> ∅))]]>
              (<["max_tokens" := JInt 4000]>
                 (<["temperature" := JFloat (float_of_literal (LitDec false 1 (-1)))]>
                    ∅)))).

(** The body of the [try] block of [_call_openrouter_api]. *)
Definition call_openrouter_api_body (self : self) (prompt : string) : result json :=
  response ← requests_post (base_url self) (headers self) (payload prompt) 60;
  _ ← response_raise_for_status response;
  response_json response.

Definition _call_openrouter_api (self : self) (prompt : string) : result json :=
  match call_openrouter_api_body self prompt with
  | Ok api_response => Ok api_response
  | Raise e =>
      if is_RequestException e then
        Ok (JDict (<["error" := JStr ("API request failed: " ++ exn_str e)]> ∅))
      else Raise e
  end.

End CallOpenrouterApi.

Section ParseAiResponse.
Context `{PyFloat} `{!JsonDecoder}.
#[local] Existing Instance result_ret.
#[local] Existing Instance result_bind.

(** The body of the [try] block of [_parse_ai_response]. *)
Definition parse_ai_response_body (api_response : json) : result jdict :=
  has_error ← json_contains "error" api_response;
  if has_error : bool then
    error ← json_getitem api_response "error";
    mret (<["success" := JBool false]> (<["error" := error]> ∅))
  else
    (* Extract the content from OpenRouter response *)
    content ← first_choice_content api_response;
    (* Try to find and parse JSON in the response *)
    text ← json_str_method content "find";
    let json_start := str_find text "{" in
    let json_end := str_rfind text "}" + 1 in
    if negb (json_start =? -1) && negb (json_end =? -1) then
      let json_str := str_slice text json_start json_end in
      extracted_data ← json_loads json_str;
      mret (<["success" := JBool true]>
              (<["data" := extracted_data]>
                 (<["raw_response" := content]> ∅)))
    else
      mret (<["success" := JBool false]>
              (<["error" := JStr "No valid JSON found in AI response"]>
                 (<["raw_response" := content]> ∅))).

Definition _parse_ai_response (api_response : json) : result jdict :=
  match parse_ai_response_body api_response with
  | Ok response => Ok response
  | Raise e =>
      if is_JSONDecodeError e then
        Ok (<["success" := JBool false]>
              (<["error" := JStr ("JSON parsing error: " ++ exn_str e)]>
                 (<["raw_response" := api_response]> ∅)))
      else
        Ok (<["success" := JBool false]>
              (<["error" := JStr ("Response parsing error: " ++ exn_str e)]> ∅))
  end.

End ParseAiResponse.

Section ExtractExcelData.
Context `{Cell} `{!Workbooks} `{PyFloat} `{!JsonDecoder} `{!Requests}.
#[local] Existing Instance result_ret.
#[local] Existing Instance result_bind.

Definition extract_excel_data (self : self) (excel_file_path : string)
    : result jdict :=
  (* First, read the Excel file and convert to text representation *)
  excel_text ← _excel_to_text excel_file_path;
  (* Create the AI prompt for data extraction *)
  let prompt := _create_extraction_prompt excel_text in
  (* Send to OpenRouter API *)
  response ← _call_openrouter_api self prompt;
  (* Parse the response *)
  extracted_data ← _parse_ai_response response;
  mret extracted_data.

End ExtractExcelData.

End OpenRouterExcelExtractor.

(** [extract_tank_data_from_excel] *)
Definition extract_tank_data_from_excel
    `{Cell} `{!Workbooks} `{PyFloat} `{!JsonDecoder} `{!Requests}
    (excel_file_path openrouter_api_key : string) : result jdict :=
  let extractor := OpenRouterExcelExtractor.__init__ openrouter_api_key in
  OpenRouterExcelExtractor.extract_excel_data extractor excel_file_path.

Module ComprehensiveOpenRouterExcelExtractor.
Section Methods.
Context `{PyFloat} `{!JsonDecoder}.
#[local] Existing Instance result_ret.
#[local] Existing Instance result_bind.

(** The body of the [try] block of [_parse_ai_response]. *)
Definition parse_ai_response_body (api_response : json) : result jdict :=
  has_error ← json_contains "error" api_response;
  if has_error : bool then
    error ← json_getitem api_response "error";
    mret (<["success" := JBool false]> (<["error" := error]> ∅))
  else
    (* Extract the content from OpenRouter response *)
    content ← first_choice_content api_response;
    (* Try to find and parse JSON in the response *)
    text ← json_str_method content "find";
    let json_start := str_find text "{" in
    let json_end := str_rfind text "}" + 1 in
    if negb (json_start =? -1) && negb (json_end =? -1) then
      let json_str := str_slice text json_start json_end in
      extracted_data ← json_loads json_str;
      mret (<["success" := JBool true]>
              (<["data" := extracted_data]>
                 (<["raw_response" := content]>
                    (<["extraction_confidence" := JStr "high"]> ∅))))
    else
      mret (<["success" := JBool false]>
              (<["error" := JStr "No valid JSON found in AI response"]>
                 (<["raw_response" := content]> ∅))).

Definition _parse_ai_response (api_response : json) : result jdict :=
  match parse_ai_response_body api_response with
  | Ok response => Ok response
  | Raise e =>
      if is_JSONDecodeError e then
        Ok (<["success" := JBool false]>
              (<["error" := JStr ("JSON parsing error: " ++ exn_str e)]>
                 (<["raw_response" := api_response]> ∅)))
      else
        Ok (<["success" := JBool false]>
              (<["error" := JStr ("Response parsing error: " ++ exn_str e)]> ∅))
  end.

End Methods.
End ComprehensiveOpenRouterExcelExtractor.

(** Whether a response reports success. *)
Definition is_success `{PyFloat} (response : jdict) : bool :=
  match response !! "success" with
  | Some (JBool true) => true
  | _ => false
  end.

(** A decoder for the examples. It knows one document, the empty
    object; every other text it rejects, with the message [json.loads]
    has for the empty text. *)
Definition example_loads (s : string) : result (@json binary64) :=
  if String.eqb s "{}" then Ok (JDict ∅)
  else Raise (Exn "JSONDecodeError" "Expecting value: line 1 column 1 (char 0)").

Definition example_decoder : @JsonDecoder binary64 :=
  @Build_JsonDecoder binary64 example_loads.

(** An answer of the completion service with one choice, whose message
    has the content [content]. *)
Definition example_answer (content : string) : @json binary64 :=
  JDict {[ "choices" :=
             JList [ JDict {[ "message" :=
                                JDict {[ "role" := JStr "assistant";
                                         "content" := JStr content ]} ]} ] ]}.

(** Two sheets that look alike in their first [rows] rows and [columns]
    columns. *)
Definition same_window `{Cell} (rows columns : nat) (df1 df2 : frame) : Prop :=
  Nat.min rows (len df1) = Nat.min rows (len df2) /\
  Nat.min columns (n_columns df1) = Nat.min columns (n_columns df2) /\
  forall i j, (i < Nat.min rows (len df1))%nat ->
              (j < Nat.min columns (n_columns df1))%nat ->
              iloc df1 i j = iloc df2 i j.

(** Cells for the examples: a text, or nothing. *)
Definition example_cell : Cell := {|
  cell := option string;
  notna := fun c => bool_decide (is_Some c);
  cell_str := default "nan";
|}.

(** A sheet given by its rows, all of [columns] cells. *)
Definition example_frame (columns : nat) (rows : list (list (option string)))
    : @frame example_cell :=
  @Frame example_cell (length rows) columns
         (fun i j => default None ((rows !! i) ≫= (fun row => row !! j))).

(** Workbooks for the examples: one file, [tanks.xlsx], with the sheets
    [Data] and [Notes]; [Notes] cannot be read when [broken] is set. *)
Definition example_workbooks (broken : bool) (data : @frame example_cell)
    : @Workbooks example_cell :=
  @Build_Workbooks example_cell
    (fun path =>
       if String.eqb path "tanks.xlsx" then Ok ["Data"; "Notes"]
       else Raise (Exn "FileNotFoundError"
                       ("[Errno 2] No such file or directory: '" ++ path ++ "'")))
    (fun path sheet_name =>
       if String.eqb sheet_name "Data" then Ok data
       else if broken then Raise (Exn "ValueError" "Excel file format cannot be determined")
       else Ok (example_frame 0 [])).

(** An HTTP client for the examples: every request has the one
    [outcome], an answer or an exception raised by [requests.post];
    connection errors, timeouts and HTTP errors are request exceptions. *)
Definition example_requests (outcome : result (@json binary64)) : @Requests binary64 :=
  @Build_Requests binary64 (@json binary64)
    (fun url headers payload timeout => outcome)
    (fun response => Ok tt)
    (fun response => Ok response)
    (fun e => existsb (String.eqb (exn_class e))
                      ["RequestException"; "ConnectionError"; "Timeout"; "HTTPError"]).
(** * Verification *)

Section Proofs.
Context `{PyFloat} `{!External}.

(** ** Running the code symbolically *)

(** Unfolds the operations of [M], and nothing of the data. *)
Ltac run_M :=
  cbv beta iota zeta delta
    [mbind M_bind mret M_ret raise lift try_except raw_get raw_contains
     raw_getitem datetime_now emit st_raw st_clock st_ticks st_log st_world].

Lemma tick_0 st : tick 0 st = st.
Proof. by destruct st. Qed.

Lemma tick_tick n m st : tick n (tick m st) = tick (n + m) st.
Proof. destruct st; unfold tick; simpl. f_equal. lia. Qed.

Lemma handle_tank_id_run c st :
  handle_tank_id c st =
  match tank_id_source (st_raw st) with
  | VStr s => (Ok (<["tank_id" := cleaned_tank_id (st_raw st) s]> c), st)
  | v => (Raise (AttributeError v "endswith"), st)
  end.
Proof.
  unfold handle_tank_id, cleaned_tank_id, tank_id_source, tank_id_fallback,
    str_endswith.
  destruct st as [raw clk n lg w]. run_M.
  destruct (dict_get raw "tank_id" _) as [| | | |s|]; try reflexivity.
  run_M. destruct (PyStr.endswith_any s file_extensions); reflexivity.
Qed.

Lemma handle_report_number_run c st :
  handle_report_number c st =
  (Ok (<["report_number" :=
          cleaned_report_number (st_raw st) (st_clock st (st_ticks st))]> c),
   tick (readings (report_number_missing (st_raw st))) st).
Proof.
  unfold handle_report_number, cleaned_report_number, report_number_missing,
    report_number_source.
  destruct st as [raw clk n lg w]. run_M.
  destruct (py_bool _); reflexivity.
Qed.

Lemma standardize_service_type_run c st :
  standardize_service_type c st =
  match service_source (st_raw st) with
  | VStr s => (Ok (<["service" := cleaned_service s]> c), st)
  | v => (Raise (AttributeError v "lower"), st)
  end.
Proof.
  unfold standardize_service_type, cleaned_service, service_source, str_lower.
  destruct st as [raw clk n lg w]. run_M.
  destruct (dict_get raw "service" _); reflexivity.
Qed.

Lemma handle_inspector_run c st :
  handle_inspector c st =
  (Ok (<["inspector" := cleaned_inspector (st_raw st)]> c), st).
Proof. destruct st. reflexivity. Qed.

Lemma handle_inspection_date_run c st :
  handle_inspection_date c st =
  (Ok (<["inspection_date" :=
          cleaned_inspection_date (st_raw st) (st_clock st (st_ticks st))]> c),
   tick (readings (inspection_date_missing (st_raw st))) st).
Proof.
  unfold handle_inspection_date, cleaned_inspection_date,
    inspection_date_missing, inspection_date_source, strptime_date.
  destruct st as [raw clk n lg w]. run_M.
  destruct (dict_get raw "inspection_date" _) as [| | | |s|]; simpl;
    try reflexivity.
  - destruct b; reflexivity.
  - destruct (negb (n0 =? 0)%Z); reflexivity.
  - destruct (float_bool x); reflexivity.
  - destruct (negb (String.eqb s "")) eqn:E.
    + run_M. destruct (Strptime.strptime_ymd s); reflexivity.
    + apply negb_false_iff, String.eqb_eq in E. subst s. reflexivity.
Qed.

Lemma handle_numeric_field_run field c st :
  handle_numeric_field field c st =
  (Ok (<[field := cleaned_numeric (st_raw st) field]> c), st).
Proof.
  unfold handle_numeric_field, cleaned_numeric, field_source.
  destruct st as [raw clk n lg w]. run_M.
  destruct (py_bool _); [|reflexivity].
  destruct (py_float _); reflexivity.
Qed.

Lemma handle_text_field_run field c st :
  handle_text_field field c st =
  (Ok (<[field := cleaned_text (st_raw st) field]> c), st).
Proof. destruct st. reflexivity. Qed.

(** A loop whose turns neither raise nor touch the state is a fold. *)
Lemma for_each_pure {A B} (body : A -> B -> M B) (f : B -> A -> B) st l :
  (forall x acc, body x acc st = (Ok (f acc x), st)) ->
  forall acc, for_each l body acc st = (Ok (foldl f acc l), st).
Proof.
  intros Hbody. induction l as [|x l IH]; intros acc; [reflexivity|].
  simpl. unfold mbind, M_bind. rewrite Hbody. apply IH.
Qed.

(** The whole function: it raises exactly when the tank id or the
    service does not resolve to a string, and returns [cleaned_record]
    otherwise. *)
Lemma validate_run st :
  let raw := st_raw st in
  let n1 := readings (report_number_missing raw) in
  let n2 := readings (inspection_date_missing raw) in
  validate_and_clean_excel_data st =
  match tank_id_source raw with
  | VStr t =>
      match service_source raw with
      | VStr s =>
          (Ok (cleaned_record raw t s
                 (st_clock st (st_ticks st))
                 (st_clock st (n1 + st_ticks st))),
           tick (n2 + n1) st)
      | v => (Raise (AttributeError v "lower"), tick n1 st)
      end
  | v => (Raise (AttributeError v "endswith"), st)
  end.
Proof.
  intros raw n1 n2. unfold validate_and_clean_excel_data.
  cbv beta iota zeta delta [mbind M_bind].
  rewrite handle_tank_id_run. fold raw.
  destruct (tank_id_source raw) as [| | | |t|]; try reflexivity.
  rewrite handle_report_number_run, standardize_service_type_run.
  replace (st_raw (tick _ st)) with raw by (by destruct st).
  fold raw n1.
  destruct (service_source raw) as [| | | |s|]; try reflexivity.
  rewrite handle_inspector_run, handle_inspection_date_run.
  replace (st_raw (tick n1 st)) with raw by (by destruct st).
  fold n2.
  rewrite (for_each_pure handle_numeric_field
             (fun c field => <[field := cleaned_numeric raw field]> c)).
  2:{ intros x acc. rewrite handle_numeric_field_run. by destruct st. }
  rewrite (for_each_pure handle_text_field
             (fun c field => <[field := cleaned_text raw field]> c)).
  2:{ intros x acc. rewrite handle_text_field_run. by destruct st. }
  rewrite tick_tick. by destruct st.
Qed.


(** ** Strings *)

Lemma endswith_refl s : PyStr.endswith s s = true.
Proof. destruct s; simpl; [reflexivity|]. by rewrite Ascii.eqb_refl, String.eqb_refl. Qed.

Lemma endswith_empty suffix :
  PyStr.endswith "" suffix = true -> suffix = "".
Proof. destruct suffix; simpl; [done|discriminate]. Qed.

Lemma endswith_cons c s suffix :
  PyStr.endswith s suffix = true -> PyStr.endswith (String c s) suffix = true.
Proof. intros Hs. cbn [PyStr.endswith]. rewrite Hs. apply orb_true_r. Qed.

(** Stripping keeps a suffix that itself starts and ends with
    characters that are not white space. *)
Lemma endswith_rstrip s suffix :
  suffix <> "" -> PyStr.rstrip suffix = suffix ->
  PyStr.endswith s suffix = true ->
  PyStr.endswith (PyStr.rstrip s) suffix = true.
Proof.
  intros Hne Hfix. induction s as [|c s IH]; intros Hs.
  - apply endswith_empty in Hs. done.
  - cbn [PyStr.endswith] in Hs. apply orb_true_iff in Hs as [Heq|Htail].
    + apply String.eqb_eq in Heq. rewrite Heq, Hfix. apply endswith_refl.
    + specialize (IH Htail). cbn [PyStr.rstrip].
      destruct (PyStr.rstrip s) as [|c' r] eqn:Er.
      * apply endswith_empty in IH. done.
      * by apply endswith_cons.
Qed.

Lemma endswith_lstrip s suffix :
  suffix <> "" -> PyStr.lstrip suffix = suffix ->
  PyStr.endswith s suffix = true ->
  PyStr.endswith (PyStr.lstrip s) suffix = true.
Proof.
  intros Hne Hfix. induction s as [|c s IH]; intros Hs; [done|].
  destruct (String.eqb (String c s) suffix) eqn:Heq.
  - apply String.eqb_eq in Heq. rewrite Heq, Hfix. apply endswith_refl.
  - cbn [PyStr.endswith] in Hs. rewrite Heq in Hs. simpl in Hs.
    cbn [PyStr.lstrip]. destruct (PyStr.is_space c); [by apply IH|].
    by apply endswith_cons.
Qed.

Lemma endswith_strip s suffix :
  suffix <> "" -> PyStr.rstrip suffix = suffix -> PyStr.lstrip suffix = suffix ->
  PyStr.endswith s suffix = true ->
  PyStr.endswith (PyStr.strip s) suffix = true.
Proof.
  intros Hne Hr Hl Hs. unfold PyStr.strip.
  by apply endswith_lstrip, endswith_rstrip.
Qed.

(** A name that ends in a spreadsheet extension still does after
    [strip]. *)
Lemma file_extension_strip s :
  PyStr.endswith_any s file_extensions = true ->
  PyStr.endswith_any (PyStr.strip s) file_extensions = true.
Proof.
  unfold PyStr.endswith_any, file_extensions. cbn [existsb].
  rewrite !orb_false_r, !orb_true_iff.
  intros [Hs|[Hs|Hs]]; [left|right; left|right; right];
    (apply endswith_strip; [discriminate|reflexivity|reflexivity|exact Hs]).
Qed.

(** ** The returned dict, field by field *)

Lemma cleaned_record_dom raw t s now1 now2 :
  dom (cleaned_record raw t s now1 now2) = cleaned_keys.
Proof.
  unfold cleaned_record, cleaned_keys, numeric_fields, text_fields.
  cbn [foldl app list_to_set foldr]. rewrite !dom_insert_L, dom_empty_L.
  set_solver.
Qed.

Ltac lookup_cleaned :=
  unfold cleaned_record, numeric_fields, text_fields; cbn [foldl];
  repeat (rewrite lookup_insert_ne by discriminate);
  apply lookup_insert_eq.

Lemma cleaned_record_tank_id raw t s now1 now2 :
  cleaned_record raw t s now1 now2 !! "tank_id" = Some (cleaned_tank_id raw t).
Proof. lookup_cleaned. Qed.

Lemma cleaned_record_report_number raw t s now1 now2 :
  cleaned_record raw t s now1 now2 !! "report_number"
  = Some (cleaned_report_number raw now1).
Proof. lookup_cleaned. Qed.

Lemma cleaned_record_service raw t s now1 now2 :
  cleaned_record raw t s now1 now2 !! "service" = Some (cleaned_service s).
Proof. lookup_cleaned. Qed.

Lemma cleaned_record_inspector raw t s now1 now2 :
  cleaned_record raw t s now1 now2 !! "inspector" = Some (cleaned_inspector raw).
Proof. lookup_cleaned. Qed.

Lemma cleaned_record_inspection_date raw t s now1 now2 :
  cleaned_record raw t s now1 now2 !! "inspection_date"
  = Some (cleaned_inspection_date raw now2).
Proof. lookup_cleaned. Qed.

Lemma cleaned_record_numeric raw t s now1 now2 field :
  field ∈ numeric_fields ->
  cleaned_record raw t s now1 now2 !! field = Some (cleaned_numeric raw field).
Proof.
  unfold numeric_fields. rewrite !elem_of_cons, elem_of_nil.
  intros [->|[->|[->|[->|[]]]]]; lookup_cleaned.
Qed.

Lemma cleaned_record_text raw t s now1 now2 field :
  field ∈ text_fields ->
  cleaned_record raw t s now1 now2 !! field = Some (cleaned_text raw field).
Proof.
  unfold text_fields. rewrite !elem_of_cons, elem_of_nil.
  intros [->|[->|[->|[]]]]; lookup_cleaned.
Qed.

(** When the function returns, both the tank id and the service
    resolved to strings and the result is [cleaned_record]. *)
Lemma validate_returns st cleaned st' :
  validate_and_clean_excel_data st = (Ok cleaned, st') ->
  exists t s,
    tank_id_source (st_raw st) = VStr t /\
    service_source (st_raw st) = VStr s /\
    cleaned =
      cleaned_record (st_raw st) t s (st_clock st (st_ticks st))
        (st_clock st (readings (report_number_missing (st_raw st)) + st_ticks st)) /\
    st' = tick (readings (inspection_date_missing (st_raw st))
                + readings (report_number_missing (st_raw st))) st.
Proof.
  rewrite validate_run. cbv zeta.
  destruct (tank_id_source (st_raw st)) as [| | | |t|]; try discriminate.
  destruct (service_source (st_raw st)) as [| | | |s|]; try discriminate.
  intros [= <- <-]. by exists t, s.
Qed.

(** It returns whenever both resolve to strings. *)
(** The run, when both resolve to strings. *)
Lemma validate_on_strings st t s :
  tank_id_source (st_raw st) = VStr t ->
  service_source (st_raw st) = VStr s ->
  validate_and_clean_excel_data st =
  (Ok (cleaned_record (st_raw st) t s (st_clock st (st_ticks st))
         (st_clock st (readings (report_number_missing (st_raw st)) + st_ticks st))),
   tick (readings (inspection_date_missing (st_raw st))
         + readings (report_number_missing (st_raw st))) st).
Proof. intros Ht Hs. rewrite validate_run. cbv zeta. by rewrite Ht, Hs. Qed.

Lemma returned_true {A} (run : result A * state) :
  returned run = true -> exists a st', run = (Ok a, st').
Proof. destruct run as [[a|e] st']; [eauto|discriminate]. Qed.

Lemma validate_total st t s :
  tank_id_source (st_raw st) = VStr t ->
  service_source (st_raw st) = VStr s ->
  exists cleaned st', validate_and_clean_excel_data st = (Ok cleaned, st').
Proof.
  intros Ht Hs. rewrite validate_run. cbv zeta. rewrite Ht, Hs. eauto.
Qed.


(** ** The tank id *)

(** C4. When the resolved tank identifier is a string that ends in
    [.xlsx], [.xls] or [.csv], the record's [tank_id] is the text of the
    [tank_number] field if the bag has one, else of the [unit_id] field,
    else the literal [UNKNOWN] (converted with [str] and trimmed, as
    every string field is). For the bag with [tank_id] [sheet1.xlsx] and
    [tank_number] [T-42] the function returns and [tank_id] is [T-42];
    for the bag with [tank_id] [sheet1.xlsx] alone it is [UNKNOWN]. *)
Theorem C4_filename_tank_id_falls_back :
  (forall st cleaned st' s,
      validate_and_clean_excel_data st = (Ok cleaned, st') ->
      tank_id_source (st_raw st) = VStr s ->
      PyStr.endswith_any s [".xlsx"; ".xls"; ".csv"] = true ->
      cleaned !! "tank_id" =
      Some (VStr (PyStr.strip (py_str
        match st_raw st !! "tank_number", st_raw st !! "unit_id" with
        | Some v, _ => v
        | None, Some v => v
        | None, None => VStr "UNKNOWN"
        end)))) /\
  (forall st,
      st_raw st = {[ "tank_id" := VStr "sheet1.xlsx"; "tank_number" := VStr "T-42" ]} ->
      exists cleaned st',
        validate_and_clean_excel_data st = (Ok cleaned, st') /\
        cleaned !! "tank_id" = Some (VStr "T-42")) /\
  (forall st,
      st_raw st = {[ "tank_id" := VStr "sheet1.xlsx" ]} ->
      exists cleaned st',
        validate_and_clean_excel_data st = (Ok cleaned, st') /\
        cleaned !! "tank_id" = Some (VStr "UNKNOWN")).
Proof.
  split; [|split].
  - intros st cleaned st' s Hrun Hsrc Hext.
    apply validate_returns in Hrun as (t & s' & Ht & _ & -> & _).
    rewrite cleaned_record_tank_id. rewrite Hsrc in Ht. injection Ht as <-.
    unfold cleaned_tank_id, file_extensions. rewrite Hext.
    unfold tank_id_fallback, dict_get.
    destruct (st_raw st !! "tank_number"), (st_raw st !! "unit_id"); reflexivity.
  - intros st Hraw.
    destruct (validate_total st "sheet1.xlsx" "") as (cleaned & st' & Hrun);
      [by rewrite Hraw..|].
    exists cleaned, st'. split; [done|].
    apply validate_returns in Hrun as (t & s' & Ht & _ & -> & _).
    rewrite cleaned_record_tank_id. rewrite Hraw in *.
    injection Ht as <-. reflexivity.
  - intros st Hraw.
    destruct (validate_total st "sheet1.xlsx" "") as (cleaned & st' & Hrun);
      [by rewrite Hraw..|].
    exists cleaned, st'. split; [done|].
    apply validate_returns in Hrun as (t & s' & Ht & _ & -> & _).
    rewrite cleaned_record_tank_id. rewrite Hraw in *.
    injection Ht as <-. reflexivity.
Qed.


(** C2, as amended. Whenever the function returns, [tank_id] is a
    string. It is empty when the bag has neither a [tank_id] nor a
    [Tank ID] key. When the resolved identifier, trimmed, is not empty
    and does not end in a spreadsheet extension, [tank_id] is that
    trimmed text, so it is not empty and ends in no spreadsheet
    extension. When the resolved identifier ends in a spreadsheet
    extension and the bag has neither [tank_number] nor [unit_id],
    [tank_id] is [UNKNOWN]. *)
Theorem C2_tank_id_amended st cleaned st' :
  validate_and_clean_excel_data st = (Ok cleaned, st') ->
  exists t,
    cleaned !! "tank_id" = Some (VStr t) /\
    (st_raw st !! "tank_id" = None -> st_raw st !! "Tank ID" = None -> t = "") /\
    (forall s,
        tank_id_source (st_raw st) = VStr s ->
        PyStr.strip s <> "" ->
        PyStr.endswith_any (PyStr.strip s) file_extensions = false ->
        t = PyStr.strip s /\ t <> "" /\
        PyStr.endswith_any t file_extensions = false) /\
    (forall s,
        tank_id_source (st_raw st) = VStr s ->
        PyStr.endswith_any s file_extensions = true ->
        st_raw st !! "tank_number" = None ->
        st_raw st !! "unit_id" = None ->
        t = "UNKNOWN" /\ t <> "" /\
        PyStr.endswith_any t file_extensions = false).
Proof.
  intros Hrun.
  apply validate_returns in Hrun as (t & s' & Ht & _ & -> & _).
  rewrite cleaned_record_tank_id. unfold cleaned_tank_id.
  eexists. split; [reflexivity|]. split; [|split].
  - intros H1 H2. unfold tank_id_source, dict_get in Ht.
    rewrite H1, H2 in Ht. injection Ht as <-. reflexivity.
  - intros s Hs Hne Hext. rewrite Hs in Ht. injection Ht as <-.
    destruct (PyStr.endswith_any s file_extensions) eqn:E.
    + apply file_extension_strip in E. congruence.
    + done.
  - intros s Hs Hext H1 H2. rewrite Hs in Ht. injection Ht as <-.
    rewrite Hext. unfold tank_id_fallback, dict_get. rewrite H1, H2.
    done.
Qed.

(** ** Numeric fields and diagnostics *)

(** C3, as amended. The function returns the record alone: a dict with
    exactly the twelve cleaned fields, and it writes nothing to the log,
    so no diagnostic is produced anywhere. A numeric field whose value
    is a string that [float] refuses is the integer 0 in the record
    (which Python compares equal to 0.0); in particular [diameter] is 0
    when the bag holds [diameter: "abc"]. *)
Theorem C3_numeric_default_no_diagnostics st cleaned st' :
  validate_and_clean_excel_data st = (Ok cleaned, st') ->
  dom cleaned = cleaned_keys /\
  st_log st' = st_log st /\
  (forall field s,
      field ∈ numeric_fields ->
      field_source (st_raw st) field (VInt 0) = VStr s ->
      PyFloatSyntax.parse s = None ->
      cleaned !! field = Some (VInt 0)) /\
  (st_raw st !! "diameter" = Some (VStr "abc") ->
   cleaned !! "diameter" = Some (VInt 0)).
Proof.
  intros Hrun.
  apply validate_returns in Hrun as (t & s' & _ & _ & -> & ->).
  split; [apply cleaned_record_dom|]. split; [by destruct st|].
  assert (Hfield : forall field s,
             field ∈ numeric_fields ->
             field_source (st_raw st) field (VInt 0) = VStr s ->
             PyFloatSyntax.parse s = None ->
             cleaned_record (st_raw st) t s' (st_clock st (st_ticks st))
               (st_clock st (readings (report_number_missing (st_raw st)) + st_ticks st))
               !! field = Some (VInt 0)).
  { intros field s Hin Hsrc Hparse. rewrite cleaned_record_numeric by done.
    unfold cleaned_numeric. rewrite Hsrc. cbn [py_bool py_float].
    rewrite Hparse. by destruct (negb _). }
  split; [exact Hfield|].
  intros Hd. apply (Hfield "diameter" "abc").
  - unfold numeric_fields. set_solver.
  - unfold field_source, dict_get. by rewrite Hd.
  - reflexivity.
Qed.

(** ** The service *)

(** C7. The service must resolve to a string for the function to
    return. The record's [service] is then the entry of the synonym
    table for the lower-cased string, or the string itself, casing
    untouched, when the table has none. The bags [service: crude_oil]
    and [Service: crude oil], and [Service] with any casing of
    [crude oil], all give [Crude Oil]. *)
Theorem C7_service_normalization :
  (forall st cleaned st',
      validate_and_clean_excel_data st = (Ok cleaned, st') ->
      exists s,
        service_source (st_raw st) = VStr s /\
        cleaned !! "service" =
        Some (VStr match service_mapping !! PyStr.lower s with
                   | Some canonical => canonical
                   | None => s
                   end)) /\
  (forall st,
      st_raw st = {[ "service" := VStr "crude_oil" ]} ->
      exists cleaned st',
        validate_and_clean_excel_data st = (Ok cleaned, st') /\
        cleaned !! "service" = Some (VStr "Crude Oil")) /\
  (forall st s,
      PyStr.lower s = "crude oil" ->
      st_raw st = {[ "Service" := VStr s ]} ->
      exists cleaned st',
        validate_and_clean_excel_data st = (Ok cleaned, st') /\
        cleaned !! "service" = Some (VStr "Crude Oil")) /\
  PyStr.lower "crude oil" = "crude oil" /\
  PyStr.lower "Crude Oil" = "crude oil" /\
  PyStr.lower "CRUDE OIL" = "crude oil".
Proof.
  split; [|split; [|split; [|done]]].
  - intros st cleaned st' Hrun.
    apply validate_returns in Hrun as (t & s & _ & Hs & -> & _).
    exists s. split; [done|]. rewrite cleaned_record_service.
    unfold cleaned_service. by destruct (service_mapping !! PyStr.lower s).
  - intros st Hraw.
    destruct (validate_total st "" "crude_oil") as (cleaned & st' & Hrun);
      [by rewrite Hraw..|].
    exists cleaned, st'. split; [done|].
    apply validate_returns in Hrun as (t & s & _ & Hs & -> & _).
    rewrite cleaned_record_service. rewrite Hraw in Hs. injection Hs as <-.
    reflexivity.
  - intros st s Hlow Hraw.
    destruct (validate_total st "" s) as (cleaned & st' & Hrun);
      [by rewrite Hraw..|].
    exists cleaned, st'. split; [done|].
    apply validate_returns in Hrun as (t & s0 & _ & Hs & -> & _).
    rewrite cleaned_record_service. rewrite Hraw in Hs.
    assert (s0 = s) as -> by (by injection Hs).
    unfold cleaned_service. rewrite Hlow. reflexivity.
Qed.


(** ** The inspection date *)

Lemma in_range_spec lo hi c :
  PyStr.in_range lo hi c = true <-> lo <= PyStr.code c <= hi.
Proof. unfold PyStr.in_range. rewrite andb_true_iff, !Z.leb_le. done. Qed.

Lemma month_alternatives_range s m rest :
  (m, rest) ∈ Strptime.month_alternatives s -> 1 <= m <= 12.
Proof.
  unfold Strptime.month_alternatives, PyFloatSyntax.digit_val.
  destruct s as [|a [|b r]]; [by rewrite elem_of_nil|..]; cbn [app].
  - destruct (PyStr.in_range 49 57 a) eqn:Ea; [|by rewrite elem_of_nil].
    apply in_range_spec in Ea. rewrite list_elem_of_singleton. intros [= -> _]. lia.
  - rewrite !elem_of_app. intros [[Hm|Hm]|Hm].
    + destruct (Ascii.eqb a "1" && PyStr.in_range 48 50 b) eqn:E;
        [|by rewrite elem_of_nil in Hm].
      apply andb_true_iff in E as [_ Eb]. apply in_range_spec in Eb.
      apply list_elem_of_singleton in Hm. injection Hm as -> _. lia.
    + destruct (Ascii.eqb a "0" && PyStr.in_range 49 57 b) eqn:E;
        [|by rewrite elem_of_nil in Hm].
      apply andb_true_iff in E as [_ Eb]. apply in_range_spec in Eb.
      apply list_elem_of_singleton in Hm. injection Hm as -> _. lia.
    + destruct (PyStr.in_range 49 57 a) eqn:Ea; [|by rewrite elem_of_nil in Hm].
      apply in_range_spec in Ea.
      apply list_elem_of_singleton in Hm. injection Hm as -> _. lia.
Qed.

Lemma match_month_day_range alts m d rest :
  Strptime.match_month_day alts = Some (m, d, rest) ->
  exists r, (m, r) ∈ alts.
Proof.
  induction alts as [|[m0 r0] alts IH]; [discriminate|]. cbn [Strptime.match_month_day].
  assert (Strptime.match_month_day alts = Some (m, d, rest) ->
          exists r, (m, r) ∈ (m0, r0) :: alts) as Hrec.
  { intros Hm. destruct (IH Hm) as [r Hr]. exists r. by apply list_elem_of_further. }
  destruct r0 as [|c r0]; [exact Hrec|].
  destruct (Ascii.eqb c "-") eqn:Ec.
  - apply Ascii.eqb_eq in Ec. subst c.
    destruct (Strptime.day_alternatives r0) as [|[d0 rest0] ?]; [exact Hrec|].
    intros [= -> -> ->]. eexists. apply list_elem_of_here.
  - intros Hm. apply Hrec. revert Hm.
    destruct c as [[] [] [] [] [] [] [] []]; try done.
Qed.

(** [strptime] with the format [%Y-%m-%d] accepts only four digits, a
    hyphen, a month and a day: the year is the value of the four
    digits, at least 1. *)
Lemma strptime_ymd_shape s d :
  Strptime.strptime_ymd s = Some d ->
  exists y1 y2 y3 y4 rest,
    s = String y1 (String y2 (String y3 (String y4 (String "-" rest)))) /\
    PyFloatSyntax.is_digit y1 && PyFloatSyntax.is_digit y2 &&
      PyFloatSyntax.is_digit y3 && PyFloatSyntax.is_digit y4 = true /\
    year d = PyFloatSyntax.digits_value 0
               (String y1 (String y2 (String y3 (String y4 "")))) /\
    1 <= year d /\ 1 <= month d <= 12 /\
    day d <= Strptime.days_in_month (year d) (month d).
Proof.
  unfold Strptime.strptime_ymd.
  destruct s as [|y1 [|y2 [|y3 [|y4 [|h rest]]]]]; try discriminate.
  cbv zeta.
  destruct (Ascii.eqb h "-") eqn:Eh.
  2:{ destruct h as [[] [] [] [] [] [] [] []]; try discriminate. }
  apply Ascii.eqb_eq in Eh. subst h.
  match goal with
  | |- (if ?b then _ else _) = _ -> _ => destruct b eqn:Edig; [|discriminate]
  end.
  destruct (Strptime.match_month_day _) as [[[m dd] [|]]|] eqn:Em; try discriminate.
  match goal with
  | |- (if ?b then _ else _) = _ -> _ => destruct b eqn:Eok; [|discriminate]
  end.
  intros [= <-]. apply andb_true_iff in Eok as [Hy Hd].
  apply Z.leb_le in Hy, Hd.
  apply match_month_day_range in Em as [r Hr].
  apply month_alternatives_range in Hr.
  exists y1, y2, y3, y4, rest. cbn [year month day]. done.
Qed.

Lemma years_read_back :
  forallb
    (fun y =>
       match PyStr.zfill 4 (PyStr.of_Z y) with
       | String y1 (String y2 (String y3 (String y4 EmptyString))) =>
           PyFloatSyntax.is_digit y1 && PyFloatSyntax.is_digit y2 &&
           PyFloatSyntax.is_digit y3 && PyFloatSyntax.is_digit y4 &&
           (PyFloatSyntax.digits_value 0
              (String y1 (String y2 (String y3 (String y4 EmptyString))))
            =? y)
       | _ => false
       end)
    (a ← [0; 1; 2; 3; 4; 5; 6; 7; 8; 9];
     b ← [0; 1; 2; 3; 4; 5; 6; 7; 8; 9];
     c ← [0; 1; 2; 3; 4; 5; 6; 7; 8; 9];
     d ← [0; 1; 2; 3; 4; 5; 6; 7; 8; 9];
     [1000 * a + 100 * b + 10 * c + d]) = true.
Proof. vm_cast_no_check (eq_refl true). Qed.

Lemma decimal_digit k : 0 <= k <= 9 -> k ∈ [0; 1; 2; 3; 4; 5; 6; 7; 8; 9].
Proof. rewrite !elem_of_cons. lia. Qed.

Lemma months_and_days_read_back :
  forallb
    (fun m =>
       forallb
         (fun d =>
            forallb
              (fun text =>
                 match Strptime.match_month_day
                         (Strptime.month_alternatives text) with
                 | Some (m', d', EmptyString) =>
                     (m' =? Z.of_nat m) && (d' =? Z.of_nat d)
                 | _ => false
                 end)
              (mtext ← [PyStr.zfill 2 (PyStr.of_Z (Z.of_nat m));
                        PyStr.of_Z (Z.of_nat m)];
               dtext ← [PyStr.zfill 2 (PyStr.of_Z (Z.of_nat d));
                        PyStr.of_Z (Z.of_nat d)];
               [mtext ++ "-" ++ dtext]))
         (seq 1 31))
    (seq 1 12) = true.
Proof. vm_cast_no_check (eq_refl true). Qed.

(** The text of a year from 1 to 9999 is four digits with that
    value. *)
Lemma year_text y :
  1 <= y <= 9999 ->
  exists y1 y2 y3 y4,
    PyStr.zfill 4 (PyStr.of_Z y)
    = String y1 (String y2 (String y3 (String y4 EmptyString))) /\
    PyFloatSyntax.is_digit y1 && PyFloatSyntax.is_digit y2 &&
      PyFloatSyntax.is_digit y3 && PyFloatSyntax.is_digit y4 = true /\
    PyFloatSyntax.digits_value 0
      (String y1 (String y2 (String y3 (String y4 EmptyString)))) = y.
Proof.
  intros Hy. pose proof years_read_back as Hall.
  rewrite forallb_forall in Hall. specialize (Hall y).
  assert (Hin : In y (a ← [0; 1; 2; 3; 4; 5; 6; 7; 8; 9];
                      b ← [0; 1; 2; 3; 4; 5; 6; 7; 8; 9];
                      c ← [0; 1; 2; 3; 4; 5; 6; 7; 8; 9];
                      d ← [0; 1; 2; 3; 4; 5; 6; 7; 8; 9];
                      [1000 * a + 100 * b + 10 * c + d])).
  { apply list_elem_of_In.
    apply list_elem_of_bind. exists (y / 1000).
    split; [|apply decimal_digit; Z.div_mod_to_equations; lia].
    apply list_elem_of_bind. exists (y / 100 mod 10).
    split; [|apply decimal_digit; Z.div_mod_to_equations; lia].
    apply list_elem_of_bind. exists (y / 10 mod 10).
    split; [|apply decimal_digit; Z.div_mod_to_equations; lia].
    apply list_elem_of_bind. exists (y mod 10).
    split; [|apply decimal_digit; Z.div_mod_to_equations; lia].
    apply list_elem_of_singleton. Z.div_mod_to_equations. lia. }
  specialize (Hall Hin).
  destruct (PyStr.zfill 4 (PyStr.of_Z y)) as [|y1 [|y2 [|y3 [|y4 [|]]]]];
    try discriminate Hall.
  exists y1, y2, y3, y4. split; [reflexivity|].
  apply andb_true_iff in Hall as [Hd Hv]. apply Z.eqb_eq in Hv. done.
Qed.

(** The text of a month and a day, each with or without its leading
    zero, is read as that month and that day. *)
Lemma month_day_text m d mtext dtext :
  1 <= m <= 12 -> 1 <= d <= 31 ->
  mtext ∈ [PyStr.zfill 2 (PyStr.of_Z m); PyStr.of_Z m] ->
  dtext ∈ [PyStr.zfill 2 (PyStr.of_Z d); PyStr.of_Z d] ->
  Strptime.match_month_day (Strptime.month_alternatives (mtext ++ "-" ++ dtext))
  = Some (m, d, EmptyString).
Proof.
  intros Hm Hd Hmt Hdt. pose proof months_and_days_read_back as Hall.
  rewrite forallb_forall in Hall.
  specialize (Hall (Z.to_nat m) ltac:(apply in_seq; lia)).
  rewrite forallb_forall in Hall.
  specialize (Hall (Z.to_nat d) ltac:(apply in_seq; lia)).
  rewrite forallb_forall in Hall. rewrite !Z2Nat.id in Hall by lia.
  specialize (Hall (mtext ++ "-" ++ dtext)).
  assert (Hin : In (mtext ++ "-" ++ dtext)
                   (mtext ← [PyStr.zfill 2 (PyStr.of_Z m); PyStr.of_Z m];
                    dtext ← [PyStr.zfill 2 (PyStr.of_Z d); PyStr.of_Z d];
                    [mtext ++ "-" ++ dtext])).
  { apply list_elem_of_In.
    apply list_elem_of_bind. exists mtext. split; [|exact Hmt].
    apply list_elem_of_bind. exists dtext. split; [|exact Hdt].
    apply list_elem_of_singleton. reflexivity. }
  specialize (Hall Hin).
  destruct (Strptime.match_month_day _) as [[[m' d'] [|]]|]; try discriminate.
  apply andb_true_iff in Hall as [Hm' Hd']. apply Z.eqb_eq in Hm', Hd'. by subst.
Qed.

Lemma days_in_month_le y m : Strptime.days_in_month y m <= 31.
Proof.
  unfold Strptime.days_in_month.
  destruct (m =? 2); [destruct (Strptime.is_leap y); lia|].
  destruct (_ || _); lia.
Qed.

(** The text of a date of the calendar, year in four digits, month and
    day each with or without its leading zero, is read as that date. *)
Lemma strptime_ymd_reads d mtext dtext :
  1 <= year d <= 9999 ->
  1 <= month d <= 12 ->
  1 <= day d <= Strptime.days_in_month (year d) (month d) ->
  mtext ∈ [PyStr.zfill 2 (PyStr.of_Z (month d)); PyStr.of_Z (month d)] ->
  dtext ∈ [PyStr.zfill 2 (PyStr.of_Z (day d)); PyStr.of_Z (day d)] ->
  Strptime.strptime_ymd
    (PyStr.zfill 4 (PyStr.of_Z (year d)) ++ "-" ++ mtext ++ "-" ++ dtext)
  = Some d.
Proof.
  destruct d as [y m dd]. cbn [year month day]. intros Hy Hm Hd Hmt Hdt.
  destruct (year_text y Hy) as (y1 & y2 & y3 & y4 & -> & Hdig & Hval).
  change (String y1 (String y2 (String y3 (String y4 "")))
          ++ "-" ++ mtext ++ "-" ++ dtext)
    with (String y1 (String y2 (String y3 (String y4 (String "-"
            (mtext ++ "-" ++ dtext)))))).
  unfold Strptime.strptime_ymd. rewrite Hdig.
  pose proof (days_in_month_le y m).
  rewrite (month_day_text m dd) by (done || lia). cbv zeta. rewrite Hval.
  rewrite (proj2 (Z.leb_le 1 y)) by lia.
  rewrite (proj2 (Z.leb_le dd _)) by lia. reflexivity.
Qed.

(** A date prints as text that [strptime] reads back as the same
    date. *)
Lemma strptime_ymd_isoformat d :
  1 <= year d <= 9999 ->
  1 <= month d <= 12 ->
  1 <= day d <= Strptime.days_in_month (year d) (month d) ->
  Strptime.strptime_ymd (date_isoformat d) = Some d.
Proof.
  intros Hy Hm Hd. unfold date_isoformat.
  apply strptime_ymd_reads; try done; apply list_elem_of_here.
Qed.

Lemma day_alternatives_range s d rest :
  (d, rest) ∈ Strptime.day_alternatives s -> 1 <= d <= 31.
Proof.
  unfold Strptime.day_alternatives, PyFloatSyntax.digit_val, PyFloatSyntax.is_digit.
  destruct s as [|a [|b r]]; [by rewrite elem_of_nil|..]; cbn [app].
  - rewrite app_nil_r.
    destruct (PyStr.in_range 49 57 a) eqn:Ea; [|by rewrite elem_of_nil].
    apply in_range_spec in Ea. rewrite list_elem_of_singleton. intros [= -> _]. lia.
  - rewrite !elem_of_app. intros [[Hd|[Hd|Hd]]|[Hd|Hd]].
    + destruct (Ascii.eqb a "3" && PyStr.in_range 48 49 b) eqn:E;
        [|by rewrite elem_of_nil in Hd].
      apply andb_true_iff in E as [_ Eb]. apply in_range_spec in Eb.
      apply list_elem_of_singleton in Hd. injection Hd as -> _. lia.
    + destruct (PyStr.in_range 49 50 a && PyStr.in_range 48 57 b) eqn:E;
        [|by rewrite elem_of_nil in Hd].
      apply andb_true_iff in E as [Ea Eb]. apply in_range_spec in Ea, Eb.
      apply list_elem_of_singleton in Hd. injection Hd as -> _. lia.
    + destruct (Ascii.eqb a "0" && PyStr.in_range 49 57 b) eqn:E;
        [|by rewrite elem_of_nil in Hd].
      apply andb_true_iff in E as [_ Eb]. apply in_range_spec in Eb.
      apply list_elem_of_singleton in Hd. injection Hd as -> _. lia.
    + destruct (PyStr.in_range 49 57 a) eqn:Ea; [|by rewrite elem_of_nil in Hd].
      apply in_range_spec in Ea.
      apply list_elem_of_singleton in Hd. injection Hd as -> _. lia.
    + destruct (Ascii.eqb a " " && PyStr.in_range 49 57 b) eqn:E;
        [|by rewrite elem_of_nil in Hd].
      apply andb_true_iff in E as [_ Eb]. apply in_range_spec in Eb.
      apply list_elem_of_singleton in Hd. injection Hd as -> _. lia.
Qed.

Lemma match_month_day_day alts m d rest :
  Strptime.match_month_day alts = Some (m, d, rest) -> 1 <= d <= 31.
Proof.
  induction alts as [|[m0 r0] alts IH]; [discriminate|]. cbn [Strptime.match_month_day].
  destruct r0 as [|c r0]; [exact IH|].
  destruct (Ascii.eqb c "-") eqn:Ec.
  - apply Ascii.eqb_eq in Ec. subst c.
    destruct (Strptime.day_alternatives r0) as [|[d0 rest0] ?] eqn:Ed; [exact IH|].
    intros [= -> -> ->]. apply (day_alternatives_range r0 d rest).
    rewrite Ed. apply list_elem_of_here.
  - intros Hm. apply IH. revert Hm.
    destruct c as [[] [] [] [] [] [] [] []]; try done.
Qed.

(** What [strptime] returns is a date of the calendar. *)
Lemma strptime_ymd_valid s d :
  Strptime.strptime_ymd s = Some d ->
  1 <= year d <= 9999 /\ 1 <= month d <= 12 /\
  1 <= day d <= Strptime.days_in_month (year d) (month d).
Proof.
  intros Hp. pose proof Hp as Hshape.
  apply strptime_ymd_shape in Hshape
    as (y1 & y2 & y3 & y4 & rest & -> & Hdig & Hy & Hy1 & Hm & Hd).
  assert (Hday : 1 <= day d).
  { revert Hp. unfold Strptime.strptime_ymd. rewrite Hdig.
    destruct (Strptime.match_month_day _) as [[[m dd] [|]]|] eqn:Em; try discriminate.
    cbv zeta.
    match goal with
    | |- (if ?b then _ else _) = _ -> _ => destruct b; [|discriminate]
    end.
    intros [= Heq]. rewrite <- Heq. cbn [day].
    by apply match_month_day_day in Em as [? _]. }
  assert (Hy4 : year d <= 9999).
  { rewrite Hy. apply andb_true_iff in Hdig as [Hdig H4].
    apply andb_true_iff in Hdig as [Hdig H3].
    apply andb_true_iff in Hdig as [H1 H2].
    unfold PyFloatSyntax.is_digit in *. apply in_range_spec in H1, H2, H3, H4.
    cbn [PyFloatSyntax.digits_value]. unfold PyFloatSyntax.digit_val. lia. }
  lia.
Qed.

(** C8. The inspection date: a string is parsed with the one format
    [%Y-%m-%d] and, when it parses, gives that date; a string the format
    refuses (such as [13/45/2021]) gives the date of a clock reading
    taken during the run; a date object passes through unchanged; and a
    bag without the key also gives the date of a clock reading taken
    during the run. The format reads every date of the calendar, from
    year 1 to year 9999, written as [YYYY-MM-DD] (the month and the day
    also without their leading zero): the record then has that very
    date, and [2021-03-04] is the fourth of March 2021. What
    the format reads is four digits, a hyphen, a month and a day, and
    always a date of the calendar. *)
Theorem C8_inspection_date_resolution st cleaned st' :
  validate_and_clean_excel_data st = (Ok cleaned, st') ->
  let source := inspection_date_source (st_raw st) in
  let during_run (v : value) :=
    exists n, (st_ticks st <= n < st_ticks st')%nat /\
              v = VDate (today (st_clock st n)) in
  let of_the_calendar (d : date) :=
    1 <= year d <= 9999 /\ 1 <= month d <= 12 /\
    1 <= day d <= Strptime.days_in_month (year d) (month d) in
  (forall s d,
      source = VStr s -> Strptime.strptime_ymd s = Some d ->
      cleaned !! "inspection_date" = Some (VDate d)) /\
  (forall s,
      source = VStr s -> Strptime.strptime_ymd s = None ->
      exists v, cleaned !! "inspection_date" = Some v /\ during_run v) /\
  (forall d,
      source = VDate d -> cleaned !! "inspection_date" = Some (VDate d)) /\
  (st_raw st !! "inspection_date" = None ->
   st_raw st !! "Inspection Date" = None ->
   exists v, cleaned !! "inspection_date" = Some v /\ during_run v) /\
  Strptime.strptime_ymd "13/45/2021" = None /\
  (forall s d,
      Strptime.strptime_ymd s = Some d ->
      of_the_calendar d /\
      exists y1 y2 y3 y4 rest,
        s = String y1 (String y2 (String y3 (String y4 (String "-" rest)))) /\
        year d = PyFloatSyntax.digits_value 0
                   (String y1 (String y2 (String y3 (String y4 ""))))) /\
  (forall d,
      of_the_calendar d -> Strptime.strptime_ymd (date_isoformat d) = Some d) /\
  (forall d mtext dtext,
      of_the_calendar d ->
      mtext ∈ [PyStr.zfill 2 (PyStr.of_Z (month d)); PyStr.of_Z (month d)] ->
      dtext ∈ [PyStr.zfill 2 (PyStr.of_Z (day d)); PyStr.of_Z (day d)] ->
      Strptime.strptime_ymd
        (PyStr.zfill 4 (PyStr.of_Z (year d)) ++ "-" ++ mtext ++ "-" ++ dtext)
      = Some d) /\
  (forall d,
      of_the_calendar d -> source = VStr (date_isoformat d) ->
      cleaned !! "inspection_date" = Some (VDate d)) /\
  Strptime.strptime_ymd "2021-03-04" = Some (Date 2021 3 4).
Proof.
  intros Hrun source during_run of_the_calendar.
  apply validate_returns in Hrun as (t & s' & _ & _ & -> & ->).
  rewrite cleaned_record_inspection_date.
  unfold cleaned_inspection_date, during_run. fold source.
  assert (Hclock :
    inspection_date_missing (st_raw st) = true ->
    exists v,
      Some (VDate (today (st_clock st
              (readings (report_number_missing (st_raw st)) + st_ticks st)))) = Some v /\
      exists n,
        (st_ticks st <= n < st_ticks
           (tick (readings (inspection_date_missing (st_raw st))
                  + readings (report_number_missing (st_raw st))) st))%nat /\
        v = VDate (today (st_clock st n))).
  { intros Hmiss. eexists. split; [reflexivity|].
    eexists. split; [|reflexivity]. rewrite Hmiss.
    destruct st; cbn [tick st_ticks readings]. lia. }
  split; [|split; [|split; [|split; [|split; [|split; [|split; [|split; [|split]]]]]]]].
  - intros s d Hs Hp. by rewrite Hs, Hp.
  - intros s Hs Hp. rewrite Hs, Hp. apply Hclock.
    unfold inspection_date_missing. fold source. by rewrite Hs, Hp.
  - intros d Hd. by rewrite Hd.
  - intros H1 H2.
    assert (source = VStr "") as Hs.
    { unfold source, inspection_date_source, dict_get. by rewrite H1, H2. }
    rewrite Hs. cbn. apply Hclock.
    unfold inspection_date_missing. fold source. by rewrite Hs.
  - reflexivity.
  - intros s d Hp. split; [by apply (strptime_ymd_valid s)|].
    apply strptime_ymd_shape in Hp
      as (y1 & y2 & y3 & y4 & rest & -> & _ & Hy & _).
    by exists y1, y2, y3, y4, rest.
  - intros d (Hy & Hm & Hd). by apply strptime_ymd_isoformat.
  - intros d mtext dtext (Hy & Hm & Hd). by apply strptime_ymd_reads.
  - intros d (Hy & Hm & Hd) Hs.
    by rewrite Hs, strptime_ymd_isoformat.
  - reflexivity.
Qed.

(** ** Determinism and effects *)

Lemma cleaned_report_number_present raw now now' :
  report_number_missing raw = false ->
  cleaned_report_number raw now = cleaned_report_number raw now'.
Proof. unfold cleaned_report_number. by intros ->. Qed.

Lemma cleaned_inspection_date_present raw now now' :
  inspection_date_missing raw = false ->
  cleaned_inspection_date raw now = cleaned_inspection_date raw now'.
Proof.
  unfold cleaned_inspection_date, inspection_date_missing.
  destruct (inspection_date_source raw) as [| | | |s|]; try done.
  - intros Hb. apply negb_false_iff in Hb. by rewrite Hb.
  - intros Hb. apply negb_false_iff in Hb. by rewrite Hb.
  - intros Hb. apply negb_false_iff in Hb. by rewrite Hb.
  - by destruct (Strptime.strptime_ymd s).
Qed.

(** The function changes nothing but the count of clock readings. *)
Lemma validate_frame st :
  exists n, (n <= 2)%nat /\ (validate_and_clean_excel_data st).2 = tick n st.
Proof.
  rewrite validate_run. cbv zeta.
  destruct (tank_id_source (st_raw st)); try (exists 0%nat; split; [lia|by rewrite tick_0]).
  destruct (service_source (st_raw st));
    try (eexists; split; [|reflexivity];
         destruct (report_number_missing _); simpl; lia).
  eexists; split; [|reflexivity].
  destruct (report_number_missing _), (inspection_date_missing _); simpl; lia.
Qed.

(** C6, as amended. The result is a function of the bag and of the
    clock readings taken: two runs on equal bags whose next two clock
    readings agree return the same result, field by field. When the bag
    has a true [report_number] and an [inspection_date] that is a string
    the format accepts or a true value that is not a string, the result
    does not depend on the clock at all. No run changes the caller's
    bag, the log or the external world. *)
Theorem C6_deterministic_given_the_clock :
  (forall st1 st2,
      st_raw st1 = st_raw st2 ->
      (forall i, (i < 2)%nat ->
                 st_clock st1 (i + st_ticks st1)%nat = st_clock st2 (i + st_ticks st2)%nat) ->
      (validate_and_clean_excel_data st1).1 = (validate_and_clean_excel_data st2).1) /\
  (forall st1 st2,
      st_raw st1 = st_raw st2 ->
      py_bool (report_number_source (st_raw st1)) = true ->
      inspection_date_missing (st_raw st1) = false ->
      (validate_and_clean_excel_data st1).1 = (validate_and_clean_excel_data st2).1) /\
  (forall st,
      let st' := (validate_and_clean_excel_data st).2 in
      st_raw st' = st_raw st /\ st_log st' = st_log st /\
      st_world st' = st_world st /\ st_clock st' = st_clock st).
Proof.
  split; [|split].
  - intros st1 st2 Hraw Hclk. rewrite !validate_run. cbv zeta. rewrite <- Hraw.
    destruct (tank_id_source (st_raw st1)); try reflexivity.
    destruct (service_source (st_raw st1)); try reflexivity.
    cbn [fst]. f_equal. f_equal.
    + apply (Hclk 0%nat). lia.
    + apply Hclk. destruct (report_number_missing _); simpl; lia.
  - intros st1 st2 Hraw Hrep Hdate. rewrite !validate_run. cbv zeta. rewrite <- Hraw.
    destruct (tank_id_source (st_raw st1)); try reflexivity.
    destruct (service_source (st_raw st1)); try reflexivity.
    cbn [fst]. f_equal. unfold cleaned_record.
    assert (report_number_missing (st_raw st1) = false) as Hrep'
      by (unfold report_number_missing; by rewrite Hrep).
    rewrite (cleaned_report_number_present _ _ (st_clock st2 (st_ticks st2)) Hrep').
    rewrite (cleaned_inspection_date_present _ _
               (st_clock st2 (readings (report_number_missing (st_raw st1)) + st_ticks st2))
               Hdate).
    reflexivity.
  - intros st st'. destruct (validate_frame st) as (n & _ & Hn).
    unfold st'. rewrite Hn. by destruct st.
Qed.


(** ** Creating the inspection *)

Lemma attach_special_field_run field inspection st :
  attach_special_field field inspection st =
  (Ok match st_raw st !! field with
      | Some v => <[field := v]> inspection
      | None => inspection
      end, st).
Proof.
  unfold attach_special_field. destruct st as [raw clk n lg w]. run_M.
  destruct (raw !! field) as [v|] eqn:E.
  - rewrite bool_decide_eq_true_2 by eauto. by rewrite E.
  - rewrite bool_decide_eq_false_2; [done|]. by intros [? ?].
Qed.

Lemma attach_special_fields_run inspection st :
  for_each special_fields attach_special_field inspection st =
  (Ok (with_special_fields (st_raw st) inspection), st).
Proof.
  unfold with_special_fields.
  apply (for_each_pure attach_special_field
           (fun inspection field =>
              match st_raw st !! field with
              | Some v => <[field := v]> inspection
              | None => inspection
              end)).
  intros. apply attach_special_field_run.
Qed.



Lemma validate_keeps_raw st r st' :
  validate_and_clean_excel_data st = (r, st') ->
  st_raw st' = st_raw st /\ st_log st' = st_log st /\ st_clock st' = st_clock st.
Proof.
  intros Hrun. destruct (validate_frame st) as (n & _ & Hn).
  rewrite Hrun in Hn. cbn in Hn. subst st'. by destruct st.
Qed.

(** What a returning run of the [try] body went through. *)
Lemma create_inspection_body_returns st inspection st' :
  create_inspection_body st = (Ok inspection, st') ->
  exists cleaned st1 id w,
    validate_and_clean_excel_data st = (Ok cleaned, st1) /\
    Inspection_init_error (valid_constructor_fields cleaned) = None /\
    Inspection_save
      (with_special_fields (st_raw st) (valid_constructor_fields cleaned))
      (st_world st1) = (Ok id, w) /\
    inspection =
      <["id" := id]>
        (with_special_fields (st_raw st) (valid_constructor_fields cleaned)).
Proof.
  unfold create_inspection_body. cbv beta iota zeta delta [mbind M_bind].
  destruct (validate_and_clean_excel_data st) as [[cleaned|e] st1] eqn:Hv;
    [|discriminate].
  apply validate_keeps_raw in Hv as Hraw. destruct Hraw as (Hraw & _).
  unfold Inspection.
  destruct (Inspection_init_error (valid_constructor_fields cleaned)) eqn:Hinit;
    [discriminate|].
  cbv beta iota zeta delta [mret M_ret].
  rewrite attach_special_fields_run. rewrite Hraw.
  unfold save.
  destruct (Inspection_save _ (st_world st1)) as [[id|e] w] eqn:Hsave;
    [|discriminate].
  unfold getattr.
  destruct (_ !! "report_number") as [rn|]; [|discriminate].
  cbv beta iota zeta delta [mret M_ret]. unfold objects_get.
  cbn [st_world st_raw st_clock st_ticks st_log].
  destruct (Inspection_objects_get rn w) as [[[found|]|e] w2]; try discriminate.
  cbv beta iota zeta delta [mbind M_bind mret M_ret emit].
  intros [= <- <-]. by exists cleaned, st1, id, w.
Qed.

(** The handler logs and raises the same exception again: the function
    returns exactly when the body does, and raises what the body
    raises. *)
Lemma create_inspection_run st :
  create_inspection_from_excel_data st =
  match create_inspection_body st with
  | (Ok inspection, st') => (Ok inspection, st')
  | (Raise e, st') =>
      (Raise e,
       State (st_raw st') (st_clock st') (st_ticks st')
         (st_log st' ++
            [LogError ("Failed to create inspection from Excel data: " ++ exn_str e);
             LogErrorData (st_raw st')])
         (st_world st'))
  end.
Proof.
  unfold create_inspection_from_excel_data, try_except.
  destruct (create_inspection_body st) as [[inspection|e] st']; [done|].
  destruct st'. cbv beta iota zeta delta [mbind M_bind emit raise].
  cbn [st_raw st_clock st_ticks st_log st_world]. by rewrite <- app_assoc.
Qed.

Lemma create_inspection_returns st inspection st' :
  create_inspection_from_excel_data st = (Ok inspection, st') ->
  create_inspection_body st = (Ok inspection, st').
Proof.
  rewrite create_inspection_run.
  destruct (create_inspection_body st) as [[i|e] s]; [done|discriminate].
Qed.



(** The body raises what validation, the constructor or the store
    raise. *)
Lemma create_inspection_body_raises st :
  (forall e st1,
      validate_and_clean_excel_data st = (Raise e, st1) ->
      create_inspection_body st = (Raise e, st1)) /\
  (forall cleaned st1 e,
      validate_and_clean_excel_data st = (Ok cleaned, st1) ->
      Inspection_init_error (valid_constructor_fields cleaned) = Some e ->
      create_inspection_body st = (Raise e, st1)) /\
  (forall cleaned st1 e w,
      validate_and_clean_excel_data st = (Ok cleaned, st1) ->
      Inspection_init_error (valid_constructor_fields cleaned) = None ->
      Inspection_save
        (with_special_fields (st_raw st) (valid_constructor_fields cleaned))
        (st_world st1) = (Raise e, w) ->
      exists st2, create_inspection_body st = (Raise e, st2)).
Proof.
  unfold create_inspection_body. cbv beta iota zeta delta [mbind M_bind].
  split; [|split].
  - by intros e st1 ->.
  - intros cleaned st1 e -> Hinit. unfold Inspection. by rewrite Hinit.
  - intros cleaned st1 e w Hv Hinit Hsave. rewrite Hv.
    apply validate_keeps_raw in Hv as (Hraw & _).
    unfold Inspection. rewrite Hinit.
    cbv beta iota zeta delta [mret M_ret].
    rewrite attach_special_fields_run, Hraw. unfold save. rewrite Hsave. eauto.
Qed.

(** ** Importing a file *)

Lemma process_excel_import_body_run file_path st :
  process_excel_import_body file_path st =
  match pd_read_excel file_path (st_world st) with
  | (Ok (row :: _), w) =>
      match create_inspection_from_excel_data (handed_over st row w) with
      | (Ok inspection, st') =>
          match inspection !! "id", inspection !! "report_number" with
          | Some id, Some rn => (Ok (success_response id rn), st')
          | Some _, None =>
              (Raise (Exn "AttributeError"
                          "'Inspection' object has no attribute 'report_number'"), st')
          | None, _ =>
              (Raise (Exn "AttributeError"
                          "'Inspection' object has no attribute 'id'"), st')
          end
      | (Raise e, st') => (Raise e, st')
      end
  | (Ok [], w) =>
      (Raise (IndexError "single positional indexer is out-of-bounds"),
       State (st_raw st) (st_clock st) (st_ticks st) (st_log st) w)
  | (Raise e, w) =>
      (Raise e, State (st_raw st) (st_clock st) (st_ticks st) (st_log st) w)
  end.
Proof.
  unfold process_excel_import_body, read_excel, handed_over.
  cbv beta iota zeta delta [mbind M_bind].
  destruct (pd_read_excel file_path (st_world st)) as [[[|row rows]|e] w];
    try reflexivity.
  cbn [iloc0_to_dict bind_excel_data mret M_ret st_raw st_clock st_ticks
       st_log st_world].
  destruct (create_inspection_from_excel_data _) as [[inspection|e] st'];
    [|reflexivity].
  unfold getattr.
  destruct (inspection !! "id"); [|reflexivity].
  cbv beta iota zeta delta [mret M_ret].
  destruct (inspection !! "report_number"); reflexivity.
Qed.

Lemma process_excel_import_run file_path st :
  process_excel_import file_path st =
  match process_excel_import_body file_path st with
  | (Ok response, st') => (Ok response, st')
  | (Raise e, st') =>
      (Ok (failure_response e),
       State (st_raw st') (st_clock st') (st_ticks st')
         (st_log st' ++ [LogError ("Excel import failed: " ++ exn_str e)])
         (st_world st'))
  end.
Proof.
  unfold process_excel_import, try_except.
  destruct (process_excel_import_body file_path st) as [[r|e] st']; reflexivity.
Qed.

Lemma failure_response_lookup e :
  failure_response e !! "success" = Some (VBool false) /\
  failure_response e !! "error" = Some (VStr (exn_str e)).
Proof. split; reflexivity. Qed.

Lemma success_response_lookup id rn :
  success_response id rn !! "success" = Some (VBool true) /\
  success_response id rn !! "inspection_id" = Some id /\
  success_response id rn !! "report_number" = Some rn.
Proof. repeat split; reflexivity. Qed.

(** What the response says, and when the body of the [try] raises. *)
Lemma process_excel_import_responds file_path st :
  exists response st',
    process_excel_import file_path st = (Ok response, st') /\
    (exists b : bool, response !! "success" = Some (VBool b)) /\
    (forall e st1,
        process_excel_import_body file_path st = (Raise e, st1) ->
        response !! "success" = Some (VBool false) /\
        response !! "error" = Some (VStr (exn_str e))) /\
    (forall r st1,
        process_excel_import_body file_path st = (Ok r, st1) ->
        response !! "success" = Some (VBool true) /\
        exists row rows w inspection id rn,
          pd_read_excel file_path (st_world st) = (Ok (row :: rows), w) /\
          create_inspection_from_excel_data (handed_over st row w)
            = (Ok inspection, st1) /\
          inspection !! "id" = Some id /\
          inspection !! "report_number" = Some rn /\
          response !! "inspection_id" = Some id /\
          response !! "report_number" = Some rn) /\
    (forall e w,
        pd_read_excel file_path (st_world st) = (Raise e, w) ->
        exists st1, process_excel_import_body file_path st = (Raise e, st1)) /\
    (forall w,
        pd_read_excel file_path (st_world st) = (Ok [], w) ->
        exists e st1, process_excel_import_body file_path st = (Raise e, st1)) /\
    (forall row rows w e st1,
        pd_read_excel file_path (st_world st) = (Ok (row :: rows), w) ->
        create_inspection_from_excel_data (handed_over st row w) = (Raise e, st1) ->
        process_excel_import_body file_path st = (Raise e, st1)) /\
    (forall st0 e st1,
        create_inspection_body st0 = (Raise e, st1) ->
        exists st2, create_inspection_from_excel_data st0 = (Raise e, st2)) /\
    (forall st0 e st1,
        validate_and_clean_excel_data st0 = (Raise e, st1) ->
        create_inspection_body st0 = (Raise e, st1)) /\
    (forall st0 cleaned st1 e,
        validate_and_clean_excel_data st0 = (Ok cleaned, st1) ->
        Inspection_init_error (valid_constructor_fields cleaned) = Some e ->
        create_inspection_body st0 = (Raise e, st1)) /\
    (forall st0 cleaned st1 e w,
        validate_and_clean_excel_data st0 = (Ok cleaned, st1) ->
        Inspection_init_error (valid_constructor_fields cleaned) = None ->
        Inspection_save
          (with_special_fields (st_raw st0) (valid_constructor_fields cleaned))
          (st_world st1) = (Raise e, w) ->
        exists st2, create_inspection_body st0 = (Raise e, st2)).
Proof.
  rewrite process_excel_import_run.
  destruct (process_excel_import_body file_path st) as [[r|e] st1] eqn:Hbody.
  - exists r, st1. split; [reflexivity|].
    assert (exists row rows w inspection id rn,
               pd_read_excel file_path (st_world st) = (Ok (row :: rows), w) /\
               create_inspection_from_excel_data (handed_over st row w)
                 = (Ok inspection, st1) /\
               inspection !! "id" = Some id /\
               inspection !! "report_number" = Some rn /\
               r = success_response id rn)
      as (row & rows & w & inspection & id & rn & Hread & Hcreate & Hid & Hrn & ->).
    { rewrite process_excel_import_body_run in Hbody.
      destruct (pd_read_excel file_path (st_world st)) as [[[|row rows]|e] w]
        eqn:Hread; try discriminate.
      destruct (create_inspection_from_excel_data _) as [[inspection|e] st2]
        eqn:Hcreate; [|discriminate].
      destruct (inspection !! "id") as [id|] eqn:Hid; [|discriminate].
      destruct (inspection !! "report_number") as [rn|] eqn:Hrn; [|discriminate].
      injection Hbody as <- <-. by exists row, rows, w, inspection, id, rn. }
    destruct (success_response_lookup id rn) as (Hs & Hi & Hr).
    split; [by exists true|]. split; [discriminate|].
    split.
    { intros r' st1' [= <- <-]. split; [done|].
      by exists row, rows, w, inspection, id, rn. }
    rewrite process_excel_import_body_run in Hbody. rewrite Hread in *.
    split; [discriminate|]. split; [discriminate|].
    split.
    { intros row' rows' w' e st1' [= <- <- <-] Hc. rewrite Hc in Hcreate.
      discriminate. }
    split.
    { intros st0 e st1' Hb. rewrite create_inspection_run, Hb. eauto. }
    repeat split; intros st0; by apply (create_inspection_body_raises st0).
  - exists (failure_response e). eexists. split; [reflexivity|].
    destruct (failure_response_lookup e) as (Hs & He).
    split; [by exists false|].
    split; [by intros e' st1' [= <- <-]|]. split; [discriminate|].
    rewrite process_excel_import_body_run in Hbody.
    split.
    { intros e' w Hread. rewrite Hread in Hbody. eauto. }
    split.
    { intros w Hread. rewrite Hread in Hbody. eauto. }
    split.
    { intros row rows w e' st1' Hread Hc. by rewrite Hread, Hc in Hbody. }
    split.
    { intros st0 e' st1' Hb. rewrite create_inspection_run, Hb. eauto. }
    repeat split; intros st0; by apply (create_inspection_body_raises st0).
Qed.

Lemma with_special_fields_report_number raw (inspection : dict) :
  with_special_fields raw inspection !! "report_number"
  = inspection !! "report_number".
Proof.
  unfold with_special_fields, special_fields. cbn [foldl].
  destruct (raw !! "findings"), (raw !! "recommendations"), (raw !! "notes");
    repeat (rewrite lookup_insert_ne by discriminate); reflexivity.
Qed.

Lemma valid_constructor_fields_report_number cleaned rn :
  cleaned !! "report_number" = Some rn -> rn <> VNone ->
  valid_constructor_fields cleaned !! "report_number" = Some rn.
Proof.
  intros Hrn Hnone. unfold valid_constructor_fields. cbv zeta.
  apply map_lookup_filter_Some_2; [|exact Hnone].
  cbn [list_to_map foldr uncurry fst snd].
  rewrite lookup_insert_ne by discriminate. rewrite lookup_insert_eq.
  unfold dict_get. by rewrite Hrn.
Qed.

(** The report number of a record is a string. *)
Lemma validate_report_number st cleaned st' :
  validate_and_clean_excel_data st = (Ok cleaned, st') ->
  exists s, cleaned !! "report_number" = Some (VStr s).
Proof.
  intros Hv. apply validate_returns in Hv as (t & s & _ & _ & -> & _).
  rewrite cleaned_record_report_number. unfold cleaned_report_number. eauto.
Qed.

(** The call returns when validation, the constructor and the save
    succeed and the lookup finds the inspection. *)
Lemma create_inspection_succeeds st cleaned st1 id w rn found w2 :
  validate_and_clean_excel_data st = (Ok cleaned, st1) ->
  Inspection_init_error (valid_constructor_fields cleaned) = None ->
  Inspection_save
    (with_special_fields (st_raw st) (valid_constructor_fields cleaned))
    (st_world st1) = (Ok id, w) ->
  cleaned !! "report_number" = Some rn ->
  Inspection_objects_get rn w = (Ok (Some found), w2) ->
  exists st2,
    create_inspection_from_excel_data st =
    (Ok (<["id" := id]>
           (with_special_fields (st_raw st) (valid_constructor_fields cleaned))),
     st2) /\
    st_world st2 = w2.
Proof.
  intros Hv Hinit Hsave Hrn Hget.
  destruct (validate_report_number _ _ _ Hv) as [s Hs].
  assert (rn = VStr s) as -> by congruence.
  apply validate_keeps_raw in Hv as Hframe. destruct Hframe as (Hraw & _).
  rewrite create_inspection_run.
  unfold create_inspection_body. cbv beta iota zeta delta [mbind M_bind].
  rewrite Hv. unfold Inspection. rewrite Hinit.
  cbv beta iota zeta delta [mret M_ret].
  rewrite attach_special_fields_run, Hraw. unfold save. rewrite Hsave.
  unfold getattr. rewrite lookup_insert_ne by discriminate.
  rewrite with_special_fields_report_number.
  rewrite (valid_constructor_fields_report_number cleaned (VStr s)) by done.
  cbv beta iota zeta delta [mret M_ret]. unfold objects_get.
  cbn [st_world st_raw st_clock st_ticks st_log]. rewrite Hget.
  cbv beta iota zeta delta [mbind M_bind mret M_ret emit].
  cbn [st_world st_raw st_clock st_ticks st_log].
  eexists. split; reflexivity.
Qed.

(** The inspection a call returns has an [id] and a [report_number]. *)
Lemma created_inspection_attributes st inspection st' :
  create_inspection_from_excel_data st = (Ok inspection, st') ->
  exists id rn,
    inspection !! "id" = Some id /\ inspection !! "report_number" = Some rn.
Proof.
  intros Hrun.
  apply create_inspection_returns, create_inspection_body_returns in Hrun
    as (cleaned & st1 & id & w & Hv & _ & _ & ->).
  destruct (validate_report_number _ _ _ Hv) as [s Hs].
  exists id, (VStr s). split; [apply lookup_insert_eq|].
  rewrite lookup_insert_ne by discriminate.
  rewrite with_special_fields_report_number.
  by apply valid_constructor_fields_report_number.
Qed.

(** C10. [process_excel_import] returns a response for every path and
    never raises. The response has a boolean [success]. It is
    [success: False] with [error] the text of the exception exactly when
    the body of the [try] raised: that is so when the reader raises,
    when the sheet has no row, and when
    [create_inspection_from_excel_data] raises, which it does (raising
    the same exception again) whenever validation, the constructor or
    the store raises. Otherwise it is [success: True] with
    [inspection_id] and [report_number] the [id] and [report_number] of
    the inspection that was created: whenever the reader gives a row
    and [create_inspection_from_excel_data] returns for it, the body
    returns, and the response is the success response for the
    inspection's [id] and [report_number]. The inspection is created
    whenever validation, the constructor and the save succeed and the
    lookup by the record's report number finds it. *)
Theorem C10_process_excel_import_always_responds file_path st :
  exists response st',
    process_excel_import file_path st = (Ok response, st') /\
    (exists b : bool, response !! "success" = Some (VBool b)) /\
    (forall e st1,
        process_excel_import_body file_path st = (Raise e, st1) ->
        response !! "success" = Some (VBool false) /\
        response !! "error" = Some (VStr (exn_str e))) /\
    (forall r st1,
        process_excel_import_body file_path st = (Ok r, st1) ->
        response !! "success" = Some (VBool true) /\
        exists row rows w inspection id rn,
          pd_read_excel file_path (st_world st) = (Ok (row :: rows), w) /\
          create_inspection_from_excel_data (handed_over st row w)
            = (Ok inspection, st1) /\
          inspection !! "id" = Some id /\
          inspection !! "report_number" = Some rn /\
          response !! "inspection_id" = Some id /\
          response !! "report_number" = Some rn) /\
    (forall e w,
        pd_read_excel file_path (st_world st) = (Raise e, w) ->
        exists st1, process_excel_import_body file_path st = (Raise e, st1)) /\
    (forall w,
        pd_read_excel file_path (st_world st) = (Ok [], w) ->
        exists e st1, process_excel_import_body file_path st = (Raise e, st1)) /\
    (forall row rows w e st1,
        pd_read_excel file_path (st_world st) = (Ok (row :: rows), w) ->
        create_inspection_from_excel_data (handed_over st row w) = (Raise e, st1) ->
        process_excel_import_body file_path st = (Raise e, st1)) /\
    (forall st0 e st1,
        create_inspection_body st0 = (Raise e, st1) ->
        exists st2, create_inspection_from_excel_data st0 = (Raise e, st2)) /\
    (forall st0 e st1,
        validate_and_clean_excel_data st0 = (Raise e, st1) ->
        create_inspection_body st0 = (Raise e, st1)) /\
    (forall st0 cleaned st1 e,
        validate_and_clean_excel_data st0 = (Ok cleaned, st1) ->
        Inspection_init_error (valid_constructor_fields cleaned) = Some e ->
        create_inspection_body st0 = (Raise e, st1)) /\
    (forall st0 cleaned st1 e w,
        validate_and_clean_excel_data st0 = (Ok cleaned, st1) ->
        Inspection_init_error (valid_constructor_fields cleaned) = None ->
        Inspection_save
          (with_special_fields (st_raw st0) (valid_constructor_fields cleaned))
          (st_world st1) = (Raise e, w) ->
        exists st2, create_inspection_body st0 = (Raise e, st2)) /\
    (forall row rows w inspection st1,
        pd_read_excel file_path (st_world st) = (Ok (row :: rows), w) ->
        create_inspection_from_excel_data (handed_over st row w)
          = (Ok inspection, st1) ->
        exists id rn,
          inspection !! "id" = Some id /\
          inspection !! "report_number" = Some rn /\
          process_excel_import_body file_path st
            = (Ok (success_response id rn), st1) /\
          response = success_response id rn /\
          st' = st1 /\
          response !! "success" = Some (VBool true) /\
          response !! "inspection_id" = Some id /\
          response !! "report_number" = Some rn) /\
    (forall st0 cleaned st1 id w rn found w2,
        validate_and_clean_excel_data st0 = (Ok cleaned, st1) ->
        Inspection_init_error (valid_constructor_fields cleaned) = None ->
        Inspection_save
          (with_special_fields (st_raw st0) (valid_constructor_fields cleaned))
          (st_world st1) = (Ok id, w) ->
        cleaned !! "report_number" = Some rn ->
        Inspection_objects_get rn w = (Ok (Some found), w2) ->
        exists st2,
          create_inspection_from_excel_data st0 =
          (Ok (<["id" := id]>
                 (with_special_fields (st_raw st0)
                    (valid_constructor_fields cleaned))), st2) /\
          st_world st2 = w2).
Proof.
  destruct (process_excel_import_responds file_path st)
    as (response & st' & Hrun & Hbool & Hfail & Hok & Hread & Hempty & Hcreate
        & Hbody & Hval & Hinit & Hsave).
  exists response, st'.
  split; [exact Hrun|]. split; [exact Hbool|]. split; [exact Hfail|].
  split; [exact Hok|]. split; [exact Hread|]. split; [exact Hempty|].
  split; [exact Hcreate|]. split; [exact Hbody|]. split; [exact Hval|].
  split; [exact Hinit|]. split; [exact Hsave|].
  split.
  - intros row rows w inspection st1 Hrow Hcreated.
    destruct (created_inspection_attributes _ _ _ Hcreated) as (id & rn & Hid & Hrn).
    exists id, rn.
    assert (Hb : process_excel_import_body file_path st
                 = (Ok (success_response id rn), st1))
      by (by rewrite process_excel_import_body_run, Hrow, Hcreated, Hid, Hrn).
    rewrite process_excel_import_run, Hb in Hrun. injection Hrun as <- <-.
    destruct (success_response_lookup id rn) as (Hs & Hi & Hr).
    done.
  - intros st0 cleaned st1 id w rn found w2. apply create_inspection_succeeds.
Qed.


(** ** A second run on the record *)

Lemma rstrip_idem s : PyStr.rstrip (PyStr.rstrip s) = PyStr.rstrip s.
Proof.
  induction s as [|c s IH]; [reflexivity|]. cbn [PyStr.rstrip].
  destruct (PyStr.rstrip s) as [|c' r] eqn:Er.
  - destruct (PyStr.is_space c) eqn:Ec; [reflexivity|].
    cbn [PyStr.rstrip]. by rewrite Ec.
  - change (PyStr.rstrip (String c (String c' r)))
      with (match PyStr.rstrip (String c' r) with
            | EmptyString =>
                if PyStr.is_space c then EmptyString else String c EmptyString
            | r0 => String c r0
            end).
    by rewrite IH.
Qed.

Lemma lstrip_idem s : PyStr.lstrip (PyStr.lstrip s) = PyStr.lstrip s.
Proof.
  induction s as [|c s IH]; [reflexivity|]. cbn [PyStr.lstrip].
  destruct (PyStr.is_space c) eqn:Ec; [exact IH|].
  cbn [PyStr.lstrip]. by rewrite Ec.
Qed.

Lemma rstrip_lstrip s :
  PyStr.rstrip s = s -> PyStr.rstrip (PyStr.lstrip s) = PyStr.lstrip s.
Proof.
  induction s as [|c s IH]; [reflexivity|]. intros Hfix.
  cbn [PyStr.lstrip]. destruct (PyStr.is_space c) eqn:Ec; [|exact Hfix].
  apply IH. cbn [PyStr.rstrip] in Hfix. rewrite Ec in Hfix.
  destruct (PyStr.rstrip s); [discriminate|]. by injection Hfix.
Qed.

Lemma strip_idem s : PyStr.strip (PyStr.strip s) = PyStr.strip s.
Proof.
  unfold PyStr.strip.
  rewrite (rstrip_lstrip (PyStr.rstrip s)) by apply rstrip_idem.
  apply lstrip_idem.
Qed.

(** The canonical names of the synonym table are fixed points of the
    normalization. *)
Lemma cleaned_service_idem s :
  exists c, cleaned_service s = VStr c /\ cleaned_service c = VStr c.
Proof.
  unfold cleaned_service.
  destruct (service_mapping !! PyStr.lower s) as [c|] eqn:E.
  - exists c. split; [reflexivity|].
    apply elem_of_list_to_map in E.
    2:{ cbn [fmap list_fmap fst].
        repeat (apply NoDup_cons_2;
                [rewrite ?elem_of_cons, elem_of_nil; intros Hk;
                 repeat (destruct Hk as [Hk|Hk]; [discriminate|]); exact Hk|]).
        apply NoDup_nil_2. }
    rewrite !elem_of_cons, elem_of_nil in E.
    destruct E as [E|[E|[E|[E|[E|[E|[E|[]]]]]]]]; injection E as _ ->; reflexivity.
  - exists s. split; [reflexivity|]. by rewrite E.
Qed.

Lemma cleaned_record_field_source raw t s now1 now2 field dflt v :
  cleaned_record raw t s now1 now2 !! field = Some v ->
  field_source (cleaned_record raw t s now1 now2) field dflt = v.
Proof. intros Hv. unfold field_source, dict_get. by rewrite Hv. Qed.

(** Reconciling a record again gives the same record and reads no
    clock, provided the record's tank id does not end in a spreadsheet
    extension, its report number is not empty, and no numeric field is a
    float zero (which the second run would store as the integer 0). *)
Theorem second_run_returns_the_same_record st r st' :
  validate_and_clean_excel_data st = (Ok r, st') ->
  (forall t, r !! "tank_id" = Some (VStr t) ->
             PyStr.endswith_any t file_extensions = false) ->
  r !! "report_number" <> Some (VStr "") ->
  (forall field x, field ∈ numeric_fields ->
                   r !! field = Some (VFloat x) -> float_bool x = true) ->
  forall st2, st_raw st2 = r ->
              validate_and_clean_excel_data st2 = (Ok r, st2).
Proof.
  intros Hrun Htank Hreport Hnum st2 Hraw.
  apply validate_returns in Hrun as (t & s & _ & _ & -> & _).
  set (raw := st_raw st) in *.
  set (now1 := st_clock st (st_ticks st)) in *.
  set (now2 := st_clock st (_ + _)) in *.
  rewrite cleaned_record_tank_id in Htank.
  rewrite cleaned_record_report_number in Hreport.
  (* the sources of the second run *)
  assert (Hsrc_tank : tank_id_source (cleaned_record raw t s now1 now2)
                      = cleaned_tank_id raw t).
  { unfold tank_id_source, dict_get. by rewrite cleaned_record_tank_id. }
  assert (Hsrc_rep : report_number_source (cleaned_record raw t s now1 now2)
                     = cleaned_report_number raw now1).
  { unfold report_number_source, dict_get. by rewrite cleaned_record_report_number. }
  assert (Hsrc_serv : service_source (cleaned_record raw t s now1 now2)
                      = cleaned_service s).
  { unfold service_source, dict_get. by rewrite cleaned_record_service. }
  assert (Hsrc_insp : inspector_source (cleaned_record raw t s now1 now2)
                      = cleaned_inspector raw).
  { unfold inspector_source, dict_get. by rewrite cleaned_record_inspector. }
  assert (Hsrc_date : inspection_date_source (cleaned_record raw t s now1 now2)
                      = cleaned_inspection_date raw now2).
  { unfold inspection_date_source, dict_get.
    by rewrite cleaned_record_inspection_date. }
  destruct (cleaned_service_idem s) as (c & Hc & Hcc).
  (* the values of the second run *)
  assert (Htank2 : forall t1, cleaned_tank_id raw t = VStr t1 ->
                              cleaned_tank_id (cleaned_record raw t s now1 now2) t1
                              = VStr t1).
  { intros t1 Ht1. unfold cleaned_tank_id at 1.
    rewrite (Htank t1) by (by rewrite Ht1).
    cbn [py_str]. unfold cleaned_tank_id in Ht1. injection Ht1 as <-.
    by rewrite strip_idem. }
  assert (Hmiss : report_number_missing (cleaned_record raw t s now1 now2) = false).
  { unfold report_number_missing. rewrite Hsrc_rep.
    unfold cleaned_report_number in *. cbn [py_bool].
    destruct (String.eqb _ "") eqn:E; [|reflexivity].
    apply String.eqb_eq in E. exfalso. apply Hreport. by rewrite E. }
  assert (Hrep2 : forall now,
             cleaned_report_number (cleaned_record raw t s now1 now2) now
             = cleaned_report_number raw now1).
  { intros now. unfold cleaned_report_number at 1. rewrite Hmiss, Hsrc_rep.
    unfold cleaned_report_number. cbn [py_str]. by rewrite strip_idem. }
  assert (Hinsp2 : cleaned_inspector (cleaned_record raw t s now1 now2)
                   = cleaned_inspector raw).
  { unfold cleaned_inspector at 1. rewrite Hsrc_insp.
    unfold cleaned_inspector. cbn [py_str]. by rewrite strip_idem. }
  assert (Hdate2 :
            inspection_date_missing (cleaned_record raw t s now1 now2) = false /\
            forall now,
              cleaned_inspection_date (cleaned_record raw t s now1 now2) now
              = cleaned_inspection_date raw now2).
  { unfold inspection_date_missing, cleaned_inspection_date at 1.
    rewrite Hsrc_date. unfold cleaned_inspection_date.
    clear. destruct (inspection_date_source raw) as [| |n|x|d|d]; cbn [py_bool].
    - split; reflexivity.
    - destruct b; split; reflexivity.
    - destruct (negb (n =? 0)) eqn:E; cbn [py_bool]; rewrite ?E; split; reflexivity.
    - destruct (float_bool x) eqn:E; cbn [py_bool]; rewrite ?E; split; reflexivity.
    - destruct (Strptime.strptime_ymd d); split; reflexivity.
    - split; reflexivity. }
  destruct Hdate2 as (Hdmiss & Hdate2).
  assert (Hnum2 : forall field,
             field ∈ numeric_fields ->
             cleaned_numeric (cleaned_record raw t s now1 now2) field
             = cleaned_numeric raw field).
  { intros field Hin. unfold cleaned_numeric at 1. cbv zeta.
    rewrite (cleaned_record_field_source raw t s now1 now2 field (VInt 0)
               (cleaned_numeric raw field))
      by (by rewrite cleaned_record_numeric).
    pose proof (Hnum field) as Hx. rewrite cleaned_record_numeric in Hx by done.
    unfold cleaned_numeric in *. cbv zeta in *.
    destruct (py_bool (field_source raw field (VInt 0))); [|reflexivity].
    destruct (py_float (field_source raw field (VInt 0))) as [x|e]; [|reflexivity].
    cbn [py_bool py_float]. by rewrite (Hx x Hin eq_refl). }
  assert (Htext2 : forall field,
             field ∈ text_fields ->
             cleaned_text (cleaned_record raw t s now1 now2) field
             = cleaned_text raw field).
  { intros field Hin. unfold cleaned_text at 1.
    rewrite (cleaned_record_field_source raw t s now1 now2 field (VStr "")
               (cleaned_text raw field))
      by (by rewrite cleaned_record_text).
    unfold cleaned_text. cbn [py_str]. by rewrite strip_idem. }
  (* the second run *)
  destruct (cleaned_tank_id raw t) as [| | | |t1|] eqn:Et; try discriminate.
  rewrite (validate_on_strings st2 t1 c) by (by rewrite Hraw, ?Hsrc_tank, ?Hsrc_serv).
  rewrite Hraw, Hmiss, Hdmiss. cbn [readings Nat.add]. rewrite tick_0.
  f_equal. f_equal.
  unfold cleaned_record at 1. unfold numeric_fields, text_fields. cbn [foldl].
  rewrite (Htext2 "shell_material"), (Htext2 "roof_type"),
    (Htext2 "foundation_type") by (unfold text_fields; repeat constructor).
  rewrite (Hnum2 "diameter"), (Hnum2 "height"), (Hnum2 "capacity"),
    (Hnum2 "year_built") by (unfold numeric_fields; repeat constructor).
  rewrite Hdate2, Hinsp2, Hrep2, Hcc, (Htank2 t1 eq_refl).
  unfold cleaned_record, numeric_fields, text_fields. cbn [foldl].
  by rewrite Hc, Et.
Qed.

(** The function returns exactly when the tank id and the service both
    resolve to strings. Otherwise it raises [AttributeError], and
    nothing else: for a tank id that is not a string, that its type has
    no attribute [endswith]; for a service that is not a string, that
    its type has no attribute [lower]. *)
Theorem validate_returns_iff st :
  ((exists cleaned st', validate_and_clean_excel_data st = (Ok cleaned, st')) <->
   is_str (tank_id_source (st_raw st)) = true /\
   is_str (service_source (st_raw st)) = true) /\
  (forall e st',
      validate_and_clean_excel_data st = (Raise e, st') ->
      exn_class e = "AttributeError") /\
  (is_str (tank_id_source (st_raw st)) = false ->
   exists st',
     validate_and_clean_excel_data st =
     (Raise (Exn "AttributeError"
                 ("'" ++ type_name (tank_id_source (st_raw st))
                  ++ "' object has no attribute 'endswith'")), st')) /\
  (is_str (tank_id_source (st_raw st)) = true ->
   is_str (service_source (st_raw st)) = false ->
   exists st',
     validate_and_clean_excel_data st =
     (Raise (Exn "AttributeError"
                 ("'" ++ type_name (service_source (st_raw st))
                  ++ "' object has no attribute 'lower'")), st')).
Proof.
  split; [|split; [|split]].
  - split.
    + intros (cleaned & st' & Hrun).
      apply validate_returns in Hrun as (t & s & -> & -> & _). done.
    + intros [Ht Hs].
      destruct (tank_id_source (st_raw st)) as [| | | |t|] eqn:Et; try discriminate.
      destruct (service_source (st_raw st)) as [| | | |s|] eqn:Es; try discriminate.
      by apply (validate_total st t s).
  - intros e st'. rewrite validate_run. cbv zeta.
    destruct (tank_id_source (st_raw st)) as [| | | |t|];
      try (by intros [= <- _]).
    destruct (service_source (st_raw st)) as [| | | |s|];
      by intros [= <- _].
  - intros Ht. rewrite validate_run. cbv zeta.
    destruct (tank_id_source (st_raw st)) as [| | | |t|]; try discriminate;
      eexists; reflexivity.
  - intros Ht Hs. rewrite validate_run. cbv zeta.
    destruct (tank_id_source (st_raw st)) as [| | | |t|]; try discriminate.
    destruct (service_source (st_raw st)) as [| | | |s|]; try discriminate;
      eexists; reflexivity.
Qed.

End Proofs.

(** * The code on concrete bags

    Runs on CPython's floats, in the in-memory world, with the example
    clock. *)

(** C1 fails on the code. A bag whose tank id is the number 42 makes
    [tank_id.endswith] raise [AttributeError], and so does a float (an
    empty spreadsheet cell read as NaN); a service that is a number
    makes [service.lower] raise. Nothing catches these: the function
    raises instead of returning a record. *)
Example C1_non_string_field_raises :
  validate_and_clean_excel_data (example_state {[ "tank_id" := VInt 42 ]})
  = (Raise (Exn "AttributeError" "'int' object has no attribute 'endswith'"),
     example_state {[ "tank_id" := VInt 42 ]}) /\
  (validate_and_clean_excel_data
     (example_state {[ "tank_id" := VFloat S754_nan ]})).1
  = Raise (Exn "AttributeError" "'float' object has no attribute 'endswith'") /\
  (validate_and_clean_excel_data
     (example_state {[ "tank_id" := VStr "T-1"; "service" := VInt 5 ]})).1
  = Raise (Exn "AttributeError" "'int' object has no attribute 'lower'").
Proof. repeat split; rewrite validate_run; reflexivity. Qed.

(** C2 fails as stated: for the empty bag the function returns and
    [tank_id] is the empty string. *)
Lemma C2_counterexample_empty_tank_id :
  exists cleaned st',
    validate_and_clean_excel_data (example_state ∅) = (Ok cleaned, st') /\
    cleaned !! "tank_id" = Some (VStr "").
Proof.
  eexists _, _. split.
  - apply (validate_on_strings _ "" ""); reflexivity.
  - rewrite cleaned_record_tank_id. reflexivity.
Qed.

Lemma C2_tank_id_amended_witness :
  exists cleaned st',
    validate_and_clean_excel_data
      (example_state {[ "tank_id" := VStr " T-7 " ]}) = (Ok cleaned, st') /\
    cleaned !! "tank_id" = Some (VStr "T-7").
Proof.
  pose proof (validate_on_strings
                (example_state {[ "tank_id" := VStr " T-7 " ]}) " T-7 " ""
                eq_refl eq_refl) as Hrun.
  eexists _, _. split; [exact Hrun|].
  destruct (C2_tank_id_amended _ _ _ Hrun) as (t & Ht & _ & Hclean & _).
  destruct (Hclean " T-7 ") as (-> & _);
    [reflexivity|discriminate|reflexivity|exact Ht].
Defined.

(** C3 fails as stated: for the bag [diameter: "abc"] the function
    returns a dict with the twelve cleaned fields and nothing else,
    [diameter] is the integer 0, and the log is still empty. No list of
    diagnostics is returned, and no diagnostic of any kind is
    recorded. *)
Lemma C3_counterexample_no_diagnostic :
  exists cleaned st',
    validate_and_clean_excel_data
      (example_state {[ "diameter" := VStr "abc" ]}) = (Ok cleaned, st') /\
    cleaned !! "diameter" = Some (VInt 0) /\
    dom cleaned = cleaned_keys /\
    st_log st' = [].
Proof.
  eexists _, _. split; [|split; [|split]].
  - apply (validate_on_strings _ "" ""); reflexivity.
  - rewrite cleaned_record_numeric by (unfold numeric_fields; set_solver).
    reflexivity.
  - apply cleaned_record_dom.
  - reflexivity.
Qed.

Lemma C3_numeric_default_no_diagnostics_witness :
  exists cleaned st',
    validate_and_clean_excel_data
      (example_state {[ "diameter" := VStr "abc" ]}) = (Ok cleaned, st') /\
    cleaned !! "diameter" = Some (VInt 0).
Proof.
  pose proof (validate_on_strings
                (example_state {[ "diameter" := VStr "abc" ]}) "" ""
                eq_refl eq_refl) as Hrun.
  eexists _, _. split; [exact Hrun|].
  destruct (C3_numeric_default_no_diagnostics _ _ _ Hrun) as (_ & _ & _ & Hd).
  apply Hd. reflexivity.
Defined.

Lemma C4_filename_tank_id_falls_back_witness :
  exists cleaned st',
    validate_and_clean_excel_data
      (example_state {[ "tank_id" := VStr "sheet1.xlsx"; "unit_id" := VStr " U-9" ]})
    = (Ok cleaned, st') /\
    cleaned !! "tank_id" = Some (VStr "U-9").
Proof.
  pose proof (validate_on_strings
                (example_state {[ "tank_id" := VStr "sheet1.xlsx";
                                  "unit_id" := VStr " U-9" ]})
                "sheet1.xlsx" "" eq_refl eq_refl) as Hrun.
  eexists _, _. split; [exact Hrun|].
  destruct C4_filename_tank_id_falls_back as (Hgen & _).
  apply (Hgen _ _ _ "sheet1.xlsx" Hrun); reflexivity.
Defined.

(** C6 fails as stated: two runs on the empty bag, one after the other,
    return different report numbers, each made from the clock reading
    the run took. *)
Lemma C6_counterexample_two_runs_differ :
  exists r1 st1 r2 st2,
    validate_and_clean_excel_data (example_state ∅) = (Ok r1, st1) /\
    st_raw st1 = ∅ /\
    validate_and_clean_excel_data st1 = (Ok r2, st2) /\
    r1 !! "report_number" = Some (VStr "IMP-1751694680592") /\
    r2 !! "report_number" = Some (VStr "IMP-1751694680594").
Proof.
  eexists _, _, _, _. split; [|split; [|split; [|split]]].
  - apply (validate_on_strings _ "" ""); reflexivity.
  - reflexivity.
  - apply (validate_on_strings _ "" ""); reflexivity.
  - rewrite cleaned_record_report_number. reflexivity.
  - rewrite cleaned_record_report_number. reflexivity.
Qed.

Lemma C6_deterministic_given_the_clock_witness :
  (validate_and_clean_excel_data
     (example_state {[ "report_number" := VStr "R-1";
                       "inspection_date" := VStr "2021-03-04" ]})).1
  = (validate_and_clean_excel_data
       (start {[ "report_number" := VStr "R-1";
                 "inspection_date" := VStr "2021-03-04" ]}
              (fun n => Instant 0 (Date 1970 1 1)) MemoryWorld.empty)).1.
Proof.
  destruct C6_deterministic_given_the_clock as (_ & Hfree & _).
  apply Hfree; reflexivity.
Defined.

Lemma C7_service_normalization_witness :
  exists cleaned st',
    validate_and_clean_excel_data
      (example_state {[ "Service" := VStr "Crude Oil" ]}) = (Ok cleaned, st') /\
    cleaned !! "service" = Some (VStr "Crude Oil").
Proof.
  destruct C7_service_normalization as (_ & _ & Hany & _).
  apply (Hany _ "Crude Oil"); reflexivity.
Defined.

Lemma C8_inspection_date_resolution_witness :
  (exists cleaned st',
      validate_and_clean_excel_data
        (example_state {[ "inspection_date" := VStr "13/45/2021" ]})
      = (Ok cleaned, st') /\
      cleaned !! "inspection_date" = Some (VDate (Date 2025 7 5))) /\
  (exists cleaned st',
      validate_and_clean_excel_data
        (example_state {[ "inspection_date" := VStr "2021-03-04" ]})
      = (Ok cleaned, st') /\
      cleaned !! "inspection_date" = Some (VDate (Date 2021 3 4))).
Proof.
  split.
  - pose proof (validate_on_strings
                  (example_state {[ "inspection_date" := VStr "13/45/2021" ]}) "" ""
                  eq_refl eq_refl) as Hrun.
    eexists _, _. split; [exact Hrun|].
    destruct (C8_inspection_date_resolution _ _ _ Hrun) as (_ & Hbad & _).
    destruct (Hbad "13/45/2021") as (v & Hv & n & _ & ->); [reflexivity..|].
    exact Hv.
  - pose proof (validate_on_strings
                  (example_state {[ "inspection_date" := VStr "2021-03-04" ]}) "" ""
                  eq_refl eq_refl) as Hrun.
    eexists _, _. split; [exact Hrun|].
    destruct (C8_inspection_date_resolution _ _ _ Hrun)
      as (_ & _ & _ & _ & _ & _ & _ & _ & Hiso & _).
    apply (Hiso (Date 2021 3 4)); [|reflexivity].
    cbn. lia.
Defined.

(** C9 fails on the code. The bag [tank_id: "tank.xlsx "] (a file name
    with a trailing blank) passes the extension test and is trimmed
    afterwards, so the record has [tank_id] [tank.xlsx]; fed back in,
    the record has its tank id replaced by [UNKNOWN]. The same happens
    when the fallback field itself holds a file name. *)
Example C9_second_run_changes_the_record :
  (exists r1 st1 r2 st2,
      validate_and_clean_excel_data
        (example_state {[ "tank_id" := VStr "tank.xlsx " ]}) = (Ok r1, st1) /\
      validate_and_clean_excel_data (example_state r1) = (Ok r2, st2) /\
      r1 !! "tank_id" = Some (VStr "tank.xlsx") /\
      r2 !! "tank_id" = Some (VStr "UNKNOWN")) /\
  (exists r1 st1 r2 st2,
      validate_and_clean_excel_data
        (example_state {[ "tank_id" := VStr "report.xlsx";
                          "tank_number" := VStr "tanks.xlsx" ]}) = (Ok r1, st1) /\
      validate_and_clean_excel_data (example_state r1) = (Ok r2, st2) /\
      r1 !! "tank_id" = Some (VStr "tanks.xlsx") /\
      r2 !! "tank_id" = Some (VStr "UNKNOWN")).
Proof.
  split.
  - eexists _, _, _, _. split; [|split; [|split]].
    + apply (validate_on_strings _ "tank.xlsx " ""); reflexivity.
    + apply (validate_on_strings _ "tank.xlsx" ""); reflexivity.
    + rewrite cleaned_record_tank_id. reflexivity.
    + rewrite cleaned_record_tank_id. reflexivity.
  - eexists _, _, _, _. split; [|split; [|split]].
    + apply (validate_on_strings _ "report.xlsx" ""); reflexivity.
    + apply (validate_on_strings _ "tanks.xlsx" ""); reflexivity.
    + rewrite cleaned_record_tank_id. reflexivity.
    + rewrite cleaned_record_tank_id. reflexivity.
Qed.


(** C10 on a concrete world: a path with no sheet behind it gives the
    failure response, with the reader's message as [error]; a sheet
    with one row gives the success response, with the [id] the store
    gave the inspection and the report number of the row. *)
Lemma C10_process_excel_import_always_responds_witness :
  (exists response st',
      process_excel_import "missing.xlsx" (example_state ∅) = (Ok response, st') /\
      response !! "success" = Some (VBool false) /\
      response !! "error" = Some (VStr "No such file or directory: 'missing.xlsx'")) /\
  (exists response st',
      process_excel_import "tanks.xlsx"
        (@start binary64 memory_world ∅ example_clock
           (MemoryWorld.Make
              {[ "tanks.xlsx" := [ {[ "tank_id" := VStr "T-1";
                                      "report_number" := VStr "R-1" ]} ] ]} []))
      = (Ok response, st') /\
      response !! "success" = Some (VBool true) /\
      response !! "inspection_id" = Some (VInt 1) /\
      response !! "report_number" = Some (VStr "R-1")).
Proof.
  split.
  - destruct (C10_process_excel_import_always_responds "missing.xlsx" (example_state ∅))
      as (response & st' & Hrun & _ & Hfail & _).
    exists response, st'. split; [exact Hrun|].
    apply (Hfail (Exn "FileNotFoundError" "No such file or directory: 'missing.xlsx'")
                 (example_state ∅)).
    reflexivity.
  - set (row := ({[ "tank_id" := VStr "T-1"; "report_number" := VStr "R-1" ]}
                 : gmap string (@value binary64))).
    set (w := MemoryWorld.Make {[ "tanks.xlsx" := [row] ]} []).
    set (st := @start binary64 memory_world ∅ example_clock w).
    destruct (C10_process_excel_import_always_responds "tanks.xlsx" st)
      as (response & st' & Hrun & _ & _ & _ & _ & _ & _ & _ & _ & _ & _
          & Hrow & Hcreated).
    exists response, st'. split; [exact Hrun|].
    pose proof (validate_on_strings (handed_over st row w) "T-1" "" eq_refl eq_refl)
      as Hv.
    eassert (Hc : _).
    { eapply (Hcreated (handed_over st row w) _ _ _ _ (VStr "R-1") _ _ Hv).
      - vm_compute. reflexivity.
      - reflexivity.
      - rewrite cleaned_record_report_number. reflexivity.
      - reflexivity. }
    destruct Hc as (st2 & Hc & _).
    destruct (Hrow row [] w _ st2 eq_refl Hc)
      as (id & rn & Hid & Hrn & _ & _ & _ & Hs & Hi & Hr).
    rewrite lookup_insert_eq in Hid. injection Hid as <-.
    rewrite lookup_insert_ne in Hrn by discriminate.
    rewrite with_special_fields_report_number in Hrn.
    rewrite (valid_constructor_fields_report_number _ (VStr "R-1")) in Hrn;
      [|rewrite cleaned_record_report_number; reflexivity|discriminate].
    injection Hrn as <-.
    split; [exact Hs|]. split; [exact Hi|exact Hr].
Defined.

(** A record with a plain tank id and a report number: the second run
    returns it unchanged. *)
Lemma second_run_returns_the_same_record_witness :
  exists r st1,
    validate_and_clean_excel_data
      (example_state {[ "tank_id" := VStr " T-7 "; "report_number" := VStr "R-1";
                        "service" := VStr "DIESEL"; "height" := VStr "12.5" ]})
    = (Ok r, st1) /\
    validate_and_clean_excel_data (example_state r) = (Ok r, example_state r).
Proof.
  pose proof (validate_on_strings
                (example_state {[ "tank_id" := VStr " T-7 ";
                                  "report_number" := VStr "R-1";
                                  "service" := VStr "DIESEL";
                                  "height" := VStr "12.5" ]})
                " T-7 " "DIESEL" eq_refl eq_refl) as Hrun.
  eexists _, _. split; [exact Hrun|].
  apply (second_run_returns_the_same_record _ _ _ Hrun).
  - rewrite cleaned_record_tank_id. intros t [= <-]. reflexivity.
  - rewrite cleaned_record_report_number. discriminate.
  - intros field x Hin. rewrite cleaned_record_numeric by done.
    unfold numeric_fields in Hin. rewrite !elem_of_cons, elem_of_nil in Hin.
    destruct Hin as [->|[->|[->|[->|[]]]]]; try discriminate.
    intros [= <-]. reflexivity.
  - reflexivity.
Defined.

(** * More of the import code *)

Section MoreProofs.
Context `{PyFloat} `{!External}.

(** ** Report numbers *)

Lemma lstrip_no_space s :
  string_forall (fun c => negb (PyStr.is_space c)) s = true -> PyStr.lstrip s = s.
Proof.
  destruct s as [|c s]; [reflexivity|]. cbn [string_forall PyStr.lstrip].
  intros Hs. apply andb_true_iff in Hs as [Hc _].
  apply negb_true_iff in Hc. by rewrite Hc.
Qed.

Lemma rstrip_no_space s :
  string_forall (fun c => negb (PyStr.is_space c)) s = true -> PyStr.rstrip s = s.
Proof.
  induction s as [|c s IH]; [reflexivity|]. cbn [string_forall PyStr.rstrip].
  intros Hs. apply andb_true_iff in Hs as [Hc Hs].
  apply negb_true_iff in Hc. rewrite (IH Hs), Hc. by destruct s.
Qed.

Lemma strip_no_space s :
  string_forall (fun c => negb (PyStr.is_space c)) s = true -> PyStr.strip s = s.
Proof.
  intros Hs. unfold PyStr.strip. rewrite (rstrip_no_space s Hs).
  by apply lstrip_no_space.
Qed.

Lemma string_of_uint_no_space d :
  string_forall (fun c => negb (PyStr.is_space c)) (NilEmpty.string_of_uint d) = true.
Proof. induction d; cbn [NilEmpty.string_of_uint string_forall]; by rewrite ?IHd. Qed.

(** The decimal text of an integer has no white space in it. *)
Lemma of_Z_no_space n :
  string_forall (fun c => negb (PyStr.is_space c)) (PyStr.of_Z n) = true.
Proof.
  unfold PyStr.of_Z, NilZero.string_of_int, NilZero.string_of_uint.
  destruct (Z.to_int n) as [d|d]; destruct d;
    try reflexivity; cbn [string_forall];
    try (rewrite string_of_uint_no_space; reflexivity);
    apply (string_of_uint_no_space (_ d)).
Qed.

(** Different integers have different decimal texts. *)
Lemma of_Z_inj n m : PyStr.of_Z n = PyStr.of_Z m -> n = m.
Proof.
  unfold PyStr.of_Z. intros Heq.
  assert (Hnorm : forall z, Z.to_int z <> Decimal.Pos Decimal.Nil /\
                            Z.to_int z <> Decimal.Neg Decimal.Nil).
  { intros [|p|p]; cbn; split; try discriminate;
      intros [= Hp]; by apply DecimalPos.Unsigned.to_uint_nonnil in Hp. }
  apply DecimalZ.to_int_inj.
  assert (Some (Z.to_int n) = Some (Z.to_int m)) as [= ->]; [|reflexivity].
  rewrite <- (NilZero.isi (Z.to_int n)) by apply Hnorm.
  rewrite <- (NilZero.isi (Z.to_int m)) by apply Hnorm.
  by rewrite Heq.
Qed.

Lemma cleaned_report_number_value raw now :
  cleaned_report_number raw now =
  VStr (if py_bool (report_number_source raw)
        then PyStr.strip (py_str (report_number_source raw))
        else "IMP-" ++ PyStr.of_Z (epoch_ms now)).
Proof.
  unfold cleaned_report_number, report_number_missing.
  destruct (py_bool (report_number_source raw)); cbn [negb]; [reflexivity|].
  cbn [py_str]. rewrite strip_no_space; [reflexivity|].
  simpl. apply of_Z_no_space.
Qed.

(** The report number. A true value under [report_number] (or
    [Report Number]) gives its text, trimmed, and the block reads no
    clock: a string of blanks therefore gives the empty report number.
    A false or absent value gives [IMP-] followed by the milliseconds of
    the first clock reading of the run, in decimal. *)
Theorem report_number_resolution st cleaned st' :
  validate_and_clean_excel_data st = (Ok cleaned, st') ->
  let source := report_number_source (st_raw st) in
  (py_bool source = true ->
   cleaned !! "report_number" = Some (VStr (PyStr.strip (py_str source)))) /\
  (py_bool source = false ->
   cleaned !! "report_number" =
   Some (VStr ("IMP-" ++ PyStr.of_Z (epoch_ms (st_clock st (st_ticks st))))) /\
   (st_ticks st < st_ticks st')%nat).
Proof.
  intros Hrun source.
  apply validate_returns in Hrun as (t & s & _ & _ & -> & ->).
  rewrite cleaned_record_report_number, cleaned_report_number_value.
  fold source.
  split; intros Hb; rewrite Hb; [reflexivity|].
  split; [reflexivity|].
  unfold tick, readings, report_number_missing. fold source. rewrite Hb. simpl.
  destruct (inspection_date_missing _); lia.
Qed.

(** Two runs on bags without a report number, whose first clock
    readings differ in their milliseconds, give different report
    numbers. *)
Theorem synthesized_report_numbers_differ st1 cleaned1 st1' st2 cleaned2 st2' :
  validate_and_clean_excel_data st1 = (Ok cleaned1, st1') ->
  validate_and_clean_excel_data st2 = (Ok cleaned2, st2') ->
  py_bool (report_number_source (st_raw st1)) = false ->
  py_bool (report_number_source (st_raw st2)) = false ->
  epoch_ms (st_clock st1 (st_ticks st1)) <> epoch_ms (st_clock st2 (st_ticks st2)) ->
  cleaned1 !! "report_number" <> cleaned2 !! "report_number".
Proof.
  intros Hrun1 Hrun2 Hb1 Hb2 Hms.
  apply validate_returns in Hrun1 as (t1 & s1 & _ & _ & -> & _).
  apply validate_returns in Hrun2 as (t2 & s2 & _ & _ & -> & _).
  rewrite !cleaned_record_report_number, !cleaned_report_number_value, Hb1, Hb2.
  intros [= Heq]. by apply Hms, of_Z_inj.
Qed.

(** ** The shape of the record *)

Lemma cleaned_numeric_shape raw field :
  cleaned_numeric raw field = VInt 0 \/ exists x, cleaned_numeric raw field = VFloat x.
Proof.
  unfold cleaned_numeric. cbv zeta.
  destruct (py_bool _); [|by left].
  destruct (py_float _); [right; eauto|by left].
Qed.

Lemma cleaned_inspection_date_shape raw now :
  py_bool (cleaned_inspection_date raw now) = true /\
  is_str (cleaned_inspection_date raw now) = false.
Proof.
  unfold cleaned_inspection_date.
  destruct (inspection_date_source raw) as [|b|n|x|s|d]; cbn [py_bool].
  - split; reflexivity.
  - destruct b; split; reflexivity.
  - destruct (negb (n =? 0)) eqn:E; cbn [py_bool]; rewrite ?E; split; reflexivity.
  - destruct (float_bool x) eqn:E; cbn [py_bool]; rewrite ?E; split; reflexivity.
  - destruct (Strptime.strptime_ymd s); split; reflexivity.
  - split; reflexivity.
Qed.

(** Every record the function returns has the same shape: the tank id,
    the report number, the inspector and the three text fields are
    trimmed strings; the service is a string; each numeric field is a
    float or the integer 0; the inspection date is a true value that is
    not a string. *)
Theorem cleaned_record_shape st cleaned st' :
  validate_and_clean_excel_data st = (Ok cleaned, st') ->
  (forall field,
      field ∈ ["tank_id"; "report_number"; "inspector";
               "shell_material"; "roof_type"; "foundation_type"] ->
      exists s, cleaned !! field = Some (VStr s) /\ PyStr.strip s = s) /\
  (exists s, cleaned !! "service" = Some (VStr s)) /\
  (forall field,
      field ∈ numeric_fields ->
      cleaned !! field = Some (VInt 0) \/
      exists x, cleaned !! field = Some (VFloat x)) /\
  (exists v, cleaned !! "inspection_date" = Some v /\
             py_bool v = true /\ is_str v = false).
Proof.
  intros Hrun.
  apply validate_returns in Hrun as (t & s & _ & _ & -> & _).
  split; [|split; [|split]].
  - intros field Hin. rewrite !elem_of_cons, elem_of_nil in Hin.
    destruct Hin as [->|[->|[->|[->|[->|[->|[]]]]]]].
    + rewrite cleaned_record_tank_id. eexists. split; [reflexivity|].
      apply strip_idem.
    + rewrite cleaned_record_report_number. eexists. split; [reflexivity|].
      apply strip_idem.
    + rewrite cleaned_record_inspector. eexists. split; [reflexivity|].
      apply strip_idem.
    + rewrite cleaned_record_text by (unfold text_fields; repeat constructor).
      eexists. split; [reflexivity|]. apply strip_idem.
    + rewrite cleaned_record_text by (unfold text_fields; repeat constructor).
      eexists. split; [reflexivity|]. apply strip_idem.
    + rewrite cleaned_record_text by (unfold text_fields; repeat constructor).
      eexists. split; [reflexivity|]. apply strip_idem.
  - rewrite cleaned_record_service.
    destruct (cleaned_service_idem s) as (c & -> & _). eauto.
  - intros field Hin. rewrite cleaned_record_numeric by done.
    destruct (cleaned_numeric_shape (st_raw st) field) as [->|[x ->]]; eauto.
  - rewrite cleaned_record_inspection_date. eexists. split; [reflexivity|].
    apply cleaned_inspection_date_shape.
Qed.

(** ** What the constructor is handed *)

Lemma cleaned_record_lookup_not_None raw t s now1 now2 field :
  cleaned_record raw t s now1 now2 !! field <> Some VNone.
Proof.
  destruct (decide (field ∈ text_fields)) as [Hin|Hnt].
  { rewrite cleaned_record_text by done. discriminate. }
  destruct (decide (field ∈ numeric_fields)) as [Hin|Hnn].
  { rewrite cleaned_record_numeric by done.
    destruct (cleaned_numeric_shape raw field) as [->|[x ->]]; discriminate. }
  destruct (decide (field = "inspection_date")) as [->|Hd].
  { rewrite cleaned_record_inspection_date. intros [= Heq].
    pose proof (cleaned_inspection_date_shape raw now2) as [Hb _].
    rewrite Heq in Hb. discriminate. }
  destruct (decide (field = "inspector")) as [->|Hi].
  { rewrite cleaned_record_inspector. discriminate. }
  destruct (decide (field = "service")) as [->|Hs].
  { rewrite cleaned_record_service.
    destruct (cleaned_service_idem s) as (c & -> & _). discriminate. }
  destruct (decide (field = "report_number")) as [->|Hr].
  { rewrite cleaned_record_report_number. discriminate. }
  destruct (decide (field = "tank_id")) as [->|Ht].
  { rewrite cleaned_record_tank_id. discriminate. }
  assert (cleaned_record raw t s now1 now2 !! field = None) as ->; [|discriminate].
  apply not_elem_of_dom. rewrite cleaned_record_dom.
  unfold cleaned_keys. rewrite elem_of_list_to_set.
  unfold numeric_fields, text_fields in *. cbn [app].
  rewrite !elem_of_cons, elem_of_nil in *. intuition congruence.
Qed.

(* One key of the thirteen: the entry for it, or past it. *)
Ltac key k name :=
    destruct (decide (k = name)) as [->|?];
    [ rewrite ?lookup_insert_eq; repeat (rewrite lookup_insert_ne by discriminate);
      rewrite ?lookup_insert_eq
    | rewrite (lookup_insert_ne _ name k) by congruence ].
Ltac present Hget Hnone :=
    rewrite Hget by (unfold cleaned_keys, numeric_fields, text_fields; set_solver);
    match goal with
    | |- context [?c !! ?f] =>
        pose proof (Hnone f); destruct (c !! f) as [v|]; [|reflexivity];
        cbn; rewrite option_guard_True by congruence; reflexivity
    end.

Lemma valid_constructor_fields_cleaned_record raw t s now1 now2 :
  valid_constructor_fields (cleaned_record raw t s now1 now2) =
  <["status" := VStr "Draft"]> (cleaned_record raw t s now1 now2).
Proof.
  set (c := cleaned_record _ _ _ _ _).
  assert (Hnone : forall field, c !! field <> Some VNone)
    by (intros; apply cleaned_record_lookup_not_None).
  assert (Hdom : dom c = cleaned_keys) by apply cleaned_record_dom.
  assert (Hget : forall field dflt,
             field ∈ cleaned_keys -> Some (dict_get c field dflt) = c !! field).
  { intros field dflt Hin. rewrite <- Hdom in Hin.
    apply elem_of_dom in Hin as [v Hv]. unfold dict_get. by rewrite Hv. }
  clearbody c. unfold valid_constructor_fields. cbv zeta.
  apply map_eq. intros k.
  rewrite map_lookup_filter.
  cbn [list_to_map foldr uncurry fst snd].
  key k "tank_id"; [present Hget Hnone|].
  key k "report_number"; [present Hget Hnone|].
  key k "service"; [present Hget Hnone|].
  key k "inspector"; [present Hget Hnone|].
  key k "inspection_date"; [present Hget Hnone|].
  key k "diameter"; [present Hget Hnone|].
  key k "height"; [present Hget Hnone|].
  key k "capacity"; [present Hget Hnone|].
  key k "year_built"; [present Hget Hnone|].
  key k "shell_material"; [present Hget Hnone|].
  key k "roof_type"; [present Hget Hnone|].
  key k "foundation_type"; [present Hget Hnone|].
  destruct (decide (k = "status")) as [->|Hst].
  { rewrite !lookup_insert_eq. cbn. by rewrite option_guard_True. }
  rewrite !lookup_insert_ne by congruence. rewrite lookup_empty. cbn.
  symmetry. apply not_elem_of_dom. rewrite Hdom.
  unfold cleaned_keys. rewrite elem_of_list_to_set.
  unfold numeric_fields, text_fields. cbn [app].
  rewrite !elem_of_cons, elem_of_nil. intuition congruence.
Qed.

(** The constructor is handed the whole record and the status, nothing
    less: the defaults of the thirteen [get] calls are never used, and
    the removal of [None] values removes nothing, since no field of a
    record is [None]. *)
Theorem constructor_is_handed_the_record st cleaned st' :
  validate_and_clean_excel_data st = (Ok cleaned, st') ->
  valid_constructor_fields cleaned = <["status" := VStr "Draft"]> cleaned.
Proof.
  intros Hrun.
  apply validate_returns in Hrun as (t & s & _ & _ & -> & _).
  apply valid_constructor_fields_cleaned_record.
Qed.

(** ** What a call of [create_inspection_from_excel_data] leaves behind *)

(** The [try] body logs one record when it returns and none when it
    raises; it never changes the caller's bag. *)
Lemma create_inspection_body_frame st r st' :
  create_inspection_body st = (r, st') ->
  st_raw st' = st_raw st /\
  match r with
  | Ok inspection =>
      exists rn, inspection !! "report_number" = Some rn /\
                 st_log st' =
                 (st_log st ++
                  [LogInfo ("Successfully created and saved inspection: "
                            ++ py_str rn)%string])%list
  | Raise _ => st_log st' = st_log st
  end.
Proof.
  unfold create_inspection_body. cbv beta iota zeta delta [mbind M_bind].
  destruct (validate_and_clean_excel_data st) as [[cleaned|e] st1] eqn:Hv.
  2:{ apply validate_keeps_raw in Hv as (Hraw & Hlog & _). by intros [= <- <-]. }
  apply validate_keeps_raw in Hv as (Hraw & Hlog & _).
  unfold Inspection.
  destruct (Inspection_init_error (valid_constructor_fields cleaned)).
  { by intros [= <- <-]. }
  cbv beta iota zeta delta [mret M_ret].
  rewrite attach_special_fields_run. unfold save.
  destruct (Inspection_save _ (st_world st1)) as [[id|e] w].
  2:{ by intros [= <- <-]. }
  unfold getattr.
  destruct (_ !! "report_number") as [rn|] eqn:Hrn.
  2:{ by intros [= <- <-]. }
  cbv beta iota zeta delta [mret M_ret]. unfold objects_get.
  cbn [st_world st_raw st_clock st_ticks st_log].
  destruct (Inspection_objects_get rn w) as [[[found|]|e] w2].
  - cbv beta iota zeta delta [mbind M_bind mret M_ret emit].
    cbn [st_world st_raw st_clock st_ticks st_log].
    intros [= <- <-]. split; [done|]. exists rn. split; [done|]. cbn. by rewrite Hlog.
  - by intros [= <- <-].
  - by intros [= <- <-].
Qed.

(** The log of a call. A call that returns adds one record, the
    success line with the report number of the object returned. A call
    that raises adds two: the failure line with the text of the
    exception, then the caller's bag as it was handed over. Nothing
    else is logged. *)
Theorem create_inspection_log st r st' :
  create_inspection_from_excel_data st = (r, st') ->
  match r with
  | Ok inspection =>
      exists rn, inspection !! "report_number" = Some rn /\
                 st_log st' =
                 (st_log st ++
                  [LogInfo ("Successfully created and saved inspection: "
                            ++ py_str rn)%string])%list
  | Raise e =>
      st_log st' =
      (st_log st ++
       [LogError ("Failed to create inspection from Excel data: "
                  ++ exn_str e)%string;
        LogErrorData (st_raw st)])%list
  end.
Proof.
  rewrite create_inspection_run.
  destruct (create_inspection_body st) as [[inspection|e] st1] eqn:Hbody;
    apply create_inspection_body_frame in Hbody as (Hraw & Hlog);
    intros [= <- <-]; [exact Hlog|].
  cbn [st_log]. by rewrite Hraw, Hlog.
Qed.

(** Nothing reaches the store unless the record was cleaned and the
    constructor accepted it: when validation raises, or the constructor
    does, the call raises the same exception and the external world is
    the one it started in. *)
Theorem create_inspection_failure_before_save st :
  (forall e st1,
      validate_and_clean_excel_data st = (Raise e, st1) ->
      exists st',
        create_inspection_from_excel_data st = (Raise e, st') /\
        st_world st' = st_world st) /\
  (forall cleaned st1 e,
      validate_and_clean_excel_data st = (Ok cleaned, st1) ->
      Inspection_init_error (valid_constructor_fields cleaned) = Some e ->
      exists st',
        create_inspection_from_excel_data st = (Raise e, st') /\
        st_world st' = st_world st).
Proof.
  assert (Hworld : forall r st1,
             validate_and_clean_excel_data st = (r, st1) ->
             st_world st1 = st_world st).
  { intros r st1 Hv. destruct (validate_frame st) as (n & _ & Hn).
    rewrite Hv in Hn. cbn in Hn. by subst st1. }
  destruct (create_inspection_body_raises st) as (Hval & Hinit & _).
  split.
  - intros e st1 Hv. rewrite create_inspection_run, (Hval _ _ Hv).
    eexists. split; [reflexivity|]. cbn [st_world]. by eapply Hworld.
  - intros cleaned st1 e Hv He. rewrite create_inspection_run, (Hinit _ _ _ Hv He).
    eexists. split; [reflexivity|]. cbn [st_world]. by eapply Hworld.
Qed.

(** The report number the verification looks up is the record's. *)
Lemma saved_object_report_number raw cleaned id :
  (<["id" := id]> (with_special_fields raw (<["status" := VStr "Draft"]> cleaned)))
    !! "report_number" = cleaned !! "report_number".
Proof.
  rewrite lookup_insert_ne by discriminate.
  unfold with_special_fields, special_fields. cbn [foldl].
  destruct (raw !! "findings"), (raw !! "recommendations"), (raw !! "notes");
    repeat (rewrite lookup_insert_ne by discriminate); reflexivity.
Qed.

(** A save is never undone. When the record was saved and the lookup
    that verifies the save raises or finds nothing, the call raises
    (the lookup's exception, or that the inspection was not properly
    saved) and the external world is the one the lookup left: the
    saved record stays in the store. *)
Theorem create_inspection_save_not_undone st cleaned st1 id w rn outcome w2 :
  validate_and_clean_excel_data st = (Ok cleaned, st1) ->
  Inspection_init_error (valid_constructor_fields cleaned) = None ->
  Inspection_save
    (with_special_fields (st_raw st) (valid_constructor_fields cleaned))
    (st_world st1) = (Ok id, w) ->
  cleaned !! "report_number" = Some rn ->
  Inspection_objects_get rn w = (outcome, w2) ->
  (forall found, outcome <> Ok (Some found)) ->
  exists st',
    create_inspection_from_excel_data st =
    (Raise match outcome with
           | Raise e => e
           | Ok _ => Exception "Inspection was not properly saved to database"
           end, st') /\
    st_world st' = w2.
Proof.
  intros Hv Hinit Hsave Hrn Hget Hnot.
  pose proof Hv as Hv'.
  apply validate_returns in Hv' as (t & s & _ & _ & Hc & _).
  pose proof (valid_constructor_fields_cleaned_record
                (st_raw st) t s (st_clock st (st_ticks st))
                (st_clock st (readings (report_number_missing (st_raw st))
                              + st_ticks st))) as Hvcf.
  rewrite <- Hc in Hvcf. clear Hc.
  apply validate_keeps_raw in Hv as Hframe. destruct Hframe as (Hraw & Hlog & _).
  rewrite create_inspection_run.
  unfold create_inspection_body. cbv beta iota zeta delta [mbind M_bind].
  rewrite Hv. unfold Inspection. rewrite Hinit.
  cbv beta iota zeta delta [mret M_ret].
  rewrite attach_special_fields_run, Hraw. unfold save. rewrite Hsave.
  unfold getattr. rewrite Hvcf, saved_object_report_number, Hrn.
  cbv beta iota zeta delta [mret M_ret]. unfold objects_get.
  cbn [st_world st_raw st_clock st_ticks st_log]. rewrite Hget.
  destruct outcome as [[found|]|e].
  - by destruct (Hnot found).
  - cbv beta iota zeta delta [raise]. eexists. split; reflexivity.
  - eexists. split; reflexivity.
Qed.

End MoreProofs.

Section CreatedProofs.
Context `{PyFloat} `{!External}.

(** The inspection a call returns carries the cleaned record: its
    status is [Draft], and each of the twelve fields of the record that
    [validate_and_clean_excel_data] returns for the bag is an attribute
    of the inspection, with the record's value. *)
Theorem created_inspection_carries_the_record st inspection st' :
  create_inspection_from_excel_data st = (Ok inspection, st') ->
  exists cleaned st1,
    validate_and_clean_excel_data st = (Ok cleaned, st1) /\
    inspection !! "status" = Some (VStr "Draft") /\
    forall field, field ∈ cleaned_keys -> inspection !! field = cleaned !! field.
Proof.
  intros Hrun.
  apply create_inspection_returns, create_inspection_body_returns in Hrun
    as (cleaned & st1 & id & w & Hv & _ & _ & ->).
  exists cleaned, st1. split; [exact Hv|].
  apply validate_returns in Hv as (t & s & _ & _ & -> & _).
  rewrite valid_constructor_fields_cleaned_record.
  set (c := cleaned_record _ _ _ _ _).
  assert (Hlookup : forall field,
             field <> "id" -> field ∉ special_fields ->
             (<["id" := id]> (with_special_fields (st_raw st)
                                (<["status" := VStr "Draft"]> c))) !! field
             = (<["status" := VStr "Draft"]> c) !! field).
  { intros field Hid Hsp. rewrite lookup_insert_ne by done.
    unfold with_special_fields, special_fields in *. cbn [foldl].
    rewrite !elem_of_cons, elem_of_nil in Hsp.
    destruct (st_raw st !! "findings"), (st_raw st !! "recommendations"),
      (st_raw st !! "notes");
      repeat (rewrite lookup_insert_ne by intuition congruence); reflexivity. }
  split.
  - rewrite Hlookup; [apply lookup_insert_eq|discriminate|].
    unfold special_fields. rewrite !elem_of_cons, elem_of_nil.
    intuition discriminate.
  - intros field Hin. unfold cleaned_keys in Hin.
    rewrite elem_of_list_to_set in Hin. unfold numeric_fields, text_fields in Hin.
    cbn [app] in Hin. rewrite !elem_of_cons, elem_of_nil in Hin.
    rewrite Hlookup.
    + rewrite lookup_insert_ne; [reflexivity|]. intros <-.
      intuition discriminate.
    + intros ->. intuition discriminate.
    + unfold special_fields. rewrite !elem_of_cons, elem_of_nil.
      intros Hsp. destruct Hsp as [->|[->|[->|[]]]]; intuition discriminate.
Qed.

End CreatedProofs.

(** ** What [process_excel_import] reads *)

Section ImportProofs.
Context `{PyFloat} `{!External}.

(** Only the first row of the sheet is imported: two paths whose
    sheets begin with the same row, read from the same world into the
    same world, give the same response, log and store, whatever rows
    follow. *)
Theorem process_excel_import_first_row_only path1 path2 st row rows1 rows2 w :
  pd_read_excel path1 (st_world st) = (Ok (row :: rows1), w) ->
  pd_read_excel path2 (st_world st) = (Ok (row :: rows2), w) ->
  process_excel_import path1 st = process_excel_import path2 st.
Proof.
  intros Hread1 Hread2.
  rewrite !process_excel_import_run, !process_excel_import_body_run.
  by rewrite Hread1, Hread2.
Qed.

(** A sheet without rows: the import fails with the text of the
    [IndexError], logs that one failure, and hands nothing to the
    store, which is as the reader left it. *)
Theorem process_excel_import_empty_sheet file_path st w :
  pd_read_excel file_path (st_world st) = (Ok [], w) ->
  exists st',
    process_excel_import file_path st
    = (Ok (failure_response
             (IndexError "single positional indexer is out-of-bounds")), st') /\
    st_world st' = w /\
    st_log st' =
      (st_log st ++
       [LogError "Excel import failed: single positional indexer is out-of-bounds"])%list.
Proof.
  intros Hread.
  rewrite process_excel_import_run, process_excel_import_body_run, Hread.
  eexists. split; [reflexivity|]. split; reflexivity.
Qed.

End ImportProofs.
(** ** Cleaning up the dashboard *)

Section CleanupProofs.
Context `{PyFloat} `{!External} `{!Dashboard}.

(** One turn of the loop. *)
Lemma cleanup_entry_run entry n st :
  cleanup_entry entry n st =
  match entry !! "report_number" with
  | None =>
      (Raise (Exn "AttributeError"
                  "'DashboardEntry' object has no attribute 'report_number'"), st)
  | Some rn =>
      match Inspection_objects_get rn (st_world st) with
      | (Ok _, w) =>
          (Ok n, State (st_raw st) (st_clock st) (st_ticks st) (st_log st) w)
      | (Raise e, w) =>
          if is_DoesNotExist e then
            match DashboardEntry_delete entry w with
            | (Ok _, w') =>
                (Ok (n + 1),
                 State (st_raw st) (st_clock st) (st_ticks st)
                       (st_log st ++ [orphan_warning entry]) w')
            | (Raise e', w') =>
                (Raise e',
                 State (st_raw st) (st_clock st) (st_ticks st)
                       (st_log st ++ [orphan_warning entry]) w')
            end
          else (Raise e, State (st_raw st) (st_clock st) (st_ticks st) (st_log st) w)
      end
  end.
Proof.
  unfold cleanup_entry, try_except_when, entry_report_number, orphan_warning.
  destruct (entry !! "report_number") as [rn|] eqn:Hrn.
  2:{ cbv beta iota zeta delta [mbind M_bind raise]. reflexivity. }
  cbv beta iota zeta delta [mbind M_bind mret M_ret objects_get].
  destruct (Inspection_objects_get rn (st_world st)) as [[found|e] w]; [reflexivity|].
  destruct (is_DoesNotExist e); [|reflexivity].
  cbv beta iota zeta delta [emit entry_delete].
  cbn [st_raw st_clock st_ticks st_log st_world default].
  destruct (DashboardEntry_delete entry w) as [[[]|e'] w']; reflexivity.
Qed.

(** The loop logs warnings only, one for each entry it counts. *)
Lemma cleanup_loop_log entries n st r st' :
  for_each entries cleanup_entry n st = (r, st') ->
  exists warnings,
    st_log st' = (st_log st ++ warnings)%list /\
    forallb is_warning warnings = true /\
    (length warnings <= length entries)%nat /\
    forall m, r = Ok m -> m = n + Z.of_nat (length warnings).
Proof.
  revert n st. induction entries as [|entry entries IH]; intros n st.
  - cbn. intros [= <- <-]. exists []. rewrite app_nil_r.
    repeat split; [cbn; lia|]. intros m [= <-]. cbn. lia.
  - cbn [for_each]. cbv beta iota zeta delta [mbind M_bind].
    rewrite cleanup_entry_run.
    destruct (entry !! "report_number") as [rn|].
    2:{ intros [= <- <-]. exists []. rewrite app_nil_r.
        repeat split; [cbn; lia|discriminate]. }
    destruct (Inspection_objects_get rn (st_world st)) as [[found|e] w].
    { intros Hrest. apply IH in Hrest as (ws & Hlog & Hw & Hlen & Hm).
      exists ws. cbn [st_log] in Hlog. repeat split; try done. cbn; lia. }
    destruct (is_DoesNotExist e).
    2:{ intros [= <- <-]. exists []. rewrite app_nil_r.
        repeat split; [cbn; lia|discriminate]. }
    destruct (DashboardEntry_delete entry w) as [[[]|e'] w'].
    + intros Hrest. apply IH in Hrest as (ws & Hlog & Hw & Hlen & Hm).
      exists (orphan_warning entry :: ws). cbn [st_log] in Hlog.
      rewrite Hlog, <- app_assoc. repeat split; try done.
      * cbn; lia.
      * intros m Hr. rewrite (Hm m Hr). cbn [length]. lia.
    + intros [= <- <-]. exists [orphan_warning entry].
      repeat split; [cbn; lia|discriminate].
Qed.

(** The function never raises. It returns a count and logs, after the
    warnings of the loop, one last record. Either the run completed: the
    last record is the summary, and the count is the number of warnings
    logged, at most the number of entries. Or something raised (listing
    the entries, a lookup with anything but [DoesNotExist], reading a
    report number, a delete): the last record is the failure line with
    the text of the exception and the count is 0, whatever was deleted
    before. *)
Theorem cleanup_never_raises st :
  exists n st' warnings last,
    cleanup_orphaned_dashboard_entries st = (Ok n, st') /\
    st_log st' = (st_log st ++ warnings ++ [last])%list /\
    forallb is_warning warnings = true /\
    (forall entries w,
        DashboardEntry_objects_all (st_world st) = (Ok entries, w) ->
        (length warnings <= length entries)%nat) /\
    ((last = LogInfo ("Cleaned up " ++ PyStr.of_Z n ++ " orphaned dashboard entries")
      /\ n = Z.of_nat (length warnings)) \/
     (exists e,
         last = LogError ("Failed to cleanup orphaned entries: " ++ exn_str e)
         /\ n = 0)).
Proof.
  unfold cleanup_orphaned_dashboard_entries, try_except.
  cbv beta iota zeta delta [mbind M_bind objects_all].
  destruct (DashboardEntry_objects_all (st_world st)) as [[entries|e] w].
  2:{ cbv beta iota zeta delta [emit mret M_ret].
      cbn [st_raw st_clock st_ticks st_log st_world].
      eexists 0, _, [], _. split; [reflexivity|]. cbn [st_log app].
      repeat split; [discriminate|]. right. by exists e. }
  destruct (for_each entries cleanup_entry 0 _) as [[m|e] st1] eqn:Hloop;
    apply cleanup_loop_log in Hloop as (ws & Hlog & Hw & Hlen & Hm);
    cbn [st_log] in Hlog;
    cbv beta iota zeta delta [emit mret M_ret];
    cbn [st_raw st_clock st_ticks st_log st_world].
  - eexists m, _, ws, _. split; [reflexivity|]. cbn [st_log].
    rewrite Hlog, <- app_assoc. repeat split; [done| |].
    + by intros entries' w' [= <- <-].
    + left. split; [reflexivity|]. rewrite (Hm m eq_refl). lia.
  - eexists 0, _, ws, _. split; [reflexivity|]. cbn [st_log].
    rewrite Hlog, <- app_assoc. repeat split; [done| |].
    + by intros entries' w' [= <- <-].
    + right. by exists e.
Qed.

(** The loop, when lookups leave the world alone, deleting an entry
    does not change what a lookup answers, no lookup raises anything but
    [DoesNotExist], and the deletes succeed. *)
Lemma cleanup_loop_orphans w0 entries n st :
  (forall r w, (Inspection_objects_get r w).2 = w) ->
  (forall entry w r,
      (Inspection_objects_get r (DashboardEntry_delete entry w).2).1 =
      (Inspection_objects_get r w).1) ->
  (forall entry,
      entry ∈ entries ->
      exists rn, entry !! "report_number" = Some rn /\
                 forall e, (Inspection_objects_get rn w0).1 = Raise e ->
                           is_DoesNotExist e = true) ->
  (forall entry w,
      entry ∈ entries -> orphaned w0 entry = true ->
      (DashboardEntry_delete entry w).1 = Ok tt) ->
  (forall r, (Inspection_objects_get r (st_world st)).1 =
             (Inspection_objects_get r w0).1) ->
  for_each entries cleanup_entry n st =
  (Ok (n + Z.of_nat (length (filter (fun entry => orphaned w0 entry = true) entries))),
   State (st_raw st) (st_clock st) (st_ticks st)
         (st_log st ++
            (orphan_warning <$> filter (fun entry => orphaned w0 entry = true) entries))
         (deleted (filter (fun entry => orphaned w0 entry = true) entries)
                  (st_world st))).
Proof.
  intros Hro Hindep. revert n st.
  induction entries as [|entry entries IH]; intros n st Hlook Hdel Hsame.
  - cbn. rewrite app_nil_r, Z.add_0_r. by destruct st.
  - cbn [for_each]. cbv beta iota zeta delta [mbind M_bind].
    rewrite cleanup_entry_run.
    destruct (Hlook entry) as (rn & Hrn & Hexn); [left|].
    assert (Hlook' : forall entry',
               entry' ∈ entries ->
               exists rn, entry' !! "report_number" = Some rn /\
                          forall e, (Inspection_objects_get rn w0).1 = Raise e ->
                                    is_DoesNotExist e = true)
      by (intros; apply Hlook; by right).
    assert (Hdel' : forall entry' w,
               entry' ∈ entries -> orphaned w0 entry' = true ->
               (DashboardEntry_delete entry' w).1 = Ok tt)
      by (intros; apply Hdel; [by right|done]).
    rewrite Hrn.
    assert (Horph : orphaned w0 entry =
                    match (Inspection_objects_get rn w0).1 with
                    | Raise e => is_DoesNotExist e
                    | Ok _ => false
                    end)
      by (unfold orphaned; by rewrite Hrn).
    pose proof (Hsame rn) as Hs. pose proof (Hro rn (st_world st)) as Hw.
    rewrite filter_cons.
    destruct (Inspection_objects_get rn (st_world st)) as [[found|e] w] eqn:Hget;
      cbn [fst snd] in Hs, Hw; subst w; rewrite <- Hs in Horph, Hexn.
    { rewrite decide_False by (rewrite Horph; discriminate).
      rewrite IH by done. by destruct st. }
    rewrite (Hexn e eq_refl) in *. rewrite decide_True by done.
    pose proof (Hdel entry (st_world st)) as Hd.
    destruct (DashboardEntry_delete entry (st_world st)) as [[[]|e'] w'] eqn:Hdelete.
    2:{ cbn [fst] in Hd. discriminate Hd; [left|done]. }
    rewrite IH; [| done | done |].
    2:{ intros r. cbn [st_world]. rewrite <- Hsame.
        pose proof (Hindep entry (st_world st) r) as Hi.
        by rewrite Hdelete in Hi. }
    cbn [st_raw st_clock st_ticks st_log st_world length fmap list_fmap deleted foldl].
    rewrite Hdelete. cbn [snd]. rewrite <- app_assoc. cbn [app].
    f_equal. f_equal. lia.
Qed.

(** What a run that completes counts. Let lookups leave the world
    alone and deleting an entry not change what a lookup answers. When
    every entry has a report number, no lookup raises anything but
    [DoesNotExist], and the orphaned entries can be deleted, the
    function returns the number of orphaned entries (those whose report
    number has no inspection), logs one warning for each, in order, then
    the summary, and leaves the world in which exactly the orphaned
    entries were deleted, in order: an entry whose inspection exists is
    never deleted. *)
Theorem cleanup_counts_the_orphans st entries w0 :
  DashboardEntry_objects_all (st_world st) = (Ok entries, w0) ->
  (forall r w, (Inspection_objects_get r w).2 = w) ->
  (forall entry w r,
      (Inspection_objects_get r (DashboardEntry_delete entry w).2).1 =
      (Inspection_objects_get r w).1) ->
  (forall entry,
      entry ∈ entries ->
      exists rn, entry !! "report_number" = Some rn /\
                 forall e, (Inspection_objects_get rn w0).1 = Raise e ->
                           is_DoesNotExist e = true) ->
  (forall entry w,
      entry ∈ entries -> orphaned w0 entry = true ->
      (DashboardEntry_delete entry w).1 = Ok tt) ->
  let orphans := filter (fun entry => orphaned w0 entry = true) entries in
  let n := Z.of_nat (length orphans) in
  cleanup_orphaned_dashboard_entries st =
  (Ok n,
   State (st_raw st) (st_clock st) (st_ticks st)
         (st_log st ++ (orphan_warning <$> orphans) ++
            [LogInfo ("Cleaned up " ++ PyStr.of_Z n ++ " orphaned dashboard entries")])
         (deleted orphans w0)).
Proof.
  intros Hall Hro Hindep Hlook Hdel orphans n.
  unfold cleanup_orphaned_dashboard_entries, try_except.
  cbv beta iota zeta delta [mbind M_bind objects_all]. rewrite Hall.
  rewrite (cleanup_loop_orphans w0) by done.
  cbv beta iota zeta delta [emit mret M_ret].
  cbn [st_raw st_clock st_ticks st_log st_world]. rewrite Z.add_0_l.
  by rewrite <- app_assoc.
Qed.

End CleanupProofs.
(** * The answer of the completion service *)

(** ** Searching and cutting strings *)

Lemma append_nil_l (s : string) : "" ++ s = s.
Proof. reflexivity. Qed.

Lemma append_cons a (s t : string) : String a s ++ t = String a (s ++ t).
Proof. reflexivity. Qed.

Ltac push_append := rewrite ?append_cons, ?append_nil_l.

Lemma append_assoc (s t u : string) : (s ++ t) ++ u = s ++ t ++ u.
Proof. induction s as [|a s IH]; push_append; [done|]. by rewrite IH. Qed.

Lemma str_find_from_absent c s i :
  string_forall (fun a => negb (Ascii.eqb a c)) s = true ->
  str_find_from c s i = -1.
Proof.
  revert i. induction s as [|a s IH]; intros i; [reflexivity|].
  cbn [string_forall str_find_from]. intros Hs.
  apply andb_true_iff in Hs as [Ha Hs]. apply negb_true_iff in Ha.
  rewrite Ha. by apply IH.
Qed.

Lemma str_find_from_first c pre rest i :
  string_forall (fun a => negb (Ascii.eqb a c)) pre = true ->
  str_find_from c (pre ++ String c rest) i = i + Z.of_nat (String.length pre).
Proof.
  revert i. induction pre as [|a pre IH]; intros i.
  - intros _. push_append; cbn [str_find_from String.length].
    rewrite Ascii.eqb_refl. lia.
  - cbn [string_forall]. intros Hs.
    apply andb_true_iff in Hs as [Ha Hs]. apply negb_true_iff in Ha.
    push_append; cbn [str_find_from String.length]. rewrite Ha, IH by done. lia.
Qed.

(** A search that fails found no such character; one that succeeds
    splits the string at the first. *)
Lemma str_find_from_spec c s i :
  0 <= i ->
  (str_find_from c s i = -1 /\
   string_forall (fun a => negb (Ascii.eqb a c)) s = true) \/
  (exists pre rest,
      s = pre ++ String c rest /\
      string_forall (fun a => negb (Ascii.eqb a c)) pre = true /\
      str_find_from c s i = i + Z.of_nat (String.length pre)).
Proof.
  revert i. induction s as [|a s IH]; intros i Hi; [by left|].
  cbn [str_find_from string_forall].
  destruct (Ascii.eqb a c) eqn:Ha.
  - right. apply Ascii.eqb_eq in Ha as ->. exists EmptyString, s.
    repeat split. cbn. lia.
  - destruct (IH (i + 1)) as [[Hf Hs]|(pre & rest & -> & Hpre & Hf)]; [lia| |].
    + left. by rewrite Hf, Hs.
    + right. exists (String a pre), rest. push_append; cbn [string_forall String.length].
      rewrite Ha, Hpre, Hf. repeat split. lia.
Qed.

Lemma str_rfind_from_absent c s i :
  string_forall (fun a => negb (Ascii.eqb a c)) s = true ->
  str_rfind_from c s i = -1.
Proof.
  revert i. induction s as [|a s IH]; intros i; [reflexivity|].
  cbn [string_forall str_rfind_from]. intros Hs.
  apply andb_true_iff in Hs as [Ha Hs]. apply negb_true_iff in Ha.
  by rewrite IH, Ha.
Qed.

Lemma str_rfind_from_last c body post i :
  0 <= i ->
  string_forall (fun a => negb (Ascii.eqb a c)) post = true ->
  str_rfind_from c (body ++ String c post) i = i + Z.of_nat (String.length body).
Proof.
  intros Hi Hpost. revert i Hi. induction body as [|a body IH]; intros i Hi.
  - push_append; cbn [str_rfind_from String.length].
    rewrite str_rfind_from_absent by done.
    rewrite Z.eqb_refl, Ascii.eqb_refl. lia.
  - push_append; cbn [str_rfind_from String.length]. rewrite IH by lia.
    destruct (_ =? -1) eqn:E; [lia|lia].
Qed.

(** [rfind] never gives less than -1. *)
Lemma str_rfind_from_bound c s i : 0 <= i -> -1 <= str_rfind_from c s i.
Proof.
  revert i. induction s as [|a s IH]; intros i Hi; [cbn; lia|].
  cbn [str_rfind_from]. specialize (IH (i + 1) ltac:(lia)).
  destruct (_ =? -1); [|lia]. destruct (Ascii.eqb a c); lia.
Qed.

Lemma substring_none n s : substring n 0 s = EmptyString.
Proof. revert n. induction s as [|a s IH]; intros [|n]; cbn; auto. Qed.

Lemma substring_prefix m post :
  substring 0 (String.length m) (m ++ post) = m.
Proof.
  induction m as [|a m IH]; push_append; cbn [String.length substring].
  - apply substring_none.
  - by rewrite IH.
Qed.

Lemma substring_middle pre m post :
  substring (String.length pre) (String.length m) (pre ++ m ++ post) = m.
Proof.
  induction pre as [|a pre IH]; push_append; cbn [String.length substring].
  - apply substring_prefix.
  - apply IH.
Qed.

Lemma string_length_app s t :
  String.length (s ++ t) = (String.length s + String.length t)%nat.
Proof. induction s as [|a s IH]; push_append; cbn [String.length]; [done|]. by rewrite IH. Qed.

(** The slice from the first [{] through the last [}]. *)
Lemma str_slice_braces pre mid post :
  string_forall (fun a => negb (Ascii.eqb a "{")) pre = true ->
  string_forall (fun a => negb (Ascii.eqb a "}")) post = true ->
  let text := pre ++ "{" ++ mid ++ "}" ++ post in
  str_find text "{" = Z.of_nat (String.length pre) /\
  str_rfind text "}" + 1 = Z.of_nat (String.length pre + String.length mid + 2) /\
  str_slice text (str_find text "{") (str_rfind text "}" + 1) = "{" ++ mid ++ "}".
Proof.
  intros Hpre Hpost text.
  assert (Hfind : str_find text "{" = Z.of_nat (String.length pre)).
  { unfold str_find.
    change text with (pre ++ String "{" (mid ++ "}" ++ post)).
    rewrite str_find_from_first by done. lia. }
  assert (Hrfind : str_rfind text "}" + 1
                   = Z.of_nat (String.length pre + String.length mid + 2)).
  { unfold str_rfind.
    assert (text = (pre ++ "{" ++ mid) ++ String "}" post) as ->.
    { unfold text. by rewrite append_assoc. }
    rewrite str_rfind_from_last by done.
    rewrite string_length_app. change ("{" ++ mid) with (String "{" mid).
    cbn [String.length]. lia. }
  split; [exact Hfind|]. split; [exact Hrfind|].
  rewrite Hfind, Hrfind. unfold str_slice. cbv zeta.
  assert (Hlen : String.length text =
                 (String.length pre + String.length mid + 2 + String.length post)%nat).
  { unfold text. rewrite string_length_app.
    change ("{" ++ mid ++ "}" ++ post) with (String "{" (mid ++ String "}" post)).
    cbn [String.length]. rewrite string_length_app. cbn [String.length]. lia. }
  rewrite Hlen.
  rewrite !(proj2 (Z.ltb_ge _ 0)) by lia.
  rewrite !Z.min_l by lia.
  replace (Z.to_nat (Z.of_nat (String.length pre + String.length mid + 2)
                     - Z.of_nat (String.length pre)))
    with (String.length ("{" ++ mid ++ "}")).
  2:{ change ("{" ++ mid ++ "}") with (String "{" (mid ++ "}")).
      cbn [String.length]. rewrite string_length_app. cbn [String.length]. lia. }
  rewrite Nat2Z.id. unfold text.
  replace (pre ++ "{" ++ mid ++ "}" ++ post) with (pre ++ ("{" ++ mid ++ "}") ++ post).
  2:{ f_equal. change (String "{" ((mid ++ "}") ++ post)
                       = String "{" (mid ++ "}" ++ post)).
      by rewrite append_assoc. }
  apply substring_middle.
Qed.

(** A slice that stops at 0 is empty. *)
Lemma str_slice_stop_0 s start : 0 <= start -> str_slice s start 0 = EmptyString.
Proof.
  intros Hs. unfold str_slice. cbv zeta.
  rewrite (proj2 (Z.ltb_ge start 0)) by lia. change (0 <? 0) with false.
  cbv beta iota.
  replace (Z.to_nat (Z.min 0 _ - _)) with 0%nat by lia.
  apply substring_none.
Qed.

Lemma str_slice_empty s start stop :
  0 <= stop <= start -> str_slice s start stop = EmptyString.
Proof.
  intros Hs. unfold str_slice. cbv zeta.
  rewrite !(proj2 (Z.ltb_ge _ 0)) by lia.
  replace (Z.to_nat (Z.min stop _ - _)) with 0%nat by lia.
  apply substring_none.
Qed.

Lemma str_rfind_from_app_absent c s t i :
  string_forall (fun a => negb (Ascii.eqb a c)) t = true ->
  str_rfind_from c (s ++ t) i = str_rfind_from c s i.
Proof.
  intros Ht. revert i. induction s as [|a s IH]; intros i; push_append.
  - by apply str_rfind_from_absent.
  - cbn [str_rfind_from]. by rewrite IH.
Qed.

Lemma str_rfind_from_upper c s i :
  0 <= i -> str_rfind_from c s i < i + Z.of_nat (String.length s) \/
            (s = EmptyString /\ str_rfind_from c s i = -1).
Proof.
  revert i. induction s as [|a s IH]; intros i Hi; [by right|]. left.
  cbn [str_rfind_from String.length].
  destruct (IH (i + 1)) as [Hlt|[-> ->]]; [lia| |].
  - destruct (_ =? -1); [|lia]. destruct (Ascii.eqb a c); lia.
  - cbn. destruct (Ascii.eqb a c); lia.
Qed.

(** ** [_parse_ai_response] *)

Section JsonProofs.
Context `{PyFloat} `{!JsonDecoder}.

(** The answer once the content is reached: the test on [json_end]
    never fails, so what decides is whether the content has a [{]. *)
Lemma parse_ai_response_on_content api_response content :
  json_contains "error" api_response = Ok false ->
  first_choice_content api_response = Ok (JStr content) ->
  OpenRouterExcelExtractor._parse_ai_response api_response =
  if str_find content "{" =? -1 then
    Ok (<["success" := JBool false]>
          (<["error" := JStr "No valid JSON found in AI response"]>
             (<["raw_response" := JStr content]> ∅)))
  else
    match json_loads (str_slice content (str_find content "{")
                                (str_rfind content "}" + 1)) with
    | Ok data =>
        Ok (<["success" := JBool true]>
              (<["data" := data]> (<["raw_response" := JStr content]> ∅)))
    | Raise e =>
        if is_JSONDecodeError e then
          Ok (<["success" := JBool false]>
                (<["error" := JStr ("JSON parsing error: " ++ exn_str e)]>
                   (<["raw_response" := api_response]> ∅)))
        else
          Ok (<["success" := JBool false]>
                (<["error" := JStr ("Response parsing error: " ++ exn_str e)]> ∅))
    end.
Proof.
  intros Herr Hcontent.
  unfold OpenRouterExcelExtractor._parse_ai_response,
    OpenRouterExcelExtractor.parse_ai_response_body.
  cbv beta iota zeta delta [mbind mret result_bind result_ret].
  rewrite Herr, Hcontent. cbn [json_str_method].
  pose proof (str_rfind_from_bound "}" content 0 ltac:(lia)) as Hb.
  fold (str_rfind content "}") in Hb.
  rewrite (proj2 (Z.eqb_neq (str_rfind content "}" + 1) (-1))) by lia.
  destruct (str_find content "{" =? -1); cbn [negb andb]; [reflexivity|].
  destruct (json_loads _) as [data|e]; reflexivity.
Qed.

Lemma lookup_success_3 (b : bool) k1 (v1 : json) k2 (v2 : json) :
  (<["success" := JBool b]> (<[k1 := v1]> (<[k2 := v2]> ∅)) : jdict) !! "success"
  = Some (JBool b).
Proof. apply lookup_insert_eq. Qed.

Lemma lookup_success_2 (b : bool) k1 (v1 : json) :
  (<["success" := JBool b]> (<[k1 := v1]> ∅) : jdict) !! "success" = Some (JBool b).
Proof. apply lookup_insert_eq. Qed.

(** The function never raises, and its response always says whether
    it succeeded: [success] is [True], or it is [False] and there is an
    [error]. It is [True] exactly when the answer has no [error], the
    content of its first choice is a string with a [{] in it, and the
    decoder accepts the text from the first [{] through the last [}];
    the response then holds what the decoder returned under [data] and
    the content under [raw_response]. *)
Theorem parse_ai_response_success api_response :
  exists response,
    OpenRouterExcelExtractor._parse_ai_response api_response = Ok response /\
    (response !! "success" = Some (JBool true) \/
     (response !! "success" = Some (JBool false) /\ is_Some (response !! "error"))) /\
    (response !! "success" = Some (JBool true) <->
     exists content data,
       json_contains "error" api_response = Ok false /\
       first_choice_content api_response = Ok (JStr content) /\
       str_find content "{" <> -1 /\
       json_loads (str_slice content (str_find content "{")
                             (str_rfind content "}" + 1)) = Ok data /\
       response =
         <["success" := JBool true]>
           (<["data" := data]> (<["raw_response" := JStr content]> ∅))).
Proof.
  assert (Hfail2 : forall (e : json),
             is_Some ((<["success" := JBool false]> (<["error" := e]> ∅) : jdict)
                        !! "error")).
  { intros e. rewrite lookup_insert_ne by discriminate.
    rewrite lookup_insert_eq. eauto. }
  assert (Hfail3 : forall (e : json) k (v : json),
             is_Some ((<["success" := JBool false]>
                         (<["error" := e]> (<[k := v]> ∅)) : jdict) !! "error")).
  { intros e k v. rewrite lookup_insert_ne by discriminate.
    rewrite lookup_insert_eq. eauto. }
  destruct (json_contains "error" api_response) as [[|]|e0] eqn:Herr.
  - (* the answer reports an error *)
    unfold OpenRouterExcelExtractor._parse_ai_response,
      OpenRouterExcelExtractor.parse_ai_response_body.
    cbv beta iota zeta delta [mbind mret result_bind result_ret]. rewrite Herr.
    destruct (json_getitem api_response "error") as [error|e].
    + eexists. split; [reflexivity|]. rewrite lookup_success_2.
      split; [right; auto|]. split; [discriminate|].
      intros (? & ? & [=] & _).
    + destruct (is_JSONDecodeError e); eexists; (split; [reflexivity|]);
        rewrite ?lookup_success_2, ?lookup_success_3;
        (split; [right; auto|]); (split; [discriminate|]);
        intros (? & ? & [=] & _).
  - destruct (first_choice_content api_response) as [[| | | |content| |]|e] eqn:Hcontent.
    5:{ (* the content is a string *)
      rewrite (parse_ai_response_on_content _ content) by done.
      destruct (str_find content "{" =? -1) eqn:Hfind.
      { eexists. split; [reflexivity|]. rewrite lookup_success_3.
        split; [right; auto|]. split; [discriminate|].
        intros (c & d & _ & [= <-] & Hne & _). apply Z.eqb_eq in Hfind. done. }
      destruct (json_loads _) as [data|e] eqn:Hloads.
      { eexists. split; [reflexivity|]. rewrite lookup_success_3.
        split; [left; auto|]. split; [|done].
        intros _. exists content, data. apply Z.eqb_neq in Hfind. done. }
      destruct (is_JSONDecodeError e); eexists; (split; [reflexivity|]);
        rewrite ?lookup_success_2, ?lookup_success_3;
        (split; [right; auto|]); (split; [discriminate|]);
        intros (c & d & _ & [= <-] & _ & Hd & _); rewrite Hd in Hloads;
        discriminate. }
    all: unfold OpenRouterExcelExtractor._parse_ai_response,
      OpenRouterExcelExtractor.parse_ai_response_body;
      cbv beta iota zeta delta [mbind mret result_bind result_ret];
      rewrite Herr, Hcontent; cbn [json_str_method json_type_name];
      try destruct (is_JSONDecodeError _);
      eexists; (split; [reflexivity|]);
      rewrite ?lookup_success_2, ?lookup_success_3;
      (split; [right; auto|]); (split; [discriminate|]);
      intros (? & ? & _ & [=] & _).
  - unfold OpenRouterExcelExtractor._parse_ai_response,
      OpenRouterExcelExtractor.parse_ai_response_body.
    cbv beta iota zeta delta [mbind mret result_bind result_ret]. rewrite Herr.
    destruct (is_JSONDecodeError e0); eexists; (split; [reflexivity|]);
      rewrite ?lookup_success_2, ?lookup_success_3;
      (split; [right; auto|]); (split; [discriminate|]);
      intros (? & ? & [=] & _).
Qed.

(** Only what stands between the first [{] and the last [}] of the
    content is read. For a content [pre{mid}post], with no [{] in [pre]
    and no [}] in [post], the decoder is handed [{mid}]: what it
    returns is the [data] of a successful response, and when it raises
    the response is a failure with the text of the exception, under
    [JSON parsing error] together with the whole answer as
    [raw_response] for a [JSONDecodeError], under [Response parsing
    error] for any other. *)
Theorem parse_ai_response_reads_between_braces api_response pre mid post :
  json_contains "error" api_response = Ok false ->
  first_choice_content api_response
  = Ok (JStr (pre ++ "{" ++ mid ++ "}" ++ post)) ->
  string_forall (fun a => negb (Ascii.eqb a "{")) pre = true ->
  string_forall (fun a => negb (Ascii.eqb a "}")) post = true ->
  (forall data,
      json_loads ("{" ++ mid ++ "}") = Ok data ->
      OpenRouterExcelExtractor._parse_ai_response api_response =
      Ok (<["success" := JBool true]>
            (<["data" := data]>
               (<["raw_response" := JStr (pre ++ "{" ++ mid ++ "}" ++ post)]> ∅)))) /\
  (forall e,
      json_loads ("{" ++ mid ++ "}") = Raise e ->
      OpenRouterExcelExtractor._parse_ai_response api_response =
      Ok (if is_JSONDecodeError e then
            <["success" := JBool false]>
              (<["error" := JStr ("JSON parsing error: " ++ exn_str e)]>
                 (<["raw_response" := api_response]> ∅))
          else
            <["success" := JBool false]>
              (<["error" := JStr ("Response parsing error: " ++ exn_str e)]> ∅))).
Proof.
  intros Herr Hcontent Hpre Hpost.
  rewrite (parse_ai_response_on_content _ _ Herr Hcontent).
  destruct (str_slice_braces pre mid post Hpre Hpost) as (Hfind & _ & Hslice).
  cbv zeta in Hfind, Hslice. rewrite Hslice, Hfind.
  rewrite (proj2 (Z.eqb_neq _ (-1))) by lia.
  split.
  - by intros data ->.
  - intros e ->. by destruct (is_JSONDecodeError e).
Qed.

(** The edges of the search for braces. A content without any [{]
    gives the failure [No valid JSON found in AI response], with the
    content as [raw_response]. A content with a [{] never does, even
    when no [}] follows: the test on the end of the JSON text cannot
    fail, the decoder is handed the empty text, and what the response
    says is what the decoder makes of that. *)
Theorem parse_ai_response_brace_edges api_response content :
  json_contains "error" api_response = Ok false ->
  first_choice_content api_response = Ok (JStr content) ->
  (string_forall (fun a => negb (Ascii.eqb a "{")) content = true ->
   OpenRouterExcelExtractor._parse_ai_response api_response =
   Ok (<["success" := JBool false]>
         (<["error" := JStr "No valid JSON found in AI response"]>
            (<["raw_response" := JStr content]> ∅)))) /\
  (forall pre rest,
      content = pre ++ "{" ++ rest ->
      string_forall (fun a => negb (Ascii.eqb a "{")) pre = true ->
      string_forall (fun a => negb (Ascii.eqb a "}")) rest = true ->
      OpenRouterExcelExtractor._parse_ai_response api_response =
      match json_loads "" with
      | Ok data =>
          Ok (<["success" := JBool true]>
                (<["data" := data]> (<["raw_response" := JStr content]> ∅)))
      | Raise e =>
          Ok (if is_JSONDecodeError e then
                <["success" := JBool false]>
                  (<["error" := JStr ("JSON parsing error: " ++ exn_str e)]>
                     (<["raw_response" := api_response]> ∅))
              else
                <["success" := JBool false]>
                  (<["error" := JStr ("Response parsing error: " ++ exn_str e)]> ∅))
      end).
Proof.
  intros Herr Hcontent.
  rewrite (parse_ai_response_on_content _ _ Herr Hcontent).
  split.
  - intros Hno. unfold str_find. by rewrite str_find_from_absent.
  - intros pre rest -> Hpre Hrest.
    assert (Hfind : str_find (pre ++ "{" ++ rest) "{" = Z.of_nat (String.length pre)).
    { unfold str_find. change ("{" ++ rest) with (String "{" rest).
      rewrite str_find_from_first by done. lia. }
    assert (Hrfind : str_rfind (pre ++ "{" ++ rest) "}" + 1
                     <= Z.of_nat (String.length pre)).
    { unfold str_rfind.
      assert (Hbrace : string_forall (fun a => negb (Ascii.eqb a "}")) ("{" ++ rest)
                       = true) by (change ("{" ++ rest) with (String "{" rest);
                                   cbn [string_forall]; by rewrite Hrest).
      rewrite str_rfind_from_app_absent by done.
      destruct (str_rfind_from_upper "}" pre 0) as [Hlt|[_ ->]]; lia. }
    pose proof (str_rfind_from_bound "}" (pre ++ "{" ++ rest) 0 ltac:(lia)) as Hlow.
    fold (str_rfind (pre ++ "{" ++ rest) "}") in Hlow.
    rewrite Hfind. rewrite (proj2 (Z.eqb_neq _ (-1))) by lia.
    rewrite str_slice_empty by lia.
    destruct (json_loads "") as [data|e]; [reflexivity|].
    by destruct (is_JSONDecodeError e).
Qed.

(** The two extractors parse an answer alike: the comprehensive one
    returns what the first returns, with [extraction_confidence] set to
    [high] on a response that reports success, and nothing else
    changed. *)
Theorem comprehensive_parse_adds_confidence api_response :
  ComprehensiveOpenRouterExcelExtractor._parse_ai_response api_response =
  match OpenRouterExcelExtractor._parse_ai_response api_response with
  | Ok response =>
      Ok (if is_success response
          then <["extraction_confidence" := JStr "high"]> response
          else response)
  | Raise e => Raise e
  end.
Proof.
  unfold ComprehensiveOpenRouterExcelExtractor._parse_ai_response,
    ComprehensiveOpenRouterExcelExtractor.parse_ai_response_body,
    OpenRouterExcelExtractor._parse_ai_response,
    OpenRouterExcelExtractor.parse_ai_response_body.
  cbv beta iota zeta delta [mbind mret result_bind result_ret].
  assert (Hfalse2 : forall k (v : json),
             is_success (<["success" := JBool false]> (<[k := v]> ∅)) = false)
    by (intros; unfold is_success; by rewrite lookup_insert_eq).
  assert (Hfalse3 : forall k (v : json) k' (v' : json),
             is_success (<["success" := JBool false]> (<[k := v]> (<[k' := v']> ∅)))
             = false)
    by (intros; unfold is_success; by rewrite lookup_insert_eq).
  destruct (json_contains "error" api_response) as [[|]|e0].
  - destruct (json_getitem api_response "error") as [error|e].
    + by rewrite Hfalse2.
    + destruct (is_JSONDecodeError e); by rewrite ?Hfalse2, ?Hfalse3.
  - destruct (first_choice_content api_response) as [content|e].
    2:{ destruct (is_JSONDecodeError e); by rewrite ?Hfalse2, ?Hfalse3. }
    destruct (json_str_method content "find") as [text|e].
    2:{ destruct (is_JSONDecodeError e); by rewrite ?Hfalse2, ?Hfalse3. }
    destruct (_ && _).
    2:{ by rewrite Hfalse3. }
    destruct (json_loads _) as [data|e].
    2:{ destruct (is_JSONDecodeError e); by rewrite ?Hfalse2, ?Hfalse3. }
    unfold is_success. rewrite lookup_insert_eq.
    (* the same four entries, inserted in another order *)
    reflexivity.
  - destruct (is_JSONDecodeError e0); by rewrite ?Hfalse2, ?Hfalse3.
Qed.

End JsonProofs.

(** * The text of a workbook *)

Lemma foldl_ext_in {A B} (f g : A -> B -> A) (l : list B) (a : A) :
  (forall acc x, x ∈ l -> f acc x = g acc x) -> foldl f a l = foldl g a l.
Proof.
  revert a. induction l as [|x l IH]; intros a Hfg; [reflexivity|].
  cbn [foldl]. rewrite Hfg by left. apply IH. intros acc y Hy. apply Hfg. by right.
Qed.

Lemma foldl_id_in {A B} (f : A -> B -> A) (l : list B) (a : A) :
  (forall acc x, x ∈ l -> f acc x = acc) -> foldl f a l = a.
Proof.
  revert a. induction l as [|x l IH]; intros a Hf; [reflexivity|].
  cbn [foldl]. rewrite Hf by left. apply IH. intros acc y Hy. apply Hf. by right.
Qed.

Lemma result_for_each_ext_in {A B} (f g : A -> B -> result B) (l : list A) (b : B) :
  (forall x acc, x ∈ l -> f x acc = g x acc) ->
  result_for_each l f b = result_for_each l g b.
Proof.
  revert b. induction l as [|x l IH]; intros b Hfg; [reflexivity|].
  cbn [result_for_each]. rewrite Hfg by left.
  destruct (g x b); [|reflexivity]. apply IH. intros y acc Hy. apply Hfg. by right.
Qed.

Section WindowProofs.
Context `{Cell}.

(** The lines of a sheet depend on its window alone. *)
Lemma sheet_rows_window (df1 df2 : frame) text :
  same_window 20 10 df1 df2 ->
  OpenRouterExcelExtractor.sheet_rows df1 text
  = OpenRouterExcelExtractor.sheet_rows df2 text.
Proof.
  intros (Hrows & Hcols & Hcells).
  unfold OpenRouterExcelExtractor.sheet_rows. rewrite <- Hrows.
  apply foldl_ext_in. intros acc i Hi.
  apply elem_of_seq in Hi as [_ Hi]. cbn in Hi.
  assert (OpenRouterExcelExtractor.row_text df1 i
          = OpenRouterExcelExtractor.row_text df2 i) as ->; [|reflexivity].
  unfold OpenRouterExcelExtractor.row_text. rewrite <- Hcols.
  apply foldl_ext_in. intros row j Hj.
  apply elem_of_seq in Hj as [_ Hj]. cbn in Hj.
  cbv zeta. by rewrite Hcells.
Qed.

(** Nothing outside the first 20 rows and 10 columns of a sheet
    reaches the text. Two sets of files that list the same sheets for a
    path and, for each of those sheets, either fail alike or give
    sheets that are alike in their first 20 rows and 10 columns, give
    the same text. *)
Theorem excel_to_text_window (files1 files2 : Workbooks) file_path :
  @load_workbook_sheetnames _ files1 file_path
  = @load_workbook_sheetnames _ files2 file_path ->
  (forall sheetnames sheet_name,
      @load_workbook_sheetnames _ files1 file_path = Ok sheetnames ->
      sheet_name ∈ sheetnames ->
      match @read_excel_sheet _ files1 file_path sheet_name,
            @read_excel_sheet _ files2 file_path sheet_name with
      | Ok df1, Ok df2 => same_window 20 10 df1 df2
      | Raise e1, Raise e2 => e1 = e2
      | _, _ => False
      end) ->
  @OpenRouterExcelExtractor._excel_to_text _ files1 file_path
  = @OpenRouterExcelExtractor._excel_to_text _ files2 file_path.
Proof.
  intros Hload Hsheets.
  unfold OpenRouterExcelExtractor._excel_to_text,
    OpenRouterExcelExtractor.excel_to_text_body.
  cbv beta iota zeta delta [mbind result_bind]. rewrite <- Hload.
  destruct (@load_workbook_sheetnames _ files1 file_path) as [sheetnames|e];
    [|reflexivity].
  rewrite (result_for_each_ext_in
             (@OpenRouterExcelExtractor.sheet_text _ files1 file_path)
             (@OpenRouterExcelExtractor.sheet_text _ files2 file_path));
    [reflexivity|].
  intros sheet_name text Hin.
  specialize (Hsheets sheetnames sheet_name eq_refl Hin).
  unfold OpenRouterExcelExtractor.sheet_text.
  cbv beta iota zeta delta [mbind mret result_bind result_ret].
  destruct (@read_excel_sheet _ files1 file_path sheet_name) as [df1|e1],
           (@read_excel_sheet _ files2 file_path sheet_name) as [df2|e2];
    try done.
  - by rewrite (sheet_rows_window df1 df2).
  - by subst.
Qed.

End WindowProofs.

Section TextProofs.
Context `{Cell} `{!Workbooks}.

(** The loop over the sheets stops at the first sheet that cannot be
    read. *)
Lemma sheets_loop_raises file_path before sheet_name after e text :
  (forall name, name ∈ before ->
                exists df, read_excel_sheet file_path name = Ok df) ->
  read_excel_sheet file_path sheet_name = Raise e ->
  result_for_each (before ++ sheet_name :: after)%list
    (OpenRouterExcelExtractor.sheet_text file_path) text = Raise e.
Proof.
  intros Hbefore Hraise. revert text.
  induction before as [|name before IH]; intros text.
  - cbn [app result_for_each]. unfold OpenRouterExcelExtractor.sheet_text at 1.
    cbv beta iota zeta delta [mbind result_bind]. by rewrite Hraise.
  - cbn [app result_for_each]. unfold OpenRouterExcelExtractor.sheet_text at 1.
    cbv beta iota zeta delta [mbind mret result_bind result_ret].
    destruct (Hbefore name) as [df ->]; [left|].
    apply IH. intros name' Hin. apply Hbefore. by right.
Qed.

(** And it only ever adds to the text. *)
Lemma sheets_loop_returns file_path sheetnames text :
  (forall name, name ∈ sheetnames ->
                exists df, read_excel_sheet file_path name = Ok df) ->
  exists rest,
    result_for_each sheetnames (OpenRouterExcelExtractor.sheet_text file_path) text
    = Ok (text ++ rest).
Proof.
  revert text. induction sheetnames as [|name sheetnames IH]; intros text Hread.
  - exists EmptyString. cbn [result_for_each]. f_equal.
    clear. induction text as [|a text IH]; push_append; [done|]. by rewrite <- IH.
  - cbn [result_for_each]. unfold OpenRouterExcelExtractor.sheet_text at 1.
    cbv beta iota zeta delta [mbind mret result_bind result_ret].
    destruct (Hread name) as [df ->]; [left|].
    assert (exists added, OpenRouterExcelExtractor.sheet_rows df
                            (text ++ "=== SHEET: " ++ name ++ " ===" ++ nl)
                          = text ++ added) as [added ->].
    { unfold OpenRouterExcelExtractor.sheet_rows.
      generalize (seq 0 (Nat.min 20 (len df))). intros rows.
      generalize ("=== SHEET: " ++ name ++ " ===" ++ nl). intros added.
      revert added. induction rows as [|i rows IHrows]; intros added.
      - by exists added.
      - cbn [foldl]. destruct (OpenRouterExcelExtractor.row_text df i); [apply IHrows|].
        rewrite append_assoc. apply IHrows. }
    destruct (IH ((text ++ added) ++ nl)) as [rest ->].
    { intros name' Hin. apply Hread. by right. }
    exists (added ++ nl ++ rest). by rewrite !append_assoc.
Qed.

(** The function never raises: what it returns is a text. When the
    workbook cannot be loaded, or one of its sheets cannot be read, the
    text is [Error reading Excel file: ] and the text of the first
    exception, and nothing of what was read before. Otherwise it begins
    with the line [Excel File Analysis: ] and the path, and an empty
    line. *)
Theorem excel_to_text_outcomes file_path :
  (forall e,
      load_workbook_sheetnames file_path = Raise e ->
      OpenRouterExcelExtractor._excel_to_text file_path
      = Ok ("Error reading Excel file: " ++ exn_str e)) /\
  (forall before sheet_name after e,
      load_workbook_sheetnames file_path = Ok (before ++ sheet_name :: after)%list ->
      (forall name, name ∈ before ->
                    exists df, read_excel_sheet file_path name = Ok df) ->
      read_excel_sheet file_path sheet_name = Raise e ->
      OpenRouterExcelExtractor._excel_to_text file_path
      = Ok ("Error reading Excel file: " ++ exn_str e)) /\
  (forall sheetnames,
      load_workbook_sheetnames file_path = Ok sheetnames ->
      (forall name, name ∈ sheetnames ->
                    exists df, read_excel_sheet file_path name = Ok df) ->
      exists rest,
        OpenRouterExcelExtractor._excel_to_text file_path
        = Ok ("Excel File Analysis: " ++ file_path ++ nl ++ nl ++ rest)).
Proof.
  unfold OpenRouterExcelExtractor._excel_to_text,
    OpenRouterExcelExtractor.excel_to_text_body.
  cbv beta iota zeta delta [mbind result_bind].
  split; [|split].
  - by intros e ->.
  - intros before sheet_name after e -> Hbefore Hraise.
    by rewrite (sheets_loop_raises _ _ _ _ e).
  - intros sheetnames -> Hread.
    destruct (sheets_loop_returns file_path sheetnames
                ("Excel File Analysis: " ++ file_path ++ nl ++ nl) Hread)
      as [rest ->].
    exists rest. by rewrite !append_assoc.
Qed.

(** A workbook without a filled cell in any window: each sheet gives
    its heading and an empty line, and no row at all. This is so for
    sheets without rows or without columns. *)
Theorem excel_to_text_blank_sheets file_path sheetnames :
  load_workbook_sheetnames file_path = Ok sheetnames ->
  (forall name,
      name ∈ sheetnames ->
      exists df,
        read_excel_sheet file_path name = Ok df /\
        forall i j, (i < Nat.min 20 (len df))%nat ->
                    (j < Nat.min 10 (n_columns df))%nat ->
                    notna (iloc df i j) = false) ->
  OpenRouterExcelExtractor._excel_to_text file_path
  = Ok (foldl (fun text name => text ++ "=== SHEET: " ++ name ++ " ===" ++ nl ++ nl)
              ("Excel File Analysis: " ++ file_path ++ nl ++ nl) sheetnames).
Proof.
  intros Hload Hblank.
  unfold OpenRouterExcelExtractor._excel_to_text,
    OpenRouterExcelExtractor.excel_to_text_body.
  cbv beta iota zeta delta [mbind result_bind]. rewrite Hload.
  generalize ("Excel File Analysis: " ++ file_path ++ nl ++ nl). intros text.
  assert (result_for_each sheetnames (OpenRouterExcelExtractor.sheet_text file_path) text
          = Ok (foldl (fun text name =>
                         text ++ "=== SHEET: " ++ name ++ " ===" ++ nl ++ nl)
                      text sheetnames)) as ->; [|reflexivity].
  clear Hload. revert text Hblank.
  induction sheetnames as [|name sheetnames IH]; intros text Hblank;
    [reflexivity|].
  cbn [result_for_each foldl]. unfold OpenRouterExcelExtractor.sheet_text at 1.
  cbv beta iota zeta delta [mbind mret result_bind result_ret].
  destruct (Hblank name) as (df & -> & Hna); [left|].
  assert (OpenRouterExcelExtractor.sheet_rows df
            (text ++ "=== SHEET: " ++ name ++ " ===" ++ nl)
          = text ++ "=== SHEET: " ++ name ++ " ===" ++ nl) as ->.
  { unfold OpenRouterExcelExtractor.sheet_rows. apply foldl_id_in.
    intros acc i Hi. apply elem_of_seq in Hi as [_ Hi]. cbn in Hi.
    assert (OpenRouterExcelExtractor.row_text df i = []) as ->; [|reflexivity].
    unfold OpenRouterExcelExtractor.row_text. apply foldl_id_in.
    intros row j Hj. apply elem_of_seq in Hj as [_ Hj]. cbn in Hj.
    cbv zeta. by rewrite Hna. }
  rewrite IH by (intros name' Hin; apply Hblank; by right).
  do 2 f_equal. by rewrite !append_assoc.
Qed.

End TextProofs.

(** * The extraction as a whole *)

Section ExtractProofs.
Context `{Cell} `{!Workbooks} `{PyFloat} `{!JsonDecoder} `{!Requests}.

(** An answer that reports an error is handed back as a failure. *)
Lemma parse_ai_response_error_answer (error : json) :
  OpenRouterExcelExtractor._parse_ai_response (JDict (<["error" := error]> ∅))
  = Ok (<["success" := JBool false]> (<["error" := error]> ∅)).
Proof.
  unfold OpenRouterExcelExtractor._parse_ai_response,
    OpenRouterExcelExtractor.parse_ai_response_body.
  cbv beta iota zeta delta [mbind mret result_bind result_ret json_contains
                            json_getitem].
  rewrite lookup_insert_eq. rewrite bool_decide_eq_true_2 by eauto. reflexivity.
Qed.

(** A request that fails. When [requests.post], [raise_for_status] or
    [response.json] raises a [RequestException], [extract_excel_data]
    returns the failure response whose [error] is [API request failed: ]
    and the text of the exception. When one of them raises anything
    else, [extract_excel_data] raises it: nothing on the way catches
    it. *)
Theorem extract_excel_data_request_failure self excel_file_path excel_text e :
  OpenRouterExcelExtractor._excel_to_text excel_file_path = Ok excel_text ->
  let url := OpenRouterExcelExtractor.base_url self in
  let headers := OpenRouterExcelExtractor.headers self in
  let payload :=
    OpenRouterExcelExtractor.payload
      (OpenRouterExcelExtractor._create_extraction_prompt excel_text) in
  (requests_post url headers payload 60 = Raise e \/
   (exists response,
       requests_post url headers payload 60 = Ok response /\
       response_raise_for_status response = Raise e) \/
   (exists response,
       requests_post url headers payload 60 = Ok response /\
       response_raise_for_status response = Ok tt /\
       response_json response = Raise e)) ->
  OpenRouterExcelExtractor.extract_excel_data self excel_file_path =
  if is_RequestException e then
    Ok (<["success" := JBool false]>
          (<["error" := JStr ("API request failed: " ++ exn_str e)]> ∅))
  else Raise e.
Proof.
  intros Htext url headers payload Hfail.
  assert (Hbody : OpenRouterExcelExtractor.call_openrouter_api_body self
                    (OpenRouterExcelExtractor._create_extraction_prompt excel_text)
                  = Raise e).
  { unfold OpenRouterExcelExtractor.call_openrouter_api_body.
    cbv beta iota zeta delta [mbind result_bind].
    fold url headers payload.
    destruct Hfail as [->|[(r & -> & ->)|(r & -> & -> & ->)]]; reflexivity. }
  unfold OpenRouterExcelExtractor.extract_excel_data.
  cbv beta iota zeta delta [mbind mret result_bind result_ret].
  rewrite Htext. unfold OpenRouterExcelExtractor._call_openrouter_api.
  rewrite Hbody. destruct (is_RequestException e); [|reflexivity].
  by rewrite parse_ai_response_error_answer.
Qed.

(** A workbook that cannot be loaded does not stop the extraction: the
    service is asked all the same, with the error text where the text
    of the workbook belongs, and what [extract_excel_data] returns is
    what the answer of the service parses to. *)
Theorem extract_excel_data_unreadable_workbook
    self excel_file_path e response api_response :
  load_workbook_sheetnames excel_file_path = Raise e ->
  let prompt :=
    OpenRouterExcelExtractor._create_extraction_prompt
      ("Error reading Excel file: " ++ exn_str e) in
  requests_post (OpenRouterExcelExtractor.base_url self)
                (OpenRouterExcelExtractor.headers self)
                (OpenRouterExcelExtractor.payload prompt) 60 = Ok response ->
  response_raise_for_status response = Ok tt ->
  response_json response = Ok api_response ->
  OpenRouterExcelExtractor.extract_excel_data self excel_file_path
  = OpenRouterExcelExtractor._parse_ai_response api_response.
Proof.
  intros Hload prompt Hpost Hstatus Hjson.
  unfold OpenRouterExcelExtractor.extract_excel_data.
  cbv beta iota zeta delta [mbind mret result_bind result_ret].
  unfold OpenRouterExcelExtractor._excel_to_text,
    OpenRouterExcelExtractor.excel_to_text_body.
  cbv beta iota zeta delta [mbind result_bind]. rewrite Hload.
  unfold OpenRouterExcelExtractor._call_openrouter_api,
    OpenRouterExcelExtractor.call_openrouter_api_body.
  cbv beta iota zeta delta [mbind result_bind].
  fold prompt. rewrite Hpost, Hstatus, Hjson.
  by destruct (OpenRouterExcelExtractor._parse_ai_response api_response).
Qed.

End ExtractProofs.

(** * More concrete runs *)

(** ** The dashboard cleanup on a concrete world *)

(** The orphaned entry is counted and deleted; the other stays. *)
Lemma cleanup_counts_the_orphans_witness :
  exists st',
    @cleanup_orphaned_dashboard_entries binary64 DashboardWorld.external
      DashboardWorld.dashboard
      (@start binary64 DashboardWorld.external ∅ example_clock example_dashboard)
    = (Ok 1, st') /\
    DashboardWorld.entries (st_world st') = [ {[ "report_number" := VStr "R-1" ]} ] /\
    st_log st' =
      [ LogWarning "Found orphaned dashboard entry: R-2";
        LogInfo "Cleaned up 1 orphaned dashboard entries" ].
Proof.
  eexists. split.
  - apply (@cleanup_counts_the_orphans binary64 DashboardWorld.external
             DashboardWorld.dashboard
             (@start binary64 DashboardWorld.external ∅ example_clock example_dashboard)
             (DashboardWorld.entries example_dashboard) example_dashboard).
    + reflexivity.
    + intros r [b es]. cbn. unfold MemoryWorld.objects_get.
      by destruct (filter _ _) as [|? [|? ?]].
    + intros entry [b es] r. cbn. unfold DashboardWorld.delete.
      by destruct (entry !! "protected").
    + intros entry Hin. cbn in Hin.
      rewrite !elem_of_cons, elem_of_nil in Hin.
      destruct Hin as [->|[->|[]]].
      * exists (VStr "R-1"). split; [reflexivity|]. intros e He. discriminate He.
      * exists (VStr "R-2"). split; [reflexivity|]. intros e He.
        injection He as <-. reflexivity.
    + intros entry w Hin _. cbn in Hin.
      rewrite !elem_of_cons, elem_of_nil in Hin.
      destruct Hin as [->|[->|[]]]; reflexivity.
  - split; reflexivity.
Defined.

(** The second delete is refused: the function returns 0 after two
    warnings and the failure line, and the first entry is gone. *)
Lemma cleanup_never_raises_witness :
  exists st' warnings,
    @cleanup_orphaned_dashboard_entries binary64 DashboardWorld.external
      DashboardWorld.dashboard
      (@start binary64 DashboardWorld.external ∅ example_clock
         example_dashboard_protected)
    = (Ok 0, st') /\
    st_log st' =
      (warnings ++
       [LogError "Failed to cleanup orphaned entries: Cannot delete a protected entry"])%list /\
    length warnings = 2%nat /\
    forallb is_warning warnings = true /\
    DashboardWorld.entries (st_world st') =
      [ {[ "report_number" := VStr "R-3"; "protected" := VBool true ]} ].
Proof.
  destruct (@cleanup_never_raises binary64 DashboardWorld.external
              DashboardWorld.dashboard
              (@start binary64 DashboardWorld.external ∅ example_clock
                 example_dashboard_protected))
    as (n & st' & warnings & last & Hrun & Hlog & Hwarn & _ & _).
  set (run := @cleanup_orphaned_dashboard_entries binary64 DashboardWorld.external
                DashboardWorld.dashboard _) in Hrun.
  assert (Hn : run.1 = Ok 0) by reflexivity.
  assert (Hl : st_log run.2 =
               [LogWarning "Found orphaned dashboard entry: R-2";
                LogWarning "Found orphaned dashboard entry: R-3";
                LogError "Failed to cleanup orphaned entries: Cannot delete a protected entry"])
    by reflexivity.
  assert (He : DashboardWorld.entries (st_world run.2) =
               [ {[ "report_number" := VStr "R-3"; "protected" := VBool true ]} ])
    by reflexivity.
  rewrite Hrun in Hn, Hl, He. cbn [fst snd] in Hn, Hl, He.
  injection Hn as ->. rewrite Hlog in Hl. cbn [st_log start app] in Hl.
  change [LogWarning "Found orphaned dashboard entry: R-2";
          LogWarning "Found orphaned dashboard entry: R-3";
          LogError "Failed to cleanup orphaned entries: Cannot delete a protected entry"]
    with ([LogWarning "Found orphaned dashboard entry: R-2";
           LogWarning "Found orphaned dashboard entry: R-3"]
          ++ [LogError "Failed to cleanup orphaned entries: Cannot delete a protected entry"])%list
    in Hl.
  apply app_inj_tail in Hl as [Hws Hlast]. subst warnings last.
  exists st', [LogWarning "Found orphaned dashboard entry: R-2";
               LogWarning "Found orphaned dashboard entry: R-3"].
  split; [exact Hrun|]. split; [exact Hlog|]. split; [reflexivity|].
  split; [reflexivity|exact He].
Defined.

(** ** More runs on concrete bags *)

(** A report number of blanks is true: it is kept, and trimmed to the
    empty string. *)
Lemma report_number_resolution_witness :
  exists cleaned st',
    validate_and_clean_excel_data (example_state {[ "report_number" := VStr "   " ]})
    = (Ok cleaned, st') /\
    cleaned !! "report_number" = Some (VStr "").
Proof.
  pose proof (validate_on_strings
                (example_state {[ "report_number" := VStr "   " ]})
                "" "" eq_refl eq_refl) as Hrun.
  eexists _, _. split; [exact Hrun|].
  destruct (report_number_resolution _ _ _ Hrun) as (Htrue & _).
  apply Htrue. reflexivity.
Defined.

(** Two runs on the empty bag, one clock reading apart. *)
Lemma synthesized_report_numbers_differ_witness :
  exists cleaned1 st1' cleaned2 st2',
    validate_and_clean_excel_data (example_state ∅) = (Ok cleaned1, st1') /\
    validate_and_clean_excel_data (tick 1 (example_state ∅)) = (Ok cleaned2, st2') /\
    cleaned1 !! "report_number" <> cleaned2 !! "report_number".
Proof.
  pose proof (validate_on_strings (example_state ∅) "" "" eq_refl eq_refl) as Hrun1.
  pose proof (validate_on_strings (tick 1 (example_state ∅)) "" "" eq_refl eq_refl)
    as Hrun2.
  eexists _, _, _, _. split; [exact Hrun1|]. split; [exact Hrun2|].
  apply (synthesized_report_numbers_differ _ _ _ _ _ _ Hrun1 Hrun2);
    [reflexivity|reflexivity|].
  cbn. lia.
Defined.

(** The record of a bag with a padded tank id and a height. *)
Lemma cleaned_record_shape_witness :
  exists cleaned st',
    validate_and_clean_excel_data
      (example_state {[ "tank_id" := VStr " T-7 "; "height" := VStr "12.5" ]})
    = (Ok cleaned, st') /\
    (exists s, cleaned !! "tank_id" = Some (VStr s) /\ PyStr.strip s = s) /\
    (cleaned !! "height" = Some (VInt 0) \/
     exists x, cleaned !! "height" = Some (VFloat x)).
Proof.
  pose proof (validate_on_strings
                (example_state {[ "tank_id" := VStr " T-7 "; "height" := VStr "12.5" ]})
                " T-7 " "" eq_refl eq_refl) as Hrun.
  eexists _, _. split; [exact Hrun|].
  destruct (cleaned_record_shape _ _ _ Hrun) as (Hstr & _ & Hnum & _).
  split.
  - apply Hstr. repeat constructor.
  - apply Hnum. unfold numeric_fields. repeat constructor.
Defined.

(** The constructor's arguments for the empty bag. *)
Lemma constructor_is_handed_the_record_witness :
  exists cleaned st',
    validate_and_clean_excel_data (example_state ∅) = (Ok cleaned, st') /\
    valid_constructor_fields cleaned = <["status" := VStr "Draft"]> cleaned.
Proof.
  pose proof (validate_on_strings (example_state ∅) "" "" eq_refl eq_refl) as Hrun.
  eexists _, _. split; [exact Hrun|].
  apply (constructor_is_handed_the_record _ _ _ Hrun).
Defined.

(** The log of a call that returns. *)
Lemma create_inspection_log_witness :
  exists inspection st' rn,
    create_inspection_from_excel_data
      (example_state {[ "tank_id" := VStr "T-1"; "report_number" := VStr "R-1" ]})
    = (Ok inspection, st') /\
    inspection !! "report_number" = Some rn /\
    st_log st' =
      [LogInfo ("Successfully created and saved inspection: " ++ py_str rn)].
Proof.
  destruct (returned_true
              (create_inspection_from_excel_data
                 (example_state {[ "tank_id" := VStr "T-1";
                                   "report_number" := VStr "R-1" ]})))
    as (inspection & st' & Hrun); [vm_compute; reflexivity|].
  destruct (create_inspection_log _ _ _ Hrun) as (rn & Hrn & Hlog).
  exists inspection, st', rn. split; [exact Hrun|]. split; [exact Hrn|exact Hlog].
Defined.

(** A store that already holds an inspection [R-1]: the save adds a
    second one, the lookup raises, and both stay in the store. *)
Lemma create_inspection_save_not_undone_witness :
  exists st',
    create_inspection_from_excel_data
      (start {[ "tank_id" := VStr "T-1"; "report_number" := VStr "R-1" ]}
             example_clock
             (MemoryWorld.Make ∅ [ {[ "report_number" := VStr "R-1" ]} ]))
    = (Raise (Exn "MultipleObjectsReturned" "get() returned more than one Inspection"),
       st') /\
    length (MemoryWorld.table (st_world st')) = 2%nat.
Proof.
  pose proof (validate_on_strings
                (start {[ "tank_id" := VStr "T-1"; "report_number" := VStr "R-1" ]}
                       example_clock
                       (MemoryWorld.Make ∅ [ {[ "report_number" := VStr "R-1" ]} ]))
                "T-1" "" eq_refl eq_refl) as Hrun.
  eassert (Hthm : _).
  { eapply (create_inspection_save_not_undone _ _ _ _ _ (VStr "R-1") _ _ Hrun).
    - vm_compute. reflexivity.
    - reflexivity.
    - rewrite cleaned_record_report_number. reflexivity.
    - reflexivity.
    - discriminate. }
  destruct Hthm as (st' & Hcreate & Hworld).
  exists st'. split; [exact Hcreate|]. rewrite Hworld. reflexivity.
Defined.

(** The inspection created from a bag with a padded tank id. *)
Lemma created_inspection_carries_the_record_witness :
  exists inspection st',
    create_inspection_from_excel_data
      (example_state {[ "tank_id" := VStr " T-7 "; "report_number" := VStr "R-1" ]})
    = (Ok inspection, st') /\
    inspection !! "status" = Some (VStr "Draft") /\
    inspection !! "tank_id" = Some (VStr "T-7").
Proof.
  destruct (returned_true
              (create_inspection_from_excel_data
                 (example_state {[ "tank_id" := VStr " T-7 ";
                                   "report_number" := VStr "R-1" ]})))
    as (inspection & st' & Hrun); [vm_compute; reflexivity|].
  exists inspection, st'. split; [exact Hrun|].
  destruct (created_inspection_carries_the_record _ _ _ Hrun)
    as (cleaned & st1 & Hv & Hstatus & Hfields).
  split; [exact Hstatus|].
  rewrite Hfields by (unfold cleaned_keys; rewrite elem_of_list_to_set; left).
  pose proof (validate_on_strings
                (example_state {[ "tank_id" := VStr " T-7 ";
                                  "report_number" := VStr "R-1" ]})
                " T-7 " "" eq_refl eq_refl) as Hv2.
  rewrite Hv2 in Hv. injection Hv as <- _. rewrite cleaned_record_tank_id. reflexivity.
Defined.

(** ** Imports from files *)

(** A world with three files: one row, the same row and another, and
    no row at all. *)
Lemma process_excel_import_first_row_only_witness :
  process_excel_import "one.xlsx"
    (start ∅ example_clock
       (MemoryWorld.Make
          {[ "one.xlsx" := [ {[ "tank_id" := VStr "T-1" ]} ];
             "two.xlsx" := [ {[ "tank_id" := VStr "T-1" ]};
                             {[ "tank_id" := VStr "T-2" ]} ] ]} []))
  = process_excel_import "two.xlsx"
      (start ∅ example_clock
         (MemoryWorld.Make
            {[ "one.xlsx" := [ {[ "tank_id" := VStr "T-1" ]} ];
               "two.xlsx" := [ {[ "tank_id" := VStr "T-1" ]};
                               {[ "tank_id" := VStr "T-2" ]} ] ]} [])).
Proof.
  eapply process_excel_import_first_row_only; reflexivity.
Defined.

Lemma process_excel_import_empty_sheet_witness :
  exists st',
    process_excel_import "empty.xlsx"
      (@start binary64 memory_world ∅ example_clock (MemoryWorld.Make {[ "empty.xlsx" := [] ]} []))
    = (Ok (failure_response
             (IndexError "single positional indexer is out-of-bounds")), st') /\
    st_world st' = MemoryWorld.Make {[ "empty.xlsx" := [] ]} [] /\
    st_log st' =
      [LogError "Excel import failed: single positional indexer is out-of-bounds"].
Proof.
  apply (process_excel_import_empty_sheet "empty.xlsx"
           (@start binary64 memory_world ∅ example_clock (MemoryWorld.Make {[ "empty.xlsx" := [] ]} []))).
  reflexivity.
Defined.

(** ** Answers of the completion service *)

(** An answer that wraps the empty object in prose. *)
Lemma parse_ai_response_reads_between_braces_witness :
  @OpenRouterExcelExtractor._parse_ai_response binary64 example_decoder
    (example_answer "Here is the data: {} Done.")
  = Ok (<["success" := JBool true]>
          (<["data" := JDict ∅]>
             (<["raw_response" := JStr "Here is the data: {} Done."]> ∅))).
Proof.
  apply (@parse_ai_response_reads_between_braces binary64 example_decoder
           (example_answer "Here is the data: {} Done.")
           "Here is the data: " "" " Done.");
    reflexivity.
Defined.

(** An answer whose content is a lone opening brace: the decoder is
    handed the empty text. *)
Lemma parse_ai_response_brace_edges_witness :
  @OpenRouterExcelExtractor._parse_ai_response binary64 example_decoder
    (example_answer "{")
  = Ok (<["success" := JBool false]>
          (<["error" :=
               JStr "JSON parsing error: Expecting value: line 1 column 1 (char 0)"]>
             (<["raw_response" := example_answer "{"]> ∅))).
Proof.
  exact (@proj2 _ _ (@parse_ai_response_brace_edges binary64 example_decoder
                       (example_answer "{") "{" eq_refl eq_refl)
           "" "" eq_refl eq_refl eq_refl).
Defined.

(** ** Workbooks *)

(** Two sheets that differ in their eleventh column only. *)
Lemma excel_to_text_window_witness :
  @OpenRouterExcelExtractor._excel_to_text example_cell
    (example_workbooks false
       (example_frame 11
          [[Some "T-1"; None; None; None; None; None; None; None; None; None;
            Some "north"]]))
    "tanks.xlsx"
  = @OpenRouterExcelExtractor._excel_to_text example_cell
      (example_workbooks false
         (example_frame 11
            [[Some "T-1"; None; None; None; None; None; None; None; None; None;
              Some "south"]]))
      "tanks.xlsx".
Proof.
  apply excel_to_text_window; [reflexivity|].
  intros sheetnames sheet_name [= <-] Hin.
  rewrite !elem_of_cons, elem_of_nil in Hin.
  destruct Hin as [->|[->|[]]].
  - cbn. split; [reflexivity|]. split; [reflexivity|].
    intros i j Hi Hj. cbn in Hi, Hj.
    destruct i as [|i]; [|lia].
    do 10 (destruct j as [|j]; [reflexivity|]). lia.
  - cbn. split; [reflexivity|]. split; [reflexivity|].
    intros i j Hi. cbn in Hi. lia.
Defined.

(** A sheet that cannot be read: the heading and the sheet before it
    are gone from the text. *)
Lemma excel_to_text_outcomes_witness :
  @OpenRouterExcelExtractor._excel_to_text example_cell
    (example_workbooks true (example_frame 1 [[Some "T-1"]])) "tanks.xlsx"
  = Ok "Error reading Excel file: Excel file format cannot be determined".
Proof.
  apply (proj1 (proj2
           (@excel_to_text_outcomes example_cell
              (example_workbooks true (example_frame 1 [[Some "T-1"]]))
              "tanks.xlsx"))
         ["Data"] "Notes" [] (Exn "ValueError" "Excel file format cannot be determined")).
  - reflexivity.
  - intros name Hin. apply list_elem_of_singleton in Hin as ->. by eexists.
  - reflexivity.
Defined.

(** A workbook whose sheets hold nothing. *)
Lemma excel_to_text_blank_sheets_witness :
  @OpenRouterExcelExtractor._excel_to_text example_cell
    (example_workbooks false (example_frame 3 [[None; None; None]])) "tanks.xlsx"
  = Ok ("Excel File Analysis: tanks.xlsx" ++ nl ++ nl
        ++ "=== SHEET: Data ===" ++ nl ++ nl
        ++ "=== SHEET: Notes ===" ++ nl ++ nl).
Proof.
  apply (@excel_to_text_blank_sheets example_cell
           (example_workbooks false (example_frame 3 [[None; None; None]]))
           "tanks.xlsx" ["Data"; "Notes"]); [reflexivity|].
  intros name Hin. rewrite !elem_of_cons, elem_of_nil in Hin.
  destruct Hin as [->|[->|[]]]; eexists; (split; [reflexivity|]).
  - intros i j Hi Hj. cbn in Hi, Hj.
    destruct i as [|i]; [|lia].
    do 3 (destruct j as [|j]; [reflexivity|]). lia.
  - intros i j Hi. cbn in Hi. lia.
Defined.

(** ** Extractions *)

(** A request that times out. *)
Lemma extract_excel_data_request_failure_witness :
  @OpenRouterExcelExtractor.extract_excel_data example_cell
    (example_workbooks false (example_frame 1 [[Some "T-1"]]))
    binary64 example_decoder
    (example_requests (Raise (Exn "Timeout" "Read timed out.")))
    (OpenRouterExcelExtractor.__init__ "key") "tanks.xlsx"
  = Ok (<["success" := JBool false]>
          (<["error" := JStr "API request failed: Read timed out."]> ∅)).
Proof.
  eapply (@extract_excel_data_request_failure example_cell
            (example_workbooks false (example_frame 1 [[Some "T-1"]]))
            binary64 example_decoder
            (example_requests (Raise (Exn "Timeout" "Read timed out.")))
            (OpenRouterExcelExtractor.__init__ "key") "tanks.xlsx" _
            (Exn "Timeout" "Read timed out.")).
  - reflexivity.
  - left. reflexivity.
Defined.

(** No such file, and a service that answers with the empty object:
    the extraction reports success. *)
Lemma extract_excel_data_unreadable_workbook_witness :
  @extract_tank_data_from_excel example_cell
    (example_workbooks false (example_frame 1 [[Some "T-1"]]))
    binary64 example_decoder
    (example_requests (Ok (example_answer "{}")))
    "missing.xlsx" "key"
  = Ok (<["success" := JBool true]>
          (<["data" := JDict ∅]> (<["raw_response" := JStr "{}"]> ∅))).
Proof.
  unfold extract_tank_data_from_excel. cbv zeta.
  rewrite (@extract_excel_data_unreadable_workbook example_cell
             (example_workbooks false (example_frame 1 [[Some "T-1"]]))
             binary64 example_decoder
             (example_requests (Ok (example_answer "{}")))
             (OpenRouterExcelExtractor.__init__ "key") "missing.xlsx"
             (Exn "FileNotFoundError"
                  "[Errno 2] No such file or directory: 'missing.xlsx'")
             (example_answer "{}") (example_answer "{}"));
    reflexivity.
Defined.
